(** * TimeEdit Pro: the temporal grouping and financial aggregation engine

    A shallow embedding of the duration helpers, the week/day grouping of
    [hooks/useFirestoreData.ts] (the [timeGrouping] utility), and the report
    pipeline of [components/Reports.tsx] (available projects, active project
    ids, monthly aggregation, ledger export), with the properties the
    specification states about them.

    Conventions of the embedding.
    - A JavaScript number is a [num]: [NaN] or a finite value, the finite
      values being exact rationals.  IEEE rounding and the infinities are not
      modelled; minute counts are integers, for which doubles are exact.
    - A string is a [string] of bytes.
    - A [Date] is its local time value in milliseconds, in a time zone of
      fixed offset; only valid dates are modelled.
    - [Number] and [String.prototype.localeCompare] belong to the JavaScript
      runtime, not to the repository: they are the fields of [JSRuntime], and
      what the proofs need of them is [NumberLaws] and [CollationLaws].
      [asciiRuntime] is an instance used to run the code on concrete inputs.
    - [Array.prototype.sort] is stable; it is modelled by the stable insertion
      sort [jsSort]. *)

From Stdlib Require Import ZArith QArith Qcanon String Ascii List Lia.
From Stdlib Require Import Sorting.Sorted Sorting.Permutation Structures.OrderedTypeEx.
From stdpp Require Import base numbers list strings gmap sorting.

Local Open Scope Z_scope.
#[local] Set Warnings "-clear-no-such-hyp".

(** ** JavaScript numbers *)

Inductive num : Type :=
| NaN : num
| Fin (q : Qc) : num.

Definition ofZ (z : Z) : num := Fin (Qc_of_Z z).

Definition jsadd (a b : num) : num :=
  match a, b with
  | Fin x, Fin y => Fin (x + y)%Qc
  | _, _ => NaN
  end.

Definition jssub (a b : num) : num :=
  match a, b with
  | Fin x, Fin y => Fin (x - y)%Qc
  | _, _ => NaN
  end.

Definition jsmul (a b : num) : num :=
  match a, b with
  | Fin x, Fin y => Fin (x * y)%Qc
  | _, _ => NaN
  end.

(** [a < b]: false as soon as one side is [NaN]. *)
Definition jslt (a b : num) : bool :=
  match a, b with
  | Fin x, Fin y => match (x ?= y)%Qc with Lt => true | _ => false end
  | _, _ => false
  end.

(** [x / 60]. *)
Definition div60 (a : num) : num :=
  match a with
  | Fin x => Fin (x / Qc_of_Z 60)%Qc
  | NaN => NaN
  end.

(** Truthiness of a number: [0] and [NaN] are falsy. *)
Definition num_truthy (a : num) : bool :=
  match a with
  | Fin x => match (x ?= Qc_of_Z 0)%Qc with Eq => false | _ => true end
  | NaN => false
  end.

Definition isNaN (a : num) : bool :=
  match a with NaN => true | Fin _ => false end.

(** [reduce((acc, x) => acc + x, 0)] and the [+=] accumulations from [0]. *)
Definition sumN (l : list num) : num := fold_left jsadd l (ofZ 0).

(** A decision procedure for equality of numbers that computes. *)
Definition num_eqb (a b : num) : bool :=
  match a, b with
  | NaN, NaN => true
  | Fin x, Fin y => Qeq_bool x y
  | _, _ => false
  end.

(** ** Strings: [split(':')] and decimal numerals *)

Fixpoint split_colon (s : string) : list string :=
  match s with
  | EmptyString => [EmptyString]
  | String c s' =>
      if Ascii.eqb c ":"%char then EmptyString :: split_colon s'
      else match split_colon s' with
           | hd :: tl => String c hd :: tl
           | [] => [String c EmptyString]
           end
  end.

Definition digit_value (c : ascii) : option Z :=
  let n := Z.of_nat (nat_of_ascii c) in
  if (48 <=? n) && (n <=? 57) then Some (n - 48) else None.

Fixpoint decimal_value_acc (acc : Z) (s : string) : option Z :=
  match s with
  | EmptyString => Some acc
  | String c s' =>
      match digit_value c with
      | Some d => decimal_value_acc (10 * acc + d) s'
      | None => None
      end
  end.

(** The value of a string of decimal digits. *)
Definition decimal_value (s : string) : option Z := decimal_value_acc 0 s.

(** ** The runtime *)

Class JSRuntime : Type := {
  Number : string -> num;
  localeCompare : string -> string -> Z
}.

(** What the development assumes of the runtime.  [Number] reads a non-empty
    string of at most fifteen decimal digits as its value (such a value is a
    double). *)
Class NumberLaws (R : JSRuntime) : Prop := {
  Number_decimal : forall s v,
      s <> EmptyString -> (String.length s <= 15)%nat ->
      decimal_value s = Some v -> Number s = ofZ v
}.

(** [localeCompare] is the three-way comparison of a total preorder. *)
Class CollationLaws (R : JSRuntime) : Prop := {
  localeCompare_antisym : forall a b,
      Z.sgn (localeCompare b a) = - Z.sgn (localeCompare a b);
  localeCompare_trans : forall a b c,
      localeCompare a b <= 0 -> localeCompare b c <= 0 -> localeCompare a c <= 0
}.

Definition Z_of_comparison (c : comparison) : Z :=
  match c with Lt => -1 | Eq => 0 | Gt => 1 end.

(** A runtime to compute with.  [NumberDec] reads the empty string as [0]
    and a string of decimal digits as its value, and is [NaN] on every other
    string; JavaScript's [Number] also reads signs, fractions, exponents,
    radix prefixes, [Infinity] and surrounding white space, so the instance
    is to be run on strings without them.  [localeCompare] compares byte by
    byte. *)
Definition NumberDec (s : string) : num :=
  match decimal_value s with
  | Some v => ofZ v
  | None => NaN
  end.

#[export] Instance asciiRuntime : JSRuntime := {|
  Number := NumberDec;
  localeCompare := fun a b => Z_of_comparison (String.compare a b)
|}.

(** ** Duration helpers *)

Section Duration.
Context {R : JSRuntime}.

(** [const [h, m] = s.split(':').map(Number)]: a missing element is
    [undefined], which is [NaN] in the arithmetic that follows. *)
Definition parseHM (s : string) : num * num :=
  let parts := map Number (split_colon s) in
  (nth 0 parts NaN, nth 1 parts NaN).

(** [calculateDuration] of [hooks/useFirestoreData.ts] (and of [App.tsx]). *)
Definition calculateDuration (start end_ : string) : num :=
  let '(h1, m1) := parseHM start in
  let '(h2, m2) := parseHM end_ in
  let minutes :=
    jssub (jsadd (jsmul h2 (ofZ 60)) m2) (jsadd (jsmul h1 (ofZ 60)) m1) in
  if jslt minutes (ofZ 0) then jsadd minutes (ofZ (24 * 60)) else minutes.

(** [getDurationInHours] of [components/Reports.tsx]. *)
Definition getDurationInHours (start end_ : string) : num :=
  let '(h1, m1) := parseHM start in
  let '(h2, m2) := parseHM end_ in
  let minutes :=
    jssub (jsadd (jsmul h2 (ofZ 60)) m2) (jsadd (jsmul h1 (ofZ 60)) m1) in
  let minutes :=
    if jslt minutes (ofZ 0) then jsadd minutes (ofZ (24 * 60)) else minutes in
  div60 minutes.
End Duration.

(** ** Well-formed "HH:MM" strings, as the specification reads them *)

(** Two decimal digits, a colon, two decimal digits; hour below 24 and minute
    below 60.  The result is the pair (hour, minute). *)
Definition parseHHMM (s : string) : option (Z * Z) :=
  match s with
  | String a (String b (String c (String d (String e EmptyString)))) =>
      if Ascii.eqb c ":"%char then
        match digit_value a, digit_value b, digit_value d, digit_value e with
        | Some x1, Some x2, Some y1, Some y2 =>
            let h := 10 * x1 + x2 in
            let m := 10 * y1 + y2 in
            if (h <? 24) && (m <? 60) then Some (h, m) else None
        | _, _, _, _ => None
        end
      else None
  | _ => None
  end.

(** The specification's formula for the minutes between two wall-clock times. *)
Definition specMinutes (h1 m1 h2 m2 : Z) : Z :=
  let d := (h2 * 60 + m2) - (h1 * 60 + m1) in
  if d <? 0 then d + 1440 else d.

(** ** Dates *)

(** The local time value of a valid [Date], in milliseconds. *)
Definition Date : Type := Z.

Definition msPerDay : Z := 86400000.

Definition getTime (d : Date) : Z := d.

(** Days since 1 January 1970 (a Thursday), local time. *)
Definition dayNumber (d : Date) : Z := d / msPerDay.

(** [Date.prototype.getDay]: 0 is Sunday. *)
Definition getDay (d : Date) : Z := (dayNumber d + 4) mod 7.

(** [d.setDate(d.getDate() + n)]. *)
Definition addDays (d : Date) (n : Z) : Date := d + n * msPerDay.

(** [d.setHours(0, 0, 0, 0)], date-fns [startOfDay]. *)
Definition startOfDay (d : Date) : Date := dayNumber d * msPerDay.

(** date-fns [isSameDay]: the two days start at the same time. *)
Definition isSameDay (a b : Date) : bool := startOfDay a =? startOfDay b.

(** The civil date (year, month 1..12, day of month) of a day number. *)
Definition civil_from_days (days : Z) : Z * Z * Z :=
  let z := days + 719468 in
  let era := z / 146097 in
  let doe := z - era * 146097 in
  let yoe := (doe - doe / 1460 + doe / 36524 - doe / 146096) / 365 in
  let doy := doe - (365 * yoe + yoe / 4 - yoe / 100) in
  let mp := (5 * doy + 2) / 153 in
  let d := doy - (153 * mp + 2) / 5 + 1 in
  let m := if mp <? 10 then mp + 3 else mp - 9 in
  let y := yoe + era * 400 in
  ((if m <=? 2 then y + 1 else y), m, d).

Definition getFullYear (d : Date) : Z :=
  let '(y, _, _) := civil_from_days (dayNumber d) in y.

(** [Date.prototype.getMonth], date-fns [getMonth]: 0 is January. *)
Definition getMonth (d : Date) : Z :=
  let '(_, m, _) := civil_from_days (dayNumber d) in m - 1.

(** [new Date(year, monthIndex, day)]: local midnight of a civil date. *)
Definition newDate (year monthIndex day : Z) : Date :=
  let m := monthIndex + 1 in
  let y := if m <=? 2 then year - 1 else year in
  let era := y / 400 in
  let yoe := y - era * 400 in
  let doy := (153 * (if 2 <? m then m - 3 else m + 9) + 2) / 5 + day - 1 in
  let doe := yoe * 365 + yoe / 4 - yoe / 100 + doy in
  (era * 146097 + doe - 719468) * msPerDay.

(** [new Date(year, monthIndex, day, hours, minutes)]. *)
Definition newDateTime (year monthIndex day hours minutes : Z) : Date :=
  newDate year monthIndex day + (hours * 60 + minutes) * 60000.

(** Helper to get start of week (Monday). *)
Definition getStartOfWeek (date : Date) : Date :=
  let d := date in
  let day := getDay d in
  let diff := (if day =? 0 then -6 else 1) - day in
  startOfDay (addDays d diff).

(** ** Entities ([types.ts]) *)

Module TimeEntry.
Record t : Type := mk {
  id : string;
  description : string;
  project : string;
  date : Date;
  startTime : string;
  endTime : string;
  billable : option bool;
  invoiced : option bool
}.
End TimeEntry.

(** [License], [Server] and [Domain] have the same fields. *)
Module CostItem.
Record t : Type := mk {
  id : string;
  name : string;
  price : num;
  project : string;
  client : string;
  date : Date;
  invoiced : bool
}.
End CostItem.

Module Project.
Record t : Type := mk {
  id : string;
  name : string;
  client : option string;
  color : string;
  active : option bool;
  rate : option num
}.
End Project.

Module Client.
Record t : Type := mk {
  id : string;
  name : string;
  color : option string
}.
End Client.

Module DayGroup.
Record t : Type := mk {
  date : Date;
  duration : num;
  entries : list TimeEntry.t
}.
End DayGroup.

Module WeekGroup.
Record t : Type := mk {
  start : Date;
  end_ : Date;
  duration : num;
  days : list DayGroup.t
}.
End WeekGroup.

(** Truthiness of an optional boolean and of an optional string. *)
Definition truthyB (o : option bool) : bool :=
  match o with Some b => b | None => false end.

Definition truthyS (o : option string) : bool :=
  match o with Some s => negb (String.eqb s ""%string) | None => false end.

(** ** [Array.prototype.sort] with a comparator *)

Section Sort.
Context {A : Type} (cmp : A -> A -> Z).

Fixpoint sortInsert (x : A) (l : list A) : list A :=
  match l with
  | [] => [x]
  | y :: l' => if cmp x y <=? 0 then x :: y :: l' else y :: sortInsert x l'
  end.

Definition jsSort (l : list A) : list A := foldr sortInsert [] l.
End Sort.

(** [Array.prototype.findIndex]; [find] followed by a mutation of the element
    found is an update at this index. *)
Fixpoint findIndex {A : Type} (p : A -> bool) (l : list A) : option nat :=
  match l with
  | [] => None
  | x :: l' => if p x then Some 0%nat else S <$> findIndex p l'
  end.

(** [let g = l.find(p); if (!g) { g = fresh; l.push(g); }]: the index of [g]
    and the array afterwards. *)
Definition findOrPush {A : Type} (p : A -> bool) (fresh : A) (l : list A)
  : nat * list A :=
  match findIndex p l with
  | Some i => (i, l)
  | None => (List.length l, l ++ [fresh])
  end.

(** ** Week/day grouping ([groupEntriesByWeek]) *)

Section Grouping.
Context {R : JSRuntime}.

(** Sort entries by date desc, then time desc. *)
Definition compareEntries (a b : TimeEntry.t) : Z :=
  let dateDiff := getTime (TimeEntry.date b) - getTime (TimeEntry.date a) in
  if negb (dateDiff =? 0) then dateDiff
  else localeCompare (TimeEntry.startTime b) (TimeEntry.startTime a).

Definition entryDuration (entry : TimeEntry.t) : num :=
  calculateDuration (TimeEntry.startTime entry) (TimeEntry.endTime entry).

(** [dayGroup.entries.push(entry); dayGroup.duration += duration]. *)
Definition addToDay (entry : TimeEntry.t) (duration : num) (dayGroup : DayGroup.t)
  : DayGroup.t :=
  {| DayGroup.date := DayGroup.date dayGroup;
     DayGroup.duration := jsadd (DayGroup.duration dayGroup) duration;
     DayGroup.entries := DayGroup.entries dayGroup ++ [entry] |}.

(** The part of the loop body that works on the week group found. *)
Definition addToWeek (entry : TimeEntry.t) (duration : num) (weekGroup : WeekGroup.t)
  : WeekGroup.t :=
  let entryDate := TimeEntry.date entry in
  let '(di, days) :=
    findOrPush (fun d => isSameDay (DayGroup.date d) entryDate)
      {| DayGroup.date := entryDate; DayGroup.duration := ofZ 0;
         DayGroup.entries := [] |}
      (WeekGroup.days weekGroup) in
  {| WeekGroup.start := WeekGroup.start weekGroup;
     WeekGroup.end_ := WeekGroup.end_ weekGroup;
     WeekGroup.duration := jsadd (WeekGroup.duration weekGroup) duration;
     WeekGroup.days := alter (addToDay entry duration) di days |}.

(** The body of [sorted.forEach]. *)
Definition groupStep (weeks : list WeekGroup.t) (entry : TimeEntry.t)
  : list WeekGroup.t :=
  let weekStart := getStartOfWeek (TimeEntry.date entry) in
  let weekEnd := addDays weekStart 6 in
  let '(wi, weeks) :=
    findOrPush (fun w => isSameDay (WeekGroup.start w) weekStart)
      {| WeekGroup.start := weekStart; WeekGroup.end_ := weekEnd;
         WeekGroup.duration := ofZ 0; WeekGroup.days := [] |}
      weeks in
  let duration := entryDuration entry in
  alter (addToWeek entry duration) wi weeks.

Definition groupEntriesByWeek (entries : list TimeEntry.t) : list WeekGroup.t :=
  let sorted := jsSort compareEntries entries in
  fold_left groupStep sorted [].
End Grouping.

(** All day groups of a grouping, and all entries in them. *)
Definition allDays (weeks : list WeekGroup.t) : list DayGroup.t :=
  concat (map WeekGroup.days weeks).

Definition allEntries (weeks : list WeekGroup.t) : list TimeEntry.t :=
  concat (map DayGroup.entries (allDays weeks)).

(** ** Arrays as shared objects

    [projects] is an array object owned by the caller; [sort] works in place
    and returns the array it was called on, [filter] returns a new array.  A
    [heap] holds the project arrays, a [ref] is the index of one. *)

Definition heap : Type := list (list Project.t).
Definition ref : Type := nat.
Definition ST (A : Type) : Type := heap -> A * heap.

#[export] Instance ST_ret : MRet ST := fun A x h => (x, h).
#[export] Instance ST_bind : MBind ST :=
  fun A B f c h => let '(x, h') := c h in f x h'.

Definition readArray (a : ref) (h : heap) : list Project.t := default [] (h !! a).

(** A new array object. *)
Definition arrayLiteral (l : list Project.t) : ST ref :=
  fun h => (List.length h, h ++ [l]).

(** [a.filter(p)]. *)
Definition arrayFilter (p : Project.t -> bool) (a : ref) : ST ref :=
  fun h => (List.length h, h ++ [List.filter p (readArray a h)]).

(** [a.sort(cmp)]. *)
Definition arraySort (cmp : Project.t -> Project.t -> Z) (a : ref) : ST ref :=
  fun h => (a, <[a := jsSort cmp (readArray a h)]> h).

(** ** Reports: filters and monthly aggregation *)

Inductive InvoiceFilter : Type :=
| FilterAll
| FilterInvoiced
| FilterNotInvoiced.

Module Monthly.
Record t : Type := mk {
  month : Z;
  totalHours : num;
  hoursAmount : num;
  licenseAmount : num;
  serverAmount : num;
  domainAmount : num;
  totalAmount : num;
  entryCount : nat
}.
End Monthly.

Module Processed.
Record t : Type := mk {
  monthlyData : list Monthly.t;
  grandTotalHours : num;
  grandTotalAmount : num;
  relevantProjectIds : gset string;
  filteredProjects : list Project.t
}.
End Processed.

Section Reports.
Context {R : JSRuntime}.

(** [p.client || 'zz']. *)
Definition clientKey (p : Project.t) : string :=
  if truthyS (Project.client p) then default ""%string (Project.client p)
  else "zz"%string.

(** Sort by Client Name then Project Name. *)
Definition compareProjects (a b : Project.t) : Z :=
  let cA := clientKey a in
  let cB := clientKey b in
  if negb (String.eqb cA cB) then localeCompare cA cB
  else localeCompare (Project.name a) (Project.name b).

Definition hasNoClient (p : Project.t) : bool := negb (truthyS (Project.client p)).

(** [p.client === client.name]. *)
Definition isClientOf (client : Client.t) (p : Project.t) : bool :=
  match Project.client p with
  | Some c => String.eqb c (Client.name client)
  | None => false
  end.

Definition findClient (selectedClientId : string) (clients : list Client.t)
  : option Client.t :=
  List.find (fun c => String.eqb (Client.id c) selectedClientId) clients.

(** 1. Compute available projects based on Client Filter: the body of the
    [availableProjects] memo, on the array objects. *)
Definition availableProjectsM (selectedClientId : string) (projects : ref)
    (clients : list Client.t) : ST ref :=
  filtered ←
    (if String.eqb selectedClientId "all" then mret projects
     else if String.eqb selectedClientId "no-client" then
            arrayFilter hasNoClient projects
     else match findClient selectedClientId clients with
          | Some client => arrayFilter (isClientOf client) projects
          | None => arrayLiteral []
          end);
  arraySort compareProjects filtered.

(** The projects the client selector keeps. *)
Definition selectProjects (selectedClientId : string) (projects : list Project.t)
    (clients : list Client.t) : list Project.t :=
  if String.eqb selectedClientId "all" then projects
  else if String.eqb selectedClientId "no-client" then
         List.filter hasNoClient projects
  else match findClient selectedClientId clients with
       | Some client => List.filter (isClientOf client) projects
       | None => []
       end.

(** The value of the [availableProjects] memo. *)
Definition availableProjects (selectedClientId : string) (projects : list Project.t)
    (clients : list Client.t) : list Project.t :=
  jsSort compareProjects (selectProjects selectedClientId projects clients).

(** Determine active projects (Intersection of Available & Selected). *)
Definition activeProjectIds (availableProjects : list Project.t)
    (selectedProjectIds : gset string) : gset string :=
  let validIds : gset string := list_to_set (map Project.id availableProjects) in
  list_to_set
    (List.filter (fun id => bool_decide (id ∈ validIds)) (elements selectedProjectIds)).

(** [invoiced === true] and [invoiced !== true] under the status selector. *)
Definition matchesInvoice (invoiceFilter : InvoiceFilter) (invoiced : option bool)
  : bool :=
  match invoiceFilter with
  | FilterAll => true
  | FilterInvoiced => truthyB invoiced
  | FilterNotInvoiced => negb (truthyB invoiced)
  end.

(** [isSameYear(d, yearStart)] where [yearStart] is 1 January of
    [selectedYear] (a year outside 0..99, which [new Date] would read as
    19xx). *)
Definition matchesYear (selectedYear : Z) (d : Date) : bool :=
  getFullYear d =? selectedYear.

(** Filter Entries based on Year AND Selected Projects AND Invoice Status. *)
Definition yearEntries (selectedYear : Z) (activeIds : gset string)
    (invoiceFilter : InvoiceFilter) (entries : list TimeEntry.t) : list TimeEntry.t :=
  List.filter
    (fun e =>
       matchesYear selectedYear (TimeEntry.date e)
       && bool_decide (TimeEntry.project e ∈ activeIds)
       && matchesInvoice invoiceFilter (TimeEntry.invoiced e))
    entries.

(** [getMonth(e.date) === getMonth(monthDate)], for the month start
    [monthDate] of index [month]. *)
Definition monthEntries (month : Z) (yearEntries : list TimeEntry.t)
  : list TimeEntry.t :=
  List.filter (fun e => getMonth (TimeEntry.date e) =? month) yearEntries.

Definition entryHours (entry : TimeEntry.t) : num :=
  getDurationInHours (TimeEntry.startTime entry) (TimeEntry.endTime entry).

Definition totalHoursOf (monthEntries : list TimeEntry.t) : num :=
  fold_left (fun acc entry => jsadd acc (entryHours entry)) monthEntries (ofZ 0).

Definition findProject (projects : list Project.t) (pid : string)
  : option Project.t :=
  List.find (fun p => String.eqb (Project.id p) pid) projects.

(** [project?.rate || 0]. *)
Definition rateOf (project : option Project.t) : num :=
  match project with
  | Some p =>
      match Project.rate p with
      | Some r => if num_truthy r then r else ofZ 0
      | None => ofZ 0
      end
  | None => ofZ 0
  end.

Definition hoursAmountOf (projects : list Project.t)
    (monthEntries : list TimeEntry.t) : num :=
  fold_left
    (fun acc entry =>
       let project := findProject projects (TimeEntry.project entry) in
       let hours := entryHours entry in
       let rate := rateOf project in
       jsadd acc (if truthyB (TimeEntry.billable entry)
                  then jsmul hours rate else ofZ 0))
    monthEntries (ofZ 0).

(** The amount of one cost category (licenses, servers or domains). *)
Definition costAmount (selectedYear : Z) (activeIds : gset string)
    (invoiceFilter : InvoiceFilter) (month : Z) (items : list CostItem.t) : num :=
  fold_left (fun acc l => jsadd acc (CostItem.price l))
    (List.filter
       (fun l =>
          ((getMonth (CostItem.date l) =? month)
           && matchesYear selectedYear (CostItem.date l))
          && bool_decide (CostItem.project l ∈ activeIds)
          && matchesInvoice invoiceFilter (Some (CostItem.invoiced l)))
       items)
    (ofZ 0).

(** The twelve months of the year, by index. *)
Definition months : list Z := [0; 1; 2; 3; 4; 5; 6; 7; 8; 9; 10; 11].

(** The record of one month: the body of [months.map].  The project
    breakdown, which no total depends on, is left out. *)
Definition monthlyRecord (projects : list Project.t) (selectedYear : Z)
    (activeIds : gset string) (invoiceFilter : InvoiceFilter)
    (yearEntries : list TimeEntry.t) (licenses servers domains : list CostItem.t)
    (month : Z) : Monthly.t :=
  let monthEntries := monthEntries month yearEntries in
  let totalHours := totalHoursOf monthEntries in
  let hoursAmount := hoursAmountOf projects monthEntries in
  let licenseAmount := costAmount selectedYear activeIds invoiceFilter month licenses in
  let serverAmount := costAmount selectedYear activeIds invoiceFilter month servers in
  let domainAmount := costAmount selectedYear activeIds invoiceFilter month domains in
  {| Monthly.month := month;
     Monthly.totalHours := totalHours;
     Monthly.hoursAmount := hoursAmount;
     Monthly.licenseAmount := licenseAmount;
     Monthly.serverAmount := serverAmount;
     Monthly.domainAmount := domainAmount;
     Monthly.totalAmount :=
       jsadd (jsadd (jsadd hoursAmount licenseAmount) serverAmount) domainAmount;
     Monthly.entryCount := List.length monthEntries |}.

(** The body of the [processedData] memo; the legend is left out. *)
Definition processedData (entries : list TimeEntry.t) (projects : list Project.t)
    (selectedYear : Z) (availableProjects : list Project.t)
    (selectedProjectIds : gset string) (invoiceFilter : InvoiceFilter)
    (licenses servers domains : list CostItem.t) : Processed.t :=
  let activeIds := activeProjectIds availableProjects selectedProjectIds in
  let yearEntries := yearEntries selectedYear activeIds invoiceFilter entries in
  let monthlyData :=
    map (monthlyRecord projects selectedYear activeIds invoiceFilter yearEntries
           licenses servers domains)
      months in
  {| Processed.monthlyData := monthlyData;
     Processed.grandTotalHours :=
       fold_left (fun acc m => jsadd acc (Monthly.totalHours m)) monthlyData (ofZ 0);
     Processed.grandTotalAmount :=
       fold_left (fun acc m => jsadd acc (Monthly.totalAmount m)) monthlyData (ofZ 0);
     Processed.relevantProjectIds := activeIds;
     Processed.filteredProjects := availableProjects |}.

(** One render of the report: the [availableProjects] memo runs on the
    [projects] array, then the [processedData] memo reads both arrays. *)
Definition reportData (selectedClientId : string) (selectedProjectIds : gset string)
    (selectedYear : Z) (invoiceFilter : InvoiceFilter)
    (entries : list TimeEntry.t) (projects : list Project.t)
    (clients : list Client.t) (licenses servers domains : list CostItem.t)
  : Processed.t :=
  let '(available, h) := availableProjectsM selectedClientId 0%nat clients [projects] in
  processedData entries (readArray 0%nat h) selectedYear (readArray available h)
    selectedProjectIds invoiceFilter licenses servers domains.
End Reports.

(** ** Ledger export ([handleExport]) *)

(** An object used as a map from strings: its own string keys in insertion
    order.  (Keys that are canonical array indices come first in JavaScript;
    the entries are sorted before use, so that order shows only between
    entries with equal sort keys.  Keys are assumed not to name a property
    of [Object.prototype].) *)
Definition Obj (V : Type) : Type := list (string * V).

(** [if (!o[k]) o[k] = fresh; o[k] = f(o[k])]. *)
Fixpoint objUpdate {V : Type} (k : string) (fresh : V) (f : V -> V) (o : Obj V)
  : Obj V :=
  match o with
  | [] => [(k, f fresh)]
  | (k', v) :: o' =>
      if String.eqb k' k then (k', f v) :: o'
      else (k', v) :: objUpdate k fresh f o'
  end.

(** [Array.prototype.sort] without a comparator: elements are compared as
    strings, by code units. *)
Definition defaultCompare {A : Type} (toString : A -> string) (x y : A) : Z :=
  Z_of_comparison (String.compare (toString x) (toString y)).

Definition objectObject : string := "[object Object]".

(** [String([k, v])] is [k + "," + String(v)]; an object prints as
    [[object Object]], an array as its elements joined by commas. *)
Definition clientEntryToString (kv : string * Obj (list TimeEntry.t)) : string :=
  (fst kv ++ "," ++ objectObject)%string.

Definition projectEntryToString (kv : string * list TimeEntry.t) : string :=
  (fst kv ++ "," ++ String.concat "," (map (fun _ => objectObject) (snd kv)))%string.

(** The lines of the exported text, in order; the numbers are kept as
    numbers (the text prints them with [toFixed(2)]). *)
Inductive Line : Type :=
| LTitle (year : Z)
| LClientFilter (name : string)
| LBillingStatus (status : string)
| LGenerated
| LRule
| LBlank
| LClient (clientName : string)
| LDashes
| LProject (projectName : string)
| LEntry (entry : TimeEntry.t) (duration : num)
| LProjectTotal (projectTotalHours : num)
| LGrandTotal (grandTotalHours : num).

Section Ledger.
Context {R : JSRuntime}.

Definition currentFilterName (selectedClientId : string) (clients : list Client.t)
  : string :=
  if String.eqb selectedClientId "all" then "All Clients"%string
  else if String.eqb selectedClientId "no-client" then "Internal / No Client"%string
  else match findClient selectedClientId clients with
       | Some c => Client.name c
       | None => "Unknown Client"%string
       end.

(** 1. Get raw entries based on processed IDs AND Invoice status. *)
Definition exportEntries (selectedYear : Z) (relevantProjectIds : gset string)
    (invoiceFilter : InvoiceFilter) (entries : list TimeEntry.t)
  : list TimeEntry.t :=
  jsSort (fun a b => getTime (TimeEntry.date a) - getTime (TimeEntry.date b))
    (List.filter
       (fun e =>
          matchesYear selectedYear (TimeEntry.date e)
          && bool_decide (TimeEntry.project e ∈ relevantProjectIds)
          && matchesInvoice invoiceFilter (TimeEntry.invoiced e))
       entries).

(** [project.client || 'No Client / Internal']. *)
Definition exportClientName (project : Project.t) : string :=
  if truthyS (Project.client project) then default ""%string (Project.client project)
  else "No Client / Internal"%string.

(** 2. Group by Client -> Project. *)
Definition groupForExport (projects : list Project.t)
    (exportEntries : list TimeEntry.t) : Obj (Obj (list TimeEntry.t)) :=
  fold_left
    (fun groupedData entry =>
       match findProject projects (TimeEntry.project entry) with
       | None => groupedData
       | Some project =>
           let clientName := exportClientName project in
           let projectName := Project.name project in
           objUpdate clientName []
             (fun clientProjects =>
                objUpdate projectName [] (fun l => l ++ [entry]) clientProjects)
             groupedData
       end)
    exportEntries [].

Definition projectBlock (kv : string * list TimeEntry.t) : list Line :=
  let '(projectName, projEntries) := kv in
  [LProject projectName]
  ++ map (fun entry => LEntry entry (entryHours entry)) projEntries
  ++ [LProjectTotal
        (fold_left (fun projectTotalHours entry =>
                      jsadd projectTotalHours (entryHours entry))
           projEntries (ofZ 0));
      LBlank].

Definition clientBlock (kv : string * Obj (list TimeEntry.t)) : list Line :=
  let '(clientName, clientProjects) := kv in
  [LClient clientName; LDashes]
  ++ concat (map projectBlock
               (jsSort (defaultCompare projectEntryToString) clientProjects))
  ++ [LBlank].

Definition invoiceStatusText (invoiceFilter : InvoiceFilter) : string :=
  match invoiceFilter with
  | FilterAll => "All Statuses"
  | FilterInvoiced => "Invoiced Only"
  | FilterNotInvoiced => "Not Invoiced Only"
  end.

(** 3. Build Text Content. *)
Definition handleExport (selectedClientId : string) (selectedYear : Z)
    (invoiceFilter : InvoiceFilter) (processedData : Processed.t)
    (entries : list TimeEntry.t) (projects : list Project.t)
    (clients : list Client.t) : list Line :=
  let exportEntries :=
    exportEntries selectedYear (Processed.relevantProjectIds processedData)
      invoiceFilter entries in
  let groupedData := groupForExport projects exportEntries in
  [LTitle selectedYear;
   LClientFilter (currentFilterName selectedClientId clients);
   LBillingStatus (invoiceStatusText invoiceFilter);
   LGenerated; LRule; LBlank]
  ++ concat (map clientBlock (jsSort (defaultCompare clientEntryToString) groupedData))
  ++ [LRule; LGrandTotal (Processed.grandTotalHours processedData)].
End Ledger.

(** The client names and the project names of a ledger, in order of
    appearance. *)
Definition ledgerClients (doc : list Line) : list string :=
  omap (fun l => match l with LClient c => Some c | _ => None end) doc.

Definition ledgerProjects (doc : list Line) : list string :=
  omap (fun l => match l with LProject p => Some p | _ => None end) doc.

(** The day group and the week group that the loop makes for an entry when
    it finds none. *)
Definition freshDay (e : TimeEntry.t) : DayGroup.t :=
  {| DayGroup.date := TimeEntry.date e; DayGroup.duration := ofZ 0;
     DayGroup.entries := [] |}.

Definition freshWeek (e : TimeEntry.t) : WeekGroup.t :=
  {| WeekGroup.start := getStartOfWeek (TimeEntry.date e);
     WeekGroup.end_ := addDays (getStartOfWeek (TimeEntry.date e)) 6;
     WeekGroup.duration := ofZ 0; WeekGroup.days := [] |}.

(** ** Well-formedness of a grouping *)

(** The calendar day of a day group, as a day number, and the day number of
    the Monday that starts the week of day [n]. *)
Definition dayKey (d : DayGroup.t) : Z := dayNumber (DayGroup.date d).

Definition mondayOf (n : Z) : Z := 7 * ((n + 3) / 7) - 3.

Section GroupingInvariant.
Context {R : JSRuntime}.

(** A day group totals its entries, all of which fall on its day. *)
Record dayOk (d : DayGroup.t) : Prop := {
  day_duration :
    DayGroup.duration d = sumN (map entryDuration (DayGroup.entries d));
  day_entries :
    Forall (fun e => dayNumber (TimeEntry.date e) = dayKey d) (DayGroup.entries d)
}.

(** A week group totals its day groups, which are well formed, lie in the
    week that starts at [start], and come latest day first. *)
Record weekOk (w : WeekGroup.t) : Prop := {
  week_duration :
    WeekGroup.duration w = sumN (map DayGroup.duration (WeekGroup.days w));
  week_days : Forall dayOk (WeekGroup.days w);
  week_start :
    Forall (fun d => getStartOfWeek (DayGroup.date d) = WeekGroup.start w)
      (WeekGroup.days w);
  week_nonempty : WeekGroup.days w <> [];
  week_end : WeekGroup.end_ w = addDays (WeekGroup.start w) 6;
  week_sorted : StronglySorted Z.gt (map dayKey (WeekGroup.days w))
}.

(** The weeks are well formed and come latest week first. *)
Definition groupingOk (weeks : list WeekGroup.t) : Prop :=
  Forall weekOk weeks /\ StronglySorted Z.gt (map WeekGroup.start weeks).

(** Every day group is on day [n] or later. *)
Definition lowerBound (n : Z) (weeks : list WeekGroup.t) : Prop :=
  Forall (fun d => n <= dayKey d) (allDays weeks).
End GroupingInvariant.

(** Both times of the entry are well-formed "HH:MM" strings. *)
Definition wellTimed (e : TimeEntry.t) : bool :=
  match parseHHMM (TimeEntry.startTime e), parseHHMM (TimeEntry.endTime e) with
  | Some _, Some _ => true
  | _, _ => false
  end.

(** ** Sample data *)

Definition sampleEntry (id project : string) (date : Date) (startTime endTime : string)
    (billable invoiced : option bool) : TimeEntry.t :=
  {| TimeEntry.id := id; TimeEntry.description := "";
     TimeEntry.project := project; TimeEntry.date := date;
     TimeEntry.startTime := startTime; TimeEntry.endTime := endTime;
     TimeEntry.billable := billable; TimeEntry.invoiced := invoiced |}.

Definition sampleProject (id name : string) (client : option string)
    (rate : option num) : Project.t :=
  {| Project.id := id; Project.name := name; Project.client := client;
     Project.color := "#000000"; Project.active := None; Project.rate := rate |}.

(** Three entries over two weeks: Wednesday 1 May and Friday 3 May 2024,
    and Monday 22 April 2024 with a shift that ends after midnight. *)
Definition sampleEntries : list TimeEntry.t :=
  [ sampleEntry "e1" "p1" (newDateTime 2024 4 1 9 0) "09:00" "10:00" (Some true) None;
    sampleEntry "e2" "p1" (newDateTime 2024 3 22 23 30) "23:30" "00:15" (Some true) None;
    sampleEntry "e3" "p2" (newDateTime 2024 4 3 14 0) "14:00" "15:30" (Some false) None ].

(** A catalog with a project of no client and a project of a client whose
    name sorts after "zz". *)
Definition internalProject : Project.t := sampleProject "p1" "Internal tools" None None.
Definition zzzProject : Project.t :=
  sampleProject "p2" "Audit" (Some "zzz Corp"%string) None.
Definition acmeProject : Project.t :=
  sampleProject "p3" "Website" (Some "Acme"%string) (Some (ofZ 50)).
Definition acmeProject2 : Project.t :=
  sampleProject "p4" "Website 2" (Some "Acme"%string) (Some (ofZ 50)).
Definition betaProject : Project.t :=
  sampleProject "p5" "Shop" (Some "Beta"%string) None.

(** No project with a client comes after a project without one. *)
Definition noClientLast (l : list Project.t) : Prop :=
  forall l1 p l2 q,
    l = l1 ++ p :: l2 -> q ∈ l2 -> hasNoClient p = true -> hasNoClient q = true.

(** A component of the time string is not a number. *)
Definition hasNaNComponent {R : JSRuntime} (s : string) : bool :=
  isNaN (fst (parseHM s)) || isNaN (snd (parseHM s)).

(** The scenario of the specification: project "Website" at 50 per hour, one
    entry on 10 March 2024 from 09:00 to 11:00. *)
Definition marchEntry (startTime endTime : string) (billable : option bool)
  : TimeEntry.t :=
  sampleEntry "e1" "p3" (newDate 2024 2 10) startTime endTime billable (Some false).

Definition marchReport {R : JSRuntime} (e : TimeEntry.t) : Processed.t :=
  reportData "all" {["p3"%string]} 2024 FilterAll [e] [acmeProject] [] [] [] [].

(** Two entries under the client "Acme", on the projects "Website" and
    "Website 2". *)
Definition acmeEntries : list TimeEntry.t :=
  [ sampleEntry "e1" "p3" (newDate 2024 2 10) "09:00" "11:00" (Some true) None;
    sampleEntry "e2" "p4" (newDate 2024 2 11) "09:00" "10:30" (Some true) None ].

Definition acmeLedger {R : JSRuntime} : list Line :=
  let projects := [acmeProject; acmeProject2] in
  let selected : gset string := {["p3"%string; "p4"%string]} in
  let processedData :=
    reportData "all" selected 2024 FilterAll acmeEntries projects [] [] [] [] in
  handleExport "all" 2024 FilterAll processedData acmeEntries projects [].

(** ** Further definitions *)

From Stdlib Require Import Qround.
From stdpp Require Import pretty.

Local Open Scope Z_scope.

(** The string holds a colon. *)
Fixpoint hasColon (s : string) : bool :=
  match s with
  | EmptyString => false
  | String c s' => Ascii.eqb c ":"%char || hasColon s'
  end.

(** The time is a well-formed "HH:MM" string. *)
Definition wellFormedTime (s : string) : bool :=
  match parseHHMM s with Some _ => true | None => false end.

(** ** Reports: the project selection *)

(** [toggleProject]: a copy of the selection with [id] removed if it was
    there, added if not. *)
Definition toggleProject (selectedProjectIds : gset string) (id : string)
  : gset string :=
  let newSet := selectedProjectIds in
  if bool_decide (id ∈ newSet) then newSet ∖ {[id]} else newSet ∪ {[id]}.

(** [new Set(availableProjects.map(p => p.id))]: the selection the sync
    effect sets whenever the available projects change. *)
Definition selectAll (availableProjects : list Project.t) : gset string :=
  list_to_set (map Project.id availableProjects).

(** [toggleAllProjects]. *)
Definition toggleAllProjects (selectedProjectIds : gset string)
    (availableProjects : list Project.t) : gset string :=
  if Nat.eqb (size selectedProjectIds) (List.length availableProjects)
  then ∅
  else selectAll availableProjects.

(** The record of a month in which nothing counts. *)
Definition emptyMonth (month : Z) : Monthly.t :=
  {| Monthly.month := month;
     Monthly.totalHours := ofZ 0;
     Monthly.hoursAmount := ofZ 0;
     Monthly.licenseAmount := ofZ 0;
     Monthly.serverAmount := ofZ 0;
     Monthly.domainAmount := ofZ 0;
     Monthly.totalAmount := ofZ 0;
     Monthly.entryCount := 0%nat |}.

(** The [projects] array as the memos of a render leave it. *)
Definition projectsAfterRender {R : JSRuntime} (selectedClientId : string)
    (projects : list Project.t) (clients : list Client.t) : list Project.t :=
  readArray 0%nat (snd (availableProjectsM selectedClientId 0%nat clients [projects])).

(** The first lines of the ledger, before the client blocks. *)
Definition ledgerHeader (selectedClientId : string) (selectedYear : Z)
    (invoiceFilter : InvoiceFilter) (clients : list Client.t) : list Line :=
  [LTitle selectedYear;
   LClientFilter (currentFilterName selectedClientId clients);
   LBillingStatus (invoiceStatusText invoiceFilter);
   LGenerated; LRule; LBlank].

(** A stale selection: the id of a project that is no longer available. *)
Definition staleSelection : gset string := {["p0"%string]}.

Definition sampleLicense (project : string) (date : Date) (price : Z)
    (invoiced : bool) : CostItem.t :=
  {| CostItem.id := "l1"; CostItem.name := "IDE"; CostItem.price := ofZ price;
     CostItem.project := project; CostItem.client := "Acme";
     CostItem.date := date; CostItem.invoiced := invoiced |}.

(** ** Reading a ledger back

    A consumer that reads the ledger by its markers: a project block is a
    [PROJECT] line, the entry lines that follow it and the total after them,
    under the latest [CLIENT] line. *)

Module Block.
Record t : Type := mk {
  client : string;
  project : string;
  rows : list (TimeEntry.t * num);
  total : option num
}.
End Block.

Fixpoint entryRows (doc : list Line) : list (TimeEntry.t * num) :=
  match doc with
  | LEntry e d :: rest => (e, d) :: entryRows rest
  | _ => []
  end.

Fixpoint totalAfterRows (doc : list Line) : option num :=
  match doc with
  | LEntry _ _ :: rest => totalAfterRows rest
  | LProjectTotal t :: _ => Some t
  | _ => None
  end.

Fixpoint scanBlocks (client : string) (doc : list Line) : list Block.t :=
  match doc with
  | [] => []
  | LClient c :: rest => scanBlocks c rest
  | LProject p :: rest =>
      {| Block.client := client; Block.project := p;
         Block.rows := entryRows rest; Block.total := totalAfterRows rest |}
      :: scanBlocks client rest
  | _ :: rest => scanBlocks client rest
  end.

Definition ledgerBlocks (doc : list Line) : list Block.t := scanBlocks "" doc.

(** The entry lines of a ledger, in order: the entry and the duration
    printed for it. *)
Definition ledgerRows (doc : list Line) : list (TimeEntry.t * num) :=
  omap (fun l => match l with LEntry e d => Some (e, d) | _ => None end) doc.

(** The grand total line of a ledger. *)
Definition ledgerGrandTotal (doc : list Line) : list num :=
  omap (fun l => match l with LGrandTotal t => Some t | _ => None end) doc.

(** The ledger that the export button gives after a render of the report. *)
Definition exportReport {R : JSRuntime} (selectedClientId : string)
    (selectedProjectIds : gset string) (selectedYear : Z)
    (invoiceFilter : InvoiceFilter) (entries : list TimeEntry.t)
    (projects : list Project.t) (clients : list Client.t)
    (licenses servers domains : list CostItem.t) : list Line :=
  handleExport selectedClientId selectedYear invoiceFilter
    (reportData selectedClientId selectedProjectIds selectedYear invoiceFilter
       entries projects clients licenses servers domains)
    entries (projectsAfterRender selectedClientId projects clients) clients.

(** The blocks that a grouped object prints as: the clients in the order
    given, the projects of each in the order of the default sort. *)
Definition blocksOf {R : JSRuntime} (grouped : Obj (Obj (list TimeEntry.t)))
  : list Block.t :=
  flat_map
    (fun kv : string * Obj (list TimeEntry.t) =>
       map (fun pe : string * list TimeEntry.t =>
              {| Block.client := fst kv; Block.project := fst pe;
                 Block.rows := map (fun e => (e, entryHours e)) (snd pe);
                 Block.total :=
                   Some (fold_left (fun acc e => jsadd acc (entryHours e)) (snd pe)
                           (ofZ 0)) |})
         (jsSort (defaultCompare projectEntryToString) (snd kv)))
    grouped.

(** The entries of a grouped object. *)
Definition groupedEntries (grouped : Obj (Obj (list TimeEntry.t)))
  : list TimeEntry.t :=
  flat_map (fun kv : string * Obj (list TimeEntry.t) => flat_map snd (snd kv)) grouped.

(** The entry's project is in the list, under this client and name. *)
Definition resolvesTo (projects : list Project.t) (client project : string)
    (e : TimeEntry.t) : Prop :=
  exists p,
    findProject projects (TimeEntry.project e) = Some p
    /\ exportClientName p = client /\ Project.name p = project.

(** The entries under a project name of a client: there is one, they come
    in ascending date order, and they belong there. *)
Definition groupOk (projects : list Project.t) (client : string)
    (pe : string * list TimeEntry.t) : Prop :=
  snd pe <> []
  /\ StronglySorted (fun a b => TimeEntry.date a <= TimeEntry.date b) (snd pe)
  /\ Forall (resolvesTo projects client (fst pe)) (snd pe).

Definition clientOk (projects : list Project.t)
    (kv : string * Obj (list TimeEntry.t)) : Prop :=
  NoDup (map fst (snd kv)) /\ snd kv <> []
  /\ Forall (groupOk projects (fst kv)) (snd kv).

Definition groupedOk (projects : list Project.t)
    (grouped : Obj (Obj (list TimeEntry.t))) : Prop :=
  NoDup (map fst grouped) /\ Forall (clientOk projects) grouped.

(** A line of a project block. *)
Definition projectLine (l : Line) : Prop :=
  match l with
  | LProject _ | LEntry _ _ | LProjectTotal _ | LBlank => True
  | _ => False
  end.

(** ** Formatting numbers *)

(** [Math.floor]. *)
Definition jsfloor (a : num) : num :=
  match a with
  | Fin x => ofZ (Qfloor x)
  | NaN => NaN
  end.

(** [Math.round]: the nearest integer, a half going up. *)
Definition jsround (a : num) : num :=
  match a with
  | Fin x => ofZ (Qfloor (x + Q2Qc (1 # 2))%Qc)
  | NaN => NaN
  end.

(** The integer part of a rational, toward zero. *)
Definition Qtrunc (q : Q) : Z := if Qle_bool 0 q then Qfloor q else Qceiling q.

(** [a % b]: [NaN] when [b] is 0, otherwise [a - b * trunc(a / b)], which
    has the sign of [a]. *)
Definition jsrem (a b : num) : num :=
  match a, b with
  | Fin x, Fin y =>
      if Qeq_bool y 0 then NaN
      else Fin (x - y * Qc_of_Z (Qtrunc (x / y)%Qc))%Qc
  | _, _ => NaN
  end.

(** [a / c] for a constant [c] other than 0. *)
Definition jsdivc (a : num) (c : Z) : num :=
  match a with
  | Fin x => Fin (x / Qc_of_Z c)%Qc
  | NaN => NaN
  end.

(** [Number.prototype.toString]: "NaN", and the decimal numeral of an
    integer below 10^21 in size, with "-" before a negative one.  The text
    of the other numbers is not modelled. *)
Definition numToString (a : num) : option string :=
  match a with
  | NaN => Some "NaN"%string
  | Fin x =>
      if (Z.pos (Qden x) =? 1) && (Z.abs (Qnum x) <? 10 ^ 21)
      then Some (pretty (Qnum x))
      else None
  end.

Fixpoint repeatChar (n : nat) (c : ascii) : string :=
  match n with
  | O => EmptyString
  | S n' => String c (repeatChar n' c)
  end.

(** [s.padStart(targetLength, c)] for a pad string of one character. *)
Definition padStart (targetLength : nat) (c : ascii) (s : string) : string :=
  (repeatChar (targetLength - String.length s) c ++ s)%string.

(** [App.tsx]. *)
Module App.
(** [formatDuration]: a duration "like 01:00:00" from minutes. *)
Definition formatDuration (minutes : num) : option string :=
  let h := jsfloor (div60 minutes) in
  let m := jsrem minutes (ofZ 60) in
  match numToString h, numToString m with
  | Some hs, Some ms =>
      Some (padStart 2 "0" hs ++ ":" ++ padStart 2 "0" ms ++ ":00")%string
  | _, _ => None
  end.

(** [formatSeconds]: the live seconds counter. *)
Definition formatSeconds (totalSeconds : num) : option string :=
  let h := jsfloor (jsdivc totalSeconds 3600) in
  let m := jsfloor (div60 (jsrem totalSeconds (ofZ 3600))) in
  let s := jsrem totalSeconds (ofZ 60) in
  match numToString h, numToString m, numToString s with
  | Some hs, Some ms, Some ss =>
      Some (padStart 2 "0" hs ++ ":" ++ padStart 2 "0" ms ++ ":"
            ++ padStart 2 "0" ss)%string
  | _, _, _ => None
  end.
End App.

(** [components/Reports.tsx]. *)
Module Reports.
(** [formatDuration], from hours. *)
Definition formatDuration (hours : num) : option string :=
  let h := jsfloor hours in
  let m := jsround (jsmul (jssub hours h) (ofZ 60)) in
  match numToString h, numToString m with
  | Some hs, Some ms =>
      Some (padStart 2 "0" hs ++ ":" ++ padStart 2 "0" ms ++ ":00")%string
  | _, _ => None
  end.
End Reports.

(** ** Reports: the stacked chart *)





Module Segment.
Record t : Type := mk {
  projectId : string;
  hours : num;
  color : string;
  name : string
}.
End Segment.

Section Chart.
Context {R : JSRuntime}.




End Chart.



(** The number is finite and not negative. *)
Definition nonnegative (a : num) : Prop :=
  exists q, a = Fin q /\ (Qc_of_Z 0 <= q)%Qc.

(** ** Names that a plain object inherits

    The names of the properties of [Object.prototype]: on an object literal
    [o], [o[k]] is there and truthy for each of these [k] although [o] has no
    own property of that name. *)
Definition inheritedNames : list string :=
  ["constructor"; "__proto__"; "hasOwnProperty"; "isPrototypeOf";
   "propertyIsEnumerable"; "toLocaleString"; "toString"; "valueOf";
   "__defineGetter__"; "__defineSetter__"; "__lookupGetter__";
   "__lookupSetter__"]%string.

Definition inherited (name : string) : bool :=
  existsb (String.eqb name) inheritedNames.

(** No client name and no project name of the list is an inherited name, so
    that the objects of [handleExport] hold an own property for each. *)
Definition plainNames (projects : list Project.t) : bool :=
  forallb
    (fun p => negb (inherited (exportClientName p))
              && negb (inherited (Project.name p)))
    projects.

(** * Properties *)

(** ** Numbers *)

Lemma num_eqb_eq (a b : num) : num_eqb a b = true -> a = b.
Proof.
  destruct a as [|x], b as [|y]; simpl; try congruence.
  intros Hxy. f_equal. apply Qc_is_canon. by apply Qeq_bool_iff.
Qed.

Lemma jsadd_ofZ (a b : Z) : jsadd (ofZ a) (ofZ b) = ofZ (a + b).
Proof. unfold ofZ; simpl. by rewrite Z2Qc_inj_add. Qed.

Lemma jssub_ofZ (a b : Z) : jssub (ofZ a) (ofZ b) = ofZ (a - b).
Proof. unfold ofZ; simpl. by rewrite Z2Qc_inj_sub. Qed.

Lemma jsmul_ofZ (a b : Z) : jsmul (ofZ a) (ofZ b) = ofZ (a * b).
Proof. unfold ofZ; simpl. by rewrite Z2Qc_inj_mul. Qed.

Lemma jslt_ofZ (a b : Z) : jslt (ofZ a) (ofZ b) = (a <? b).
Proof.
  unfold ofZ, jslt, Qccompare, Qcompare, Z.ltb; simpl.
  by rewrite !Z.mul_1_r.
Qed.

Lemma jsadd_comm (a b : num) : jsadd a b = jsadd b a.
Proof. destruct a, b; simpl; try done. by rewrite Qcplus_comm. Qed.

Lemma jsadd_assoc (a b c : num) : jsadd a (jsadd b c) = jsadd (jsadd a b) c.
Proof. destruct a, b, c; simpl; try done. by rewrite Qcplus_assoc. Qed.

Lemma jsadd_0_l (a : num) : jsadd (ofZ 0) a = a.
Proof. destruct a; simpl; try done. by rewrite Z2Qc_inj_0, Qcplus_0_l. Qed.

Lemma jsadd_0_r (a : num) : jsadd a (ofZ 0) = a.
Proof. by rewrite jsadd_comm, jsadd_0_l. Qed.

Lemma jsadd_NaN_r (a : num) : jsadd a NaN = NaN.
Proof. by destruct a. Qed.

Create Rewrite HintDb ofZ.
#[local] Hint Rewrite jsadd_ofZ jssub_ofZ jsmul_ofZ jslt_ofZ : ofZ.

(** A left fold of additions, from any start, is the start plus the sum. *)
Lemma fold_left_jsadd {A : Type} (f : A -> num) (l : list A) (a : num) :
  fold_left (fun acc x => jsadd acc (f x)) l a = jsadd a (sumN (map f l)).
Proof.
  unfold sumN. revert a.
  induction l as [|x l IH] using rev_ind; intros a; simpl.
  - by rewrite jsadd_0_r.
  - rewrite map_app, !fold_left_app; simpl. by rewrite IH, jsadd_assoc.
Qed.

Lemma sumN_nil : sumN [] = ofZ 0.
Proof. done. Qed.

Lemma sumN_snoc (l : list num) (x : num) : sumN (l ++ [x]) = jsadd (sumN l) x.
Proof. unfold sumN. by rewrite fold_left_app. Qed.

Lemma sumN_cons (x : num) (l : list num) : sumN (x :: l) = jsadd x (sumN l).
Proof.
  induction l as [|y l IH] using rev_ind.
  - unfold sumN; cbn [fold_left]. apply jsadd_comm.
  - by rewrite app_comm_cons, !sumN_snoc, IH, jsadd_assoc.
Qed.

Lemma sumN_app (l1 l2 : list num) : sumN (l1 ++ l2) = jsadd (sumN l1) (sumN l2).
Proof.
  induction l1 as [|x l1 IH]; cbn [app].
  - by rewrite sumN_nil, jsadd_0_l.
  - by rewrite !sumN_cons, IH, jsadd_assoc.
Qed.

Lemma sumN_Permutation (l1 l2 : list num) : l1 ≡ₚ l2 -> sumN l1 = sumN l2.
Proof.
  induction 1 as [|x l1 l2 _ IH|x y l|l1 l2 l3 _ IH1 _ IH2].
  - done.
  - by rewrite !sumN_cons, IH.
  - rewrite !sumN_cons, !jsadd_assoc. by rewrite (jsadd_comm y x).
  - congruence.
Qed.

(** A sum with a [NaN] term is [NaN]. *)
Lemma sumN_NaN (l : list num) : NaN ∈ l -> sumN l = NaN.
Proof.
  induction l as [|x l IH]; [by intros ?%elem_of_nil|].
  rewrite sumN_cons. intros [<-|Hin]%elem_of_cons; [done|].
  by rewrite IH, jsadd_NaN_r.
Qed.

(** ** The runtime instance *)

Lemma string_compare_le_trans (a b c : string) :
  String.compare a b <> Gt -> String.compare b c <> Gt -> String.compare a c <> Gt.
Proof.
  intros Hab Hbc Hac.
  assert (Hca : String_as_OT.lt c a).
  { apply String_as_OT.cmp_lt. unfold String_as_OT.cmp.
    rewrite String.compare_antisym, Hac. done. }
  destruct (String.compare a b) eqn:E1; [| |done].
  - apply String.compare_eq_iff in E1 as ->.
    apply String_as_OT.cmp_lt in Hca. unfold String_as_OT.cmp in Hca.
    rewrite String.compare_antisym, Hca in Hbc. by apply Hbc.
  - apply String_as_OT.cmp_lt in E1.
    pose proof (String_as_OT.lt_trans _ _ _ Hca E1) as Hcb.
    apply String_as_OT.cmp_lt in Hcb. unfold String_as_OT.cmp in Hcb.
    rewrite String.compare_antisym, Hcb in Hbc. by apply Hbc.
Qed.

#[export] Instance asciiRuntime_number : NumberLaws asciiRuntime.
Proof.
  split. intros s v _ _ Hv. simpl. unfold NumberDec. by rewrite Hv.
Qed.

#[export] Instance asciiRuntime_collation : CollationLaws asciiRuntime.
Proof.
  split.
  - intros a b. simpl. rewrite (String.compare_antisym a b).
    by destruct (String.compare b a).
  - intros a b c. simpl. intros Hab Hbc.
    pose proof (string_compare_le_trans a b c) as Htr.
    destruct (String.compare a b), (String.compare b c), (String.compare a c);
      simpl in *; try lia; exfalso; by apply Htr.
Qed.

(** ** Durations *)

Lemma digit_value_not_colon (c : ascii) (x : Z) :
  digit_value c = Some x -> Ascii.eqb c ":"%char = false.
Proof.
  intros Hc. destruct (Ascii.eqb_spec c ":"%char) as [->|]; [|done].
  vm_compute in Hc. discriminate.
Qed.

Lemma digit_value_range (c : ascii) (x : Z) : digit_value c = Some x -> 0 <= x <= 9.
Proof.
  unfold digit_value. intros Hc.
  destruct (_ && _) eqn:E; [|done].
  apply andb_prop in E as [?%Z.leb_le ?%Z.leb_le]. simplify_eq. lia.
Qed.

Section DurationFacts.
Context {R : JSRuntime} {HR : NumberLaws R}.

(** On a well-formed "HH:MM" string the destructured pair is the hour and
    the minute. *)
Lemma parseHM_well_formed (s : string) (h m : Z) :
  parseHHMM s = Some (h, m) ->
  parseHM s = (ofZ h, ofZ m) /\ 0 <= h < 24 /\ 0 <= m < 60.
Proof.
  unfold parseHHMM. intros Hs.
  destruct s as [|a [|b [|c [|d [|e [|? ?]]]]]]; try done.
  destruct (Ascii.eqb_spec c ":"%char) as [->|]; [|done].
  destruct (digit_value a) as [x1|] eqn:Ha; [|done].
  destruct (digit_value b) as [x2|] eqn:Hb; [|done].
  destruct (digit_value d) as [y1|] eqn:Hd; [|done].
  destruct (digit_value e) as [y2|] eqn:He; [|done].
  destruct (_ && _) eqn:E; [|done].
  apply andb_prop in E as [?%Z.ltb_lt ?%Z.ltb_lt]. simplify_eq.
  pose proof (digit_value_range _ _ Ha). pose proof (digit_value_range _ _ Hb).
  pose proof (digit_value_range _ _ Hd). pose proof (digit_value_range _ _ He).
  split; [|lia].
  unfold parseHM. simpl.
  rewrite (digit_value_not_colon _ _ Ha), (digit_value_not_colon _ _ Hb),
    (digit_value_not_colon _ _ Hd), (digit_value_not_colon _ _ He).
  simpl. f_equal.
  - apply Number_decimal; [done|simpl; lia|].
    unfold decimal_value; simpl. rewrite Ha, Hb. f_equal; lia.
  - apply Number_decimal; [done|simpl; lia|].
    unfold decimal_value; simpl. rewrite Hd, He. f_equal; lia.
Qed.

Lemma calculateDuration_well_formed (start end_ : string) (h1 m1 h2 m2 : Z) :
  parseHHMM start = Some (h1, m1) ->
  parseHHMM end_ = Some (h2, m2) ->
  calculateDuration start end_ = ofZ (specMinutes h1 m1 h2 m2).
Proof.
  intros [Hs _]%parseHM_well_formed [He _]%parseHM_well_formed.
  unfold calculateDuration, specMinutes. rewrite Hs, He.
  autorewrite with ofZ.
  destruct (_ <? 0); by autorewrite with ofZ.
Qed.

Lemma specMinutes_range (s e : string) (h1 m1 h2 m2 : Z) :
  parseHHMM s = Some (h1, m1) ->
  parseHHMM e = Some (h2, m2) ->
  0 <= specMinutes h1 m1 h2 m2 < 1440.
Proof.
  intros (_ & ? & ?)%parseHM_well_formed (_ & ? & ?)%parseHM_well_formed.
  unfold specMinutes. destruct (Z.ltb_spec ((h2 * 60 + m2) - (h1 * 60 + m1)) 0); lia.
Qed.
End DurationFacts.

(** C4. For well-formed "HH:MM" strings the duration in minutes is
    (end.hour*60+end.minute) - (start.hour*60+start.minute), plus 1440 when
    that difference is negative; it is never negative, it is 0 when end
    equals start, and it is 45 from "23:30" to "00:15". *)
Theorem C4_calculateDuration_well_formed {R : JSRuntime} {HR : NumberLaws R}
    (start end_ : string) (h1 m1 h2 m2 : Z) :
  parseHHMM start = Some (h1, m1) ->
  parseHHMM end_ = Some (h2, m2) ->
  calculateDuration start end_
  = ofZ (let d := (h2 * 60 + m2) - (h1 * 60 + m1) in if d <? 0 then d + 1440 else d)
  /\ (exists n : Z, calculateDuration start end_ = ofZ n /\ 0 <= n)
  /\ (end_ = start -> calculateDuration start end_ = ofZ 0)
  /\ calculateDuration "23:30" "00:15" = ofZ 45.
Proof.
  intros Hs He.
  pose proof (calculateDuration_well_formed _ _ _ _ _ _ Hs He) as Hd.
  pose proof (specMinutes_range _ _ _ _ _ _ Hs He) as Hr.
  split; [exact Hd|]. split; [|split].
  - exists (specMinutes h1 m1 h2 m2). split; [done|lia].
  - intros ->. rewrite Hd. f_equal. simplify_eq.
    unfold specMinutes. rewrite Z.sub_diag. done.
  - by rewrite (calculateDuration_well_formed "23:30" "00:15" 23 30 0 15).
Qed.

Lemma C4_witness :
  calculateDuration (R := asciiRuntime) "22:15" "06:45" = ofZ 510
  /\ (exists n : Z, calculateDuration (R := asciiRuntime) "22:15" "06:45" = ofZ n /\ 0 <= n)
  /\ ("06:45"%string = "22:15"%string ->
      calculateDuration (R := asciiRuntime) "22:15" "06:45" = ofZ 0)
  /\ calculateDuration (R := asciiRuntime) "23:30" "00:15" = ofZ 45.
Proof.
  apply (C4_calculateDuration_well_formed (R := asciiRuntime) "22:15" "06:45" 22 15 6 45);
    reflexivity.
Defined.

(** ** Sorting *)

Section SortFacts.
Context {A : Type} (cmp : A -> A -> Z).

Lemma sortInsert_Permutation (x : A) (l : list A) : sortInsert cmp x l ≡ₚ x :: l.
Proof.
  induction l as [|y l IH]; simpl; [done|].
  destruct (cmp x y <=? 0); [done|].
  rewrite IH. apply perm_swap.
Qed.

Lemma jsSort_Permutation (l : list A) : jsSort cmp l ≡ₚ l.
Proof.
  induction l as [|x l IH]; simpl; [done|].
  by rewrite sortInsert_Permutation, IH.
Qed.

(** The sorted array is ordered by every relation that holds of [x], [y]
    when the comparator puts [x] first, and of [y], [x] when it does not. *)
Lemma sortInsert_Sorted (Rel : relation A) (x : A) (l : list A) :
  (forall a b, cmp a b <= 0 -> Rel a b) ->
  (forall a b, 0 < cmp a b -> Rel b a) ->
  Sorted Rel l -> Sorted Rel (sortInsert cmp x l).
Proof.
  intros Hle Hgt. induction 1 as [|y l Hl IH Hhd]; simpl.
  - by repeat constructor.
  - destruct (Z.leb_spec (cmp x y) 0) as [Hxy|Hxy].
    + constructor; [by constructor|]. constructor. by apply Hle.
    + constructor; [done|].
      destruct Hhd as [|z l Hyz]; simpl.
      * constructor. by apply Hgt.
      * destruct (cmp x z <=? 0); constructor; [by apply Hgt|done].
Qed.

Lemma jsSort_Sorted (Rel : relation A) (l : list A) :
  (forall a b, cmp a b <= 0 -> Rel a b) ->
  (forall a b, 0 < cmp a b -> Rel b a) ->
  Sorted Rel (jsSort cmp l).
Proof.
  intros Hle Hgt. induction l as [|x l IH]; simpl; [constructor|].
  by apply sortInsert_Sorted.
Qed.
End SortFacts.

Lemma StronglySorted_snoc {A : Type} (Rel : relation A) (l : list A) (x : A) :
  StronglySorted Rel l -> Forall (fun y => Rel y x) l -> StronglySorted Rel (l ++ [x]).
Proof.
  intros Hl Hx. apply StronglySorted_app_2; [|done|by repeat constructor].
  intros y z Hy ->%list_elem_of_singleton.
  by eapply Forall_forall in Hx.
Qed.

(** ** Finding, then updating in place *)

Lemma findIndex_Some {A : Type} (p : A -> bool) (l : list A) (i : nat) :
  findIndex p l = Some i ->
  exists l1 x l2,
    l = l1 ++ x :: l2 /\ List.length l1 = i /\ p x = true
    /\ Forall (fun y => p y = false) l1.
Proof.
  revert i. induction l as [|y l IH]; intros i; simpl; [done|].
  destruct (p y) eqn:Hy.
  - intros [= <-]. by exists [], y, l.
  - destruct (findIndex p l) as [j|]; simpl; [|done].
    intros [= <-]. destruct (IH j eq_refl) as (l1 & x & l2 & -> & <- & Hx & Hl1).
    exists (y :: l1), x, l2. repeat split; [done|]. by constructor.
Qed.

Lemma findIndex_None {A : Type} (p : A -> bool) (l : list A) :
  findIndex p l = None -> Forall (fun y => p y = false) l.
Proof.
  induction l as [|y l IH]; simpl; [by constructor|].
  destruct (p y) eqn:Hy; [done|].
  destruct (findIndex p l); simpl; [done|]. intros _. constructor; auto.
Qed.

(** Either the first element that satisfies [p] is updated where it is, or
    there is none and the update of [fresh] is appended. *)
Lemma findOrPush_alter {A : Type} (p : A -> bool) (fresh : A) (f : A -> A)
    (l l' : list A) (i : nat) :
  findOrPush p fresh l = (i, l') ->
  (exists l1 x l2,
      l = l1 ++ x :: l2 /\ p x = true /\ Forall (fun y => p y = false) l1
      /\ alter f i l' = l1 ++ f x :: l2)
  \/ (Forall (fun y => p y = false) l /\ alter f i l' = l ++ [f fresh]).
Proof.
  unfold findOrPush. destruct (findIndex p l) as [j|] eqn:Hfind; intros [= <- <-].
  - left. destruct (findIndex_Some _ _ _ Hfind) as (l1 & x & l2 & -> & <- & Hx & Hl1).
    exists l1, x, l2. repeat split; [done..|].
    rewrite alter_app_r_alt by done. by rewrite Nat.sub_diag.
  - right. split; [by apply findIndex_None|].
    rewrite alter_app_r_alt by done. by rewrite Nat.sub_diag.
Qed.

(** ** Dates *)

Ltac Zify.zify_post_hook ::= Z.to_euclidean_division_equations.

Lemma dayNumber_addDays (d : Date) (n : Z) : dayNumber (addDays d n) = dayNumber d + n.
Proof. unfold dayNumber, addDays. by rewrite Z.div_add. Qed.

Lemma dayNumber_startOfDay (d : Date) : dayNumber (startOfDay d) = dayNumber d.
Proof. unfold startOfDay, dayNumber at 1. by rewrite Z.div_mul. Qed.

Lemma dayNumber_mono (a b : Date) : a <= b -> dayNumber a <= dayNumber b.
Proof. intros. by apply Z.div_le_mono. Qed.

Lemma isSameDay_true (a b : Date) : isSameDay a b = true <-> dayNumber a = dayNumber b.
Proof. unfold isSameDay, startOfDay, msPerDay. rewrite Z.eqb_eq. lia. Qed.

Lemma isSameDay_false (a b : Date) : isSameDay a b = false <-> dayNumber a <> dayNumber b.
Proof. rewrite <-isSameDay_true. by destruct (isSameDay a b). Qed.

(** The start of the week is midnight of the Monday on or before the day. *)
Lemma getStartOfWeek_mondayOf (d : Date) :
  getStartOfWeek d = mondayOf (dayNumber d) * msPerDay.
Proof.
  unfold getStartOfWeek, startOfDay, getDay, mondayOf. rewrite dayNumber_addDays.
  f_equal. destruct (Z.eqb_spec ((dayNumber d + 4) mod 7) 0); lia.
Qed.

Lemma dayNumber_getStartOfWeek (d : Date) :
  dayNumber (getStartOfWeek d) = mondayOf (dayNumber d).
Proof. rewrite getStartOfWeek_mondayOf. unfold dayNumber at 1. by rewrite Z.div_mul. Qed.

Lemma getDay_getStartOfWeek (d : Date) : getDay (getStartOfWeek d) = 1.
Proof. unfold getDay. rewrite dayNumber_getStartOfWeek. unfold mondayOf. lia. Qed.

Lemma getStartOfWeek_mono (a b : Date) :
  dayNumber a <= dayNumber b -> getStartOfWeek a <= getStartOfWeek b.
Proof. rewrite !getStartOfWeek_mondayOf. unfold mondayOf, msPerDay. lia. Qed.

(** The week of a day holds the day: it starts at most six days before. *)
Lemma mondayOf_range (n : Z) : mondayOf n <= n <= mondayOf n + 6.
Proof. unfold mondayOf. lia. Qed.

Lemma getMonth_range (d : Date) : 0 <= getMonth d < 12.
Proof.
  unfold getMonth, civil_from_days. cbv zeta.
  match goal with
  | |- context [if ?b <? 10 then _ else _] => destruct (Z.ltb_spec b 10)
  end; lia.
Qed.

(** ** Week/day grouping *)

Lemma allDays_app (W1 W2 : list WeekGroup.t) : allDays (W1 ++ W2) = allDays W1 ++ allDays W2.
Proof. unfold allDays. by rewrite map_app, concat_app. Qed.

Lemma allDays_cons (w : WeekGroup.t) (W : list WeekGroup.t) :
  allDays (w :: W) = WeekGroup.days w ++ allDays W.
Proof. done. Qed.

Lemma allEntries_app (W1 W2 : list WeekGroup.t) :
  allEntries (W1 ++ W2) = allEntries W1 ++ allEntries W2.
Proof. unfold allEntries. by rewrite allDays_app, map_app, concat_app. Qed.

Lemma allEntries_cons (w : WeekGroup.t) (W : list WeekGroup.t) :
  allEntries (w :: W) = concat (map DayGroup.entries (WeekGroup.days w)) ++ allEntries W.
Proof. unfold allEntries. by rewrite allDays_cons, map_app, concat_app. Qed.

Section GroupingFacts.
Context {R : JSRuntime}.

Lemma addToWeek_start (e : TimeEntry.t) (dur : num) (w : WeekGroup.t) :
  WeekGroup.start (addToWeek e dur w) = WeekGroup.start w.
Proof. unfold addToWeek. by destruct (findOrPush _ _ _). Qed.

Lemma addToWeek_end (e : TimeEntry.t) (dur : num) (w : WeekGroup.t) :
  WeekGroup.end_ (addToWeek e dur w) = WeekGroup.end_ w.
Proof. unfold addToWeek. by destruct (findOrPush _ _ _). Qed.

Lemma addToWeek_duration (e : TimeEntry.t) (dur : num) (w : WeekGroup.t) :
  WeekGroup.duration (addToWeek e dur w) = jsadd (WeekGroup.duration w) dur.
Proof. unfold addToWeek. by destruct (findOrPush _ _ _). Qed.

Lemma groupStep_nil (e : TimeEntry.t) :
  groupStep [] e = [addToWeek e (entryDuration e) (freshWeek e)].
Proof. reflexivity. Qed.

Lemma addToWeek_freshWeek_days (e : TimeEntry.t) (dur : num) :
  WeekGroup.days (addToWeek e dur (freshWeek e)) = [addToDay e dur (freshDay e)].
Proof. reflexivity. Qed.

Lemma groupStep_same_week (w : WeekGroup.t) (e : TimeEntry.t) :
  isSameDay (WeekGroup.start w) (getStartOfWeek (TimeEntry.date e)) = true ->
  groupStep [w] e = [addToWeek e (entryDuration e) w].
Proof.
  intros Hw. unfold groupStep, findOrPush. cbn [findIndex]. by rewrite Hw.
Qed.

Lemma addToWeek_other_day (w : WeekGroup.t) (d : DayGroup.t) (e : TimeEntry.t)
    (dur : num) :
  WeekGroup.days w = [d] ->
  isSameDay (DayGroup.date d) (TimeEntry.date e) = false ->
  WeekGroup.days (addToWeek e dur w) = [d; addToDay e dur (freshDay e)].
Proof.
  intros Hw Hd. unfold addToWeek, findOrPush. rewrite Hw. cbn [findIndex].
  by rewrite Hd.
Qed.

(** The week of a date holds the date. *)
Lemma getStartOfWeek_range (d : Date) :
  getStartOfWeek d <= d < addDays (getStartOfWeek d) 7.
Proof.
  rewrite getStartOfWeek_mondayOf. unfold addDays, mondayOf, dayNumber, msPerDay. lia.
Qed.

(** The entry joins the day group of its day, or a new last day group. *)
Lemma addToWeek_days (e : TimeEntry.t) (dur : num) (w : WeekGroup.t) :
  (exists D1 d D2,
      WeekGroup.days w = D1 ++ d :: D2
      /\ dayKey d = dayNumber (TimeEntry.date e)
      /\ WeekGroup.days (addToWeek e dur w) = D1 ++ addToDay e dur d :: D2)
  \/ (Forall (fun d => dayKey d <> dayNumber (TimeEntry.date e)) (WeekGroup.days w)
      /\ WeekGroup.days (addToWeek e dur w)
         = WeekGroup.days w ++ [addToDay e dur (freshDay e)]).
Proof.
  unfold addToWeek.
  destruct (findOrPush _ _ _) as [di days] eqn:E. simpl.
  apply (findOrPush_alter _ _ (addToDay e dur)) in E
    as [(D1 & d & D2 & Hw & Hd & _ & Halter)|[Hnone Halter]].
  - left. exists D1, d, D2. repeat split; [done| |done].
    by apply isSameDay_true in Hd.
  - right. split; [|done].
    eapply Forall_impl; [exact Hnone|]. intros d Hd. by apply isSameDay_false in Hd.
Qed.

(** The entry joins the week group of its week, or a new last week group. *)
Lemma groupStep_cases (W : list WeekGroup.t) (e : TimeEntry.t) :
  (exists W1 w W2,
      W = W1 ++ w :: W2
      /\ dayNumber (WeekGroup.start w) = mondayOf (dayNumber (TimeEntry.date e))
      /\ groupStep W e = W1 ++ addToWeek e (entryDuration e) w :: W2)
  \/ (Forall (fun w => dayNumber (WeekGroup.start w)
                       <> mondayOf (dayNumber (TimeEntry.date e))) W
      /\ groupStep W e = W ++ [addToWeek e (entryDuration e) (freshWeek e)]).
Proof.
  unfold groupStep.
  destruct (findOrPush _ _ _) as [wi weeks] eqn:E.
  apply (findOrPush_alter _ _ (addToWeek e (entryDuration e))) in E
    as [(W1 & w & W2 & HW & Hw & _ & Halter)|[Hnone Halter]].
  - left. exists W1, w, W2. repeat split; [done| |done].
    apply isSameDay_true in Hw. by rewrite dayNumber_getStartOfWeek in Hw.
  - right. split; [|done].
    eapply Forall_impl; [exact Hnone|]. intros w Hw.
    apply isSameDay_false in Hw. by rewrite dayNumber_getStartOfWeek in Hw.
Qed.

Lemma addToWeek_entries (e : TimeEntry.t) (dur : num) (w : WeekGroup.t) :
  concat (map DayGroup.entries (WeekGroup.days (addToWeek e dur w)))
  ≡ₚ concat (map DayGroup.entries (WeekGroup.days w)) ++ [e].
Proof.
  destruct (addToWeek_days e dur w) as [(D1 & d & D2 & -> & _ & ->)|[_ ->]].
  - rewrite !map_app, !concat_app; simpl. solve_Permutation.
  - rewrite map_app, concat_app; simpl. solve_Permutation.
Qed.

(** No entry is lost and none is added by a step of the loop. *)
Lemma groupStep_entries (W : list WeekGroup.t) (e : TimeEntry.t) :
  allEntries (groupStep W e) ≡ₚ allEntries W ++ [e].
Proof.
  destruct (groupStep_cases W e) as [(W1 & w & W2 & -> & _ & ->)|[_ ->]].
  - rewrite !allEntries_app, !allEntries_cons, addToWeek_entries.
    solve_Permutation.
  - rewrite allEntries_app, allEntries_cons, addToWeek_entries. simpl.
    solve_Permutation.
Qed.

Lemma addToWeek_keys (e : TimeEntry.t) (dur : num) (w : WeekGroup.t) :
  map dayKey (WeekGroup.days (addToWeek e dur w)) = map dayKey (WeekGroup.days w)
  \/ map dayKey (WeekGroup.days (addToWeek e dur w))
     = map dayKey (WeekGroup.days w) ++ [dayNumber (TimeEntry.date e)].
Proof.
  destruct (addToWeek_days e dur w) as [(D1 & d & D2 & -> & _ & ->)|[_ ->]].
  - left. by rewrite !map_app.
  - right. by rewrite map_app.
Qed.

Lemma addToWeek_lowerBound (n : Z) (e : TimeEntry.t) (dur : num) (w : WeekGroup.t) :
  Forall (fun d => n <= dayKey d) (WeekGroup.days w) ->
  n <= dayNumber (TimeEntry.date e) ->
  Forall (fun d => n <= dayKey d) (WeekGroup.days (addToWeek e dur w)).
Proof.
  intros Hw Hn.
  destruct (addToWeek_days e dur w) as [(D1 & d & D2 & Hd & Hk & ->)|[_ ->]].
  - rewrite Hd in Hw. apply Forall_app in Hw as [H1 [Hd' H2]%Forall_cons].
    apply Forall_app. split; [done|]. constructor; [exact Hd'|done].
  - apply Forall_app. split; [done|]. repeat constructor. exact Hn.
Qed.

Lemma groupStep_lowerBound (n : Z) (W : list WeekGroup.t) (e : TimeEntry.t) :
  lowerBound n W -> n <= dayNumber (TimeEntry.date e) -> lowerBound n (groupStep W e).
Proof.
  unfold lowerBound. intros HW Hn.
  destruct (groupStep_cases W e) as [(W1 & w & W2 & -> & _ & ->)|[_ ->]].
  - rewrite allDays_app, allDays_cons in *.
    apply Forall_app in HW as [HW1 [Hw HW2]%Forall_app].
    apply Forall_app. split; [done|]. apply Forall_app. split; [|done].
    by apply addToWeek_lowerBound.
  - rewrite allDays_app, allDays_cons. apply Forall_app. split; [done|].
    apply Forall_app. split; [|constructor].
    apply addToWeek_lowerBound; [constructor|done].
Qed.

Lemma dayOk_addToDay (e : TimeEntry.t) (d : DayGroup.t) :
  dayOk d -> dayKey d = dayNumber (TimeEntry.date e) ->
  dayOk (addToDay e (entryDuration e) d).
Proof.
  intros [Hdur Hent] Hkey. split; unfold addToDay, dayKey in *;
    cbn [DayGroup.duration DayGroup.entries DayGroup.date].
  - rewrite map_app; cbn [map]. by rewrite sumN_snoc, Hdur.
  - apply Forall_app. split; [done|]. by repeat constructor.
Qed.

Lemma dayOk_freshDay (e : TimeEntry.t) : dayOk (freshDay e).
Proof. split; simpl; [done|constructor]. Qed.

Lemma sumN_addToDay (e : TimeEntry.t) (dur : num) (D1 D2 : list DayGroup.t)
    (d : DayGroup.t) :
  sumN (map DayGroup.duration (D1 ++ addToDay e dur d :: D2))
  = jsadd (sumN (map DayGroup.duration (D1 ++ d :: D2))) dur.
Proof.
  rewrite !map_app, !sumN_app; simpl. rewrite !sumN_cons.
  rewrite <-!jsadd_assoc. f_equal.
  rewrite (jsadd_comm (sumN _) dur), !jsadd_assoc. done.
Qed.

(** A week group stays well formed when an entry of its week, not later
    than its days, is added. *)
Lemma addToWeek_ok (e : TimeEntry.t) (w : WeekGroup.t) :
  WeekGroup.duration w = sumN (map DayGroup.duration (WeekGroup.days w)) ->
  Forall dayOk (WeekGroup.days w) ->
  Forall (fun d => getStartOfWeek (DayGroup.date d) = WeekGroup.start w)
    (WeekGroup.days w) ->
  WeekGroup.end_ w = addDays (WeekGroup.start w) 6 ->
  StronglySorted Z.gt (map dayKey (WeekGroup.days w)) ->
  getStartOfWeek (TimeEntry.date e) = WeekGroup.start w ->
  Forall (fun d => dayNumber (TimeEntry.date e) <= dayKey d) (WeekGroup.days w) ->
  weekOk (addToWeek e (entryDuration e) w).
Proof.
  intros Hdur Hdays Hstart Hend Hsorted He Hlow.
  split; rewrite ?addToWeek_start, ?addToWeek_end, ?addToWeek_duration; [| | | |done|].
  - destruct (addToWeek_days e (entryDuration e) w)
      as [(D1 & d & D2 & Hw & _ & ->)|[_ ->]].
    + by rewrite sumN_addToDay, <-Hw, Hdur.
    + rewrite map_app, sumN_app, Hdur.
      cbn [map addToDay freshDay DayGroup.duration]. f_equal.
      by rewrite sumN_cons, sumN_nil, jsadd_0_l, jsadd_0_r.
  - destruct (addToWeek_days e (entryDuration e) w)
      as [(D1 & d & D2 & Hw & Hd & ->)|[_ ->]].
    + rewrite Hw in Hdays. apply Forall_app in Hdays as [H1 [Hd' H2]%Forall_cons].
      apply Forall_app. split; [done|]. constructor; [|done].
      by apply dayOk_addToDay.
    + apply Forall_app. split; [done|]. constructor; [|constructor].
      apply (dayOk_addToDay e (freshDay e)); [apply dayOk_freshDay|done].
  - destruct (addToWeek_days e (entryDuration e) w)
      as [(D1 & d & D2 & Hw & Hd & ->)|[_ ->]].
    + rewrite Hw in Hstart. apply Forall_app in Hstart as [H1 [Hd' H2]%Forall_cons].
      apply Forall_app. split; [done|]. by constructor.
    + apply Forall_app. split; [done|]. by repeat constructor.
  - destruct (addToWeek_days e (entryDuration e) w)
      as [(D1 & d & D2 & Hw & Hd & ->)|[_ ->]].
    + by destruct D1.
    + by destruct (WeekGroup.days w).
  - destruct (addToWeek_days e (entryDuration e) w)
      as [(D1 & d & D2 & Hw & Hd & ->)|[Hne ->]].
    + rewrite Hw in Hsorted. by rewrite !map_app in *.
    + rewrite map_app. apply StronglySorted_snoc; [done|]. simpl.
      apply Forall_fmap. rewrite Forall_forall in Hlow, Hne |- *.
      intros d Hd. specialize (Hlow d Hd). specialize (Hne d Hd).
      unfold compose, dayKey in *. cbn [addToDay freshDay DayGroup.date]. lia.
Qed.

(** A step of the loop keeps the grouping well formed, when the entry is
    not later than the day groups already made. *)
Lemma groupStep_ok (W : list WeekGroup.t) (e : TimeEntry.t) :
  groupingOk W -> lowerBound (dayNumber (TimeEntry.date e)) W ->
  groupingOk (groupStep W e).
Proof.
  intros [HW Hsorted] Hlow. unfold lowerBound in Hlow.
  destruct (groupStep_cases W e) as [(W1 & w & W2 & -> & Hw & ->)|[Hnone ->]].
  - apply Forall_app in HW as [HW1 [Hwk HW2]%Forall_cons].
    rewrite allDays_app, allDays_cons in Hlow.
    apply Forall_app in Hlow as [_ [Hlow _]%Forall_app].
    assert (getStartOfWeek (TimeEntry.date e) = WeekGroup.start w) as Hstart.
    { destruct Hwk as [_ _ Hst Hne _ _].
      destruct (WeekGroup.days w) as [|d0 D]; [done|].
      apply Forall_cons in Hst as [Hd0 _]. rewrite <-Hd0 in Hw |- *.
      rewrite dayNumber_getStartOfWeek in Hw.
      by rewrite !getStartOfWeek_mondayOf, Hw. }
    split.
    + apply Forall_app. split; [done|]. constructor; [|done].
      destruct Hwk. by apply addToWeek_ok.
    + rewrite map_app in *. cbn [map] in *. by rewrite addToWeek_start.
  - split.
    + apply Forall_app. split; [done|]. constructor; [|constructor].
      apply addToWeek_ok; simpl; by try constructor.
    + rewrite map_app; cbn [map]. rewrite addToWeek_start.
      cbn [freshWeek WeekGroup.start].
      apply StronglySorted_snoc; [done|]. apply Forall_fmap.
      apply Forall_forall. intros w Hw.
      pose proof (proj1 (Forall_forall _ _) HW w Hw) as [_ _ Hst Hne _ _].
      pose proof (proj1 (Forall_forall _ _) Hnone w Hw) as Hnone_w.
      clear Hnone. rename Hnone_w into Hnone. unfold compose. cbv beta in Hnone.
      destruct (WeekGroup.days w) as [|d0 D] eqn:Hdays; [done|].
      apply Forall_cons in Hst as [Hd0 _].
      assert (dayNumber (TimeEntry.date e) <= dayKey d0) as Hle.
      { apply (proj1 (Forall_forall _ _) Hlow).
        unfold allDays. apply list_elem_of_In, in_concat.
        exists (WeekGroup.days w). split; [apply in_map; by apply list_elem_of_In|].
        rewrite Hdays. by left. }
      rewrite <-Hd0 in Hnone |- *. rewrite dayNumber_getStartOfWeek in Hnone.
      rewrite !getStartOfWeek_mondayOf. unfold dayKey in Hle.
      revert Hnone Hle. unfold mondayOf, msPerDay.
      generalize (dayNumber (DayGroup.date d0)) (dayNumber (TimeEntry.date e)). lia.
Qed.

Lemma groupingOk_nil : groupingOk [].
Proof. split; constructor. Qed.

(** The loop over entries that come latest first. *)
Lemma fold_groupStep_ok (l : list TimeEntry.t) (W : list WeekGroup.t) :
  StronglySorted (fun a b => TimeEntry.date b <= TimeEntry.date a) l ->
  groupingOk W ->
  Forall (fun e => lowerBound (dayNumber (TimeEntry.date e)) W) l ->
  groupingOk (fold_left groupStep l W)
  /\ allEntries (fold_left groupStep l W) ≡ₚ allEntries W ++ l.
Proof.
  revert W. induction l as [|e l IH]; intros W Hl HW Hlow; simpl.
  - by rewrite app_nil_r.
  - apply StronglySorted_cons in Hl as [He Hl].
    apply Forall_cons in Hlow as [Hlow_e Hlow].
    destruct (IH (groupStep W e)) as [Hok Hperm]; [done|by apply groupStep_ok| |].
    + rewrite Forall_forall in He, Hlow |- *. intros e' He'.
      apply groupStep_lowerBound; [by apply Hlow|].
      apply dayNumber_mono. by apply He.
    + split; [done|]. rewrite Hperm, groupStep_entries.
      by rewrite <-(assoc_L app).
Qed.

Lemma compareEntries_sorted (entries : list TimeEntry.t) :
  StronglySorted (fun a b => TimeEntry.date b <= TimeEntry.date a)
    (jsSort compareEntries entries).
Proof.
  apply Sorted_StronglySorted; [intros a b c; lia|].
  apply jsSort_Sorted; intros a b; unfold compareEntries, getTime;
    destruct (Z.eqb_spec (TimeEntry.date b - TimeEntry.date a) 0); simpl; lia.
Qed.

(** The grouping is well formed and holds exactly the entries given. *)
Lemma groupEntriesByWeek_ok (entries : list TimeEntry.t) :
  groupingOk (groupEntriesByWeek entries)
  /\ allEntries (groupEntriesByWeek entries) ≡ₚ entries.
Proof.
  unfold groupEntriesByWeek.
  destruct (fold_groupStep_ok (jsSort compareEntries entries) [])
    as [Hok Hperm].
  - apply compareEntries_sorted.
  - apply groupingOk_nil.
  - apply Forall_forall. intros e _. constructor.
  - split; [done|]. by rewrite Hperm, jsSort_Permutation.
Qed.
End GroupingFacts.

Section GroupingTotals.
Context {R : JSRuntime}.

Lemma Forall_allDays (P : DayGroup.t -> Prop) (W : list WeekGroup.t) :
  Forall (fun w => Forall P (WeekGroup.days w)) W -> Forall P (allDays W).
Proof.
  induction 1 as [|w W Hw _ IH]; [constructor|].
  rewrite allDays_cons. by apply Forall_app.
Qed.

(** The day totals add up to the total of the entries in the day groups. *)
Lemma sumN_days (D : list DayGroup.t) :
  Forall dayOk D ->
  sumN (map DayGroup.duration D)
  = sumN (map entryDuration (concat (map DayGroup.entries D))).
Proof.
  induction 1 as [|d D [Hd _] _ IH]; [done|].
  cbn [map concat]. by rewrite map_app, sumN_cons, sumN_app, Hd, IH.
Qed.

Lemma StronglySorted_gt_NoDup (l : list Z) : StronglySorted Z.gt l -> NoDup l.
Proof.
  induction 1 as [|x l _ IH Hx]; constructor; [|done].
  intros Hin. eapply Forall_forall in Hx; [|exact Hin]. lia.
Qed.

Lemma StronglySorted_fmap_gt {A : Type} (f : A -> Z) (l : list A) :
  StronglySorted Z.gt (map f l) -> StronglySorted (fun a b => f b < f a) l.
Proof.
  induction l as [|x l IH]; [constructor|].
  cbn [map]. intros [Hx Hl]%StronglySorted_cons. constructor; [by apply IH|].
  apply Forall_forall. intros y Hy.
  eapply Forall_forall in Hx; [|by apply (list_elem_of_fmap_2 f)]. lia.
Qed.
End GroupingTotals.

(** With well-formed times the total of the entries is a whole, non-negative
    number of minutes. *)
Lemma sumN_entryDuration_well_formed {R : JSRuntime} {HR : NumberLaws R}
    (entries : list TimeEntry.t) :
  Forall (fun e => wellTimed e = true) entries ->
  exists n : Z, sumN (map entryDuration entries) = ofZ n /\ 0 <= n.
Proof.
  induction 1 as [|e l He _ (n & Hn & Hpos)]; [by exists 0|].
  unfold wellTimed in He.
  destruct (parseHHMM (TimeEntry.startTime e)) as [[h1 m1]|] eqn:Hs; [|done].
  destruct (parseHHMM (TimeEntry.endTime e)) as [[h2 m2]|] eqn:Hend; [|done].
  exists (specMinutes h1 m1 h2 m2 + n). cbn [map]. rewrite sumN_cons, Hn.
  unfold entryDuration.
  rewrite (calculateDuration_well_formed _ _ _ _ _ _ Hs Hend), jsadd_ofZ.
  split; [done|]. pose proof (specMinutes_range _ _ _ _ _ _ Hs Hend). lia.
Qed.

(** C5. For time entries with well-formed times, each week group's total is
    the sum of its day groups' totals, each day group's total is the sum of
    the durations of its entries, and the day totals of all weeks add up to
    the sum of the durations of all the entries given (a whole number of
    minutes). *)
Theorem C5_group_totals {R : JSRuntime} {HR : NumberLaws R}
    (entries : list TimeEntry.t) :
  Forall (fun e => wellTimed e = true) entries ->
  let weeks := groupEntriesByWeek entries in
  Forall (fun w => WeekGroup.duration w
                   = sumN (map DayGroup.duration (WeekGroup.days w))) weeks
  /\ Forall (fun d => DayGroup.duration d
                      = sumN (map entryDuration (DayGroup.entries d))) (allDays weeks)
  /\ sumN (map DayGroup.duration (allDays weeks)) = sumN (map entryDuration entries)
  /\ exists n : Z, sumN (map entryDuration entries) = ofZ n /\ 0 <= n.
Proof.
  intros Hwell weeks.
  destruct (groupEntriesByWeek_ok entries) as [[Hweeks _] Hperm].
  fold weeks in Hweeks, Hperm.
  assert (Forall dayOk (allDays weeks)) as Hdays.
  { apply Forall_allDays. eapply Forall_impl; [exact Hweeks|]. by intros w []. }
  repeat split.
  - eapply Forall_impl; [exact Hweeks|]. by intros w [].
  - eapply Forall_impl; [exact Hdays|]. by intros d [].
  - rewrite (sumN_days _ Hdays). apply sumN_Permutation.
    by apply Permutation_map.
  - by apply sumN_entryDuration_well_formed.
Qed.

Lemma C5_witness :
  let weeks := groupEntriesByWeek (R := asciiRuntime) sampleEntries in
  Forall (fun w => WeekGroup.duration w
                   = sumN (map DayGroup.duration (WeekGroup.days w))) weeks
  /\ Forall (fun d => DayGroup.duration d
                      = sumN (map (entryDuration (R := asciiRuntime))
                                (DayGroup.entries d))) (allDays weeks)
  /\ sumN (map DayGroup.duration (allDays weeks))
     = sumN (map (entryDuration (R := asciiRuntime)) sampleEntries)
  /\ exists n : Z,
      sumN (map (entryDuration (R := asciiRuntime)) sampleEntries) = ofZ n /\ 0 <= n.
Proof.
  apply (C5_group_totals (R := asciiRuntime) sampleEntries).
  repeat constructor.
Defined.

(** C6. The week groups come in descending order of week start and, within
    each week group, the day groups in descending order of date (each on an
    earlier calendar day than the one before); two entries dated 2024-05-01
    and 2024-05-03, given in either order and at any time of day, give one
    week group whose days are 2024-05-03 then 2024-05-01. *)
Theorem C6_groups_descending {R : JSRuntime} (entries : list TimeEntry.t) :
  let weeks := groupEntriesByWeek entries in
  StronglySorted (fun a b => WeekGroup.start b < WeekGroup.start a) weeks
  /\ Forall (fun w =>
               StronglySorted
                 (fun a b => DayGroup.date b < DayGroup.date a
                             /\ isSameDay (DayGroup.date a) (DayGroup.date b) = false)
                 (WeekGroup.days w)) weeks
  /\ forall e1 e2 : TimeEntry.t,
      isSameDay (TimeEntry.date e1) (newDate 2024 4 1) = true ->
      isSameDay (TimeEntry.date e2) (newDate 2024 4 3) = true ->
      map (fun w => map (fun d => (DayGroup.date d, DayGroup.entries d))
                      (WeekGroup.days w))
        (groupEntriesByWeek [e1; e2])
      = [[(TimeEntry.date e2, [e2]); (TimeEntry.date e1, [e1])]]
      /\ map (fun w => map (fun d => (DayGroup.date d, DayGroup.entries d))
                         (WeekGroup.days w))
           (groupEntriesByWeek [e2; e1])
         = [[(TimeEntry.date e2, [e2]); (TimeEntry.date e1, [e1])]].
Proof.
  intros weeks.
  destruct (groupEntriesByWeek_ok entries) as [[Hweeks Hsorted] _].
  fold weeks in Hweeks, Hsorted.
  split; [by apply StronglySorted_fmap_gt|]. split.
  - eapply Forall_impl; [exact Hweeks|]. intros w [_ _ _ _ _ Hd].
    apply StronglySorted_fmap_gt in Hd.
    induction Hd as [|a D _ IH Ha]; constructor; [done|].
    eapply Forall_impl; [exact Ha|]. intros b Hb; cbv beta in Hb.
    split; [|apply isSameDay_false; unfold dayKey in Hb; lia].
    destruct (Z.lt_ge_cases (DayGroup.date b) (DayGroup.date a)) as [|Hle]; [done|].
    apply dayNumber_mono in Hle. unfold dayKey in Hb. lia.
  - intros e1 e2 H1%isSameDay_true H2%isSameDay_true.
    assert (dayNumber (TimeEntry.date e1) = 19844) as Hd1 by by rewrite H1.
    assert (dayNumber (TimeEntry.date e2) = 19846) as Hd2 by by rewrite H2.
    assert (TimeEntry.date e1 < TimeEntry.date e2) as Hlt.
    { destruct (Z.lt_ge_cases (TimeEntry.date e1) (TimeEntry.date e2)) as [|Hge];
        [done|]. apply dayNumber_mono in Hge. lia. }
    assert (jsSort compareEntries [e1; e2] = [e2; e1]
            /\ jsSort compareEntries [e2; e1] = [e2; e1]) as [Hs1 Hs2].
    { unfold jsSort; cbn [foldr sortInsert]. unfold compareEntries, getTime.
      destruct (Z.eqb_spec (TimeEntry.date e2 - TimeEntry.date e1) 0); [lia|].
      destruct (Z.eqb_spec (TimeEntry.date e1 - TimeEntry.date e2) 0); [lia|].
      cbn [negb].
      destruct (Z.leb_spec (TimeEntry.date e2 - TimeEntry.date e1) 0); [lia|].
      by destruct (Z.leb_spec (TimeEntry.date e1 - TimeEntry.date e2) 0); [|lia]. }
    unfold groupEntriesByWeek. rewrite Hs1, Hs2. cbn [fold_left].
    rewrite groupStep_nil, groupStep_same_week.
    + cbn [map].
      rewrite (addToWeek_other_day _ _ _ _ (addToWeek_freshWeek_days e2 _)); [done|].
      apply isSameDay_false. cbn [addToDay freshDay DayGroup.date]. lia.
    + apply isSameDay_true.
      rewrite addToWeek_start; cbn [freshWeek WeekGroup.start].
      by rewrite !dayNumber_getStartOfWeek, Hd1, Hd2.
Qed.

Lemma C6_witness :
  let weeks := groupEntriesByWeek (R := asciiRuntime) sampleEntries in
  StronglySorted (fun a b => WeekGroup.start b < WeekGroup.start a) weeks
  /\ Forall (fun w =>
               StronglySorted
                 (fun a b => DayGroup.date b < DayGroup.date a
                             /\ isSameDay (DayGroup.date a) (DayGroup.date b) = false)
                 (WeekGroup.days w)) weeks
  /\ forall e1 e2 : TimeEntry.t,
      isSameDay (TimeEntry.date e1) (newDate 2024 4 1) = true ->
      isSameDay (TimeEntry.date e2) (newDate 2024 4 3) = true ->
      map (fun w => map (fun d => (DayGroup.date d, DayGroup.entries d))
                      (WeekGroup.days w))
        (groupEntriesByWeek (R := asciiRuntime) [e1; e2])
      = [[(TimeEntry.date e2, [e2]); (TimeEntry.date e1, [e1])]]
      /\ map (fun w => map (fun d => (DayGroup.date d, DayGroup.entries d))
                         (WeekGroup.days w))
           (groupEntriesByWeek (R := asciiRuntime) [e2; e1])
         = [[(TimeEntry.date e2, [e2]); (TimeEntry.date e1, [e1])]].
Proof. exact (C6_groups_descending (R := asciiRuntime) sampleEntries). Defined.

(** C10. The grouping partitions its input: the entries in the day groups
    are exactly the entries given, each as often as it was given; every
    entry lies in a day group of its calendar day, inside the week group
    that starts on the Monday of the entry's week (the Monday on or before
    the entry's date, less than seven days before it); and no two week groups
    start on the same day, no two day groups of a week are on the same day. *)
Theorem C10_grouping_partitions {R : JSRuntime} (entries : list TimeEntry.t) :
  let weeks := groupEntriesByWeek entries in
  allEntries weeks ≡ₚ entries
  /\ Forall (fun w =>
               getDay (WeekGroup.start w) = 1
               /\ Forall (fun d =>
                            Forall (fun e =>
                                      isSameDay (DayGroup.date d) (TimeEntry.date e) = true
                                      /\ WeekGroup.start w
                                         = getStartOfWeek (TimeEntry.date e)
                                      /\ WeekGroup.start w <= TimeEntry.date e
                                         < addDays (WeekGroup.start w) 7)
                              (DayGroup.entries d))
                    (WeekGroup.days w)) weeks
  /\ NoDup (map WeekGroup.start weeks)
  /\ Forall (fun w => NoDup (map dayKey (WeekGroup.days w))) weeks.
Proof.
  intros weeks.
  destruct (groupEntriesByWeek_ok entries) as [[Hweeks Hsorted] Hperm].
  fold weeks in Hweeks, Hsorted, Hperm.
  split; [done|]. split; [|split].
  - eapply Forall_impl; [exact Hweeks|]. intros w [_ Hdays Hstart Hne _ _]. split.
    + destruct (WeekGroup.days w) as [|d0 D]; [done|].
      apply Forall_cons in Hstart as [<- _]. apply getDay_getStartOfWeek.
    + apply Forall_forall. intros d Hd.
      pose proof (proj1 (Forall_forall _ _) Hdays d Hd) as [_ Hent].
      pose proof (proj1 (Forall_forall _ _) Hstart d Hd) as Hst.
      eapply Forall_impl; [exact Hent|]. intros e He; cbv beta in He. split.
      * apply isSameDay_true. by rewrite He.
      * assert (WeekGroup.start w = getStartOfWeek (TimeEntry.date e)) as ->.
        { by rewrite <-Hst, !getStartOfWeek_mondayOf, He. }
        split; [done|]. apply getStartOfWeek_range.
  - by apply StronglySorted_gt_NoDup.
  - eapply Forall_impl; [exact Hweeks|]. intros w [_ _ _ _ _ Hd].
    by apply StronglySorted_gt_NoDup.
Qed.

(** ** Reports: available and active projects *)

Lemma filter_filter_implied {A : Type} (p q : A -> bool) (l : list A) :
  (forall x, p x = true -> q x = true) ->
  List.filter p (List.filter q l) = List.filter p l.
Proof.
  intros Hpq. induction l as [|x l IH]; simpl; [done|].
  destruct (q x) eqn:Hq; simpl.
  - by rewrite IH.
  - destruct (p x) eqn:Hp; [|done]. apply Hpq in Hp. congruence.
Qed.

Section ReportFacts.
Context {R : JSRuntime}.

(** The memo on the array objects against its value: under "all" the
    [projects] array itself is sorted and returned, otherwise [projects] is
    left alone and a new array is returned. *)
Lemma availableProjectsM_run (selectedClientId : string) (projects : list Project.t)
    (clients : list Client.t) :
  availableProjectsM selectedClientId 0%nat clients [projects]
  = if String.eqb selectedClientId "all"
    then (0%nat, [availableProjects selectedClientId projects clients])
    else (1%nat, [projects; availableProjects selectedClientId projects clients]).
Proof.
  unfold availableProjectsM, availableProjects, selectProjects, mbind, ST_bind.
  destruct (String.eqb selectedClientId "all"); [done|].
  destruct (String.eqb selectedClientId "no-client"); [done|].
  by destruct (findClient selectedClientId clients).
Qed.

Lemma activeProjectIds_intersection (available : list Project.t)
    (selectedProjectIds : gset string) :
  activeProjectIds available selectedProjectIds
  = selectedProjectIds ∩ list_to_set (map Project.id available).
Proof.
  unfold activeProjectIds. apply set_eq. intros x.
  rewrite elem_of_list_to_set, elem_of_intersection, list_elem_of_In, filter_In.
  rewrite <-list_elem_of_In, elem_of_elements, bool_decide_eq_true. done.
Qed.

Lemma yearEntries_inside (selectedYear : Z) (activeIds : gset string)
    (invoiceFilter : InvoiceFilter) (entries : list TimeEntry.t) :
  yearEntries selectedYear activeIds invoiceFilter
    (List.filter (fun e => bool_decide (TimeEntry.project e ∈ activeIds)) entries)
  = yearEntries selectedYear activeIds invoiceFilter entries.
Proof.
  unfold yearEntries. apply filter_filter_implied. intros e He.
  by apply andb_prop in He as [[_ ?]%andb_prop _].
Qed.

Lemma costAmount_inside (selectedYear : Z) (activeIds : gset string)
    (invoiceFilter : InvoiceFilter) (month : Z) (items : list CostItem.t) :
  costAmount selectedYear activeIds invoiceFilter month
    (List.filter (fun l => bool_decide (CostItem.project l ∈ activeIds)) items)
  = costAmount selectedYear activeIds invoiceFilter month items.
Proof.
  unfold costAmount. f_equal. apply filter_filter_implied. intros l Hl.
  by apply andb_prop in Hl as [[_ ?]%andb_prop _].
Qed.

(** Records from outside the active project ids change nothing in the
    processed data. *)
Lemma processedData_inside (entries : list TimeEntry.t) (projects : list Project.t)
    (selectedYear : Z) (available : list Project.t) (selectedProjectIds : gset string)
    (invoiceFilter : InvoiceFilter) (licenses servers domains : list CostItem.t) :
  let activeIds := activeProjectIds available selectedProjectIds in
  processedData
    (List.filter (fun e => bool_decide (TimeEntry.project e ∈ activeIds)) entries)
    projects selectedYear available selectedProjectIds invoiceFilter
    (List.filter (fun l => bool_decide (CostItem.project l ∈ activeIds)) licenses)
    (List.filter (fun l => bool_decide (CostItem.project l ∈ activeIds)) servers)
    (List.filter (fun l => bool_decide (CostItem.project l ∈ activeIds)) domains)
  = processedData entries projects selectedYear available selectedProjectIds
      invoiceFilter licenses servers domains.
Proof.
  intros activeIds. unfold processedData. fold activeIds.
  rewrite yearEntries_inside.
  set (F := monthlyRecord _ _ _ _ _ (List.filter _ licenses) _ _).
  set (G := monthlyRecord _ _ _ _ _ licenses _ _).
  assert (map F months = map G months) as ->; [|done].
  apply map_ext. intros month. unfold F, G, monthlyRecord.
  by rewrite !costAmount_inside.
Qed.

Lemma reportData_eq (selectedClientId : string) (selectedProjectIds : gset string)
    (selectedYear : Z) (invoiceFilter : InvoiceFilter)
    (entries : list TimeEntry.t) (projects : list Project.t)
    (clients : list Client.t) (licenses servers domains : list CostItem.t) :
  reportData selectedClientId selectedProjectIds selectedYear invoiceFilter
    entries projects clients licenses servers domains
  = processedData entries
      (if String.eqb selectedClientId "all"
       then availableProjects selectedClientId projects clients else projects)
      selectedYear (availableProjects selectedClientId projects clients)
      selectedProjectIds invoiceFilter licenses servers domains.
Proof.
  unfold reportData. rewrite availableProjectsM_run.
  by destruct (String.eqb selectedClientId "all").
Qed.
End ReportFacts.

(** C3. The active project ids are the intersection of the chosen ids with
    the ids of the available projects, hence a subset of these; the
    aggregation uses exactly this set, and it computes the same monthly
    records and grand totals when every time entry and cost item whose
    project is outside the intersection is removed. *)
Theorem C3_active_ids_scope_totals {R : JSRuntime}
    (selectedClientId : string) (selectedProjectIds : gset string)
    (selectedYear : Z) (invoiceFilter : InvoiceFilter)
    (entries : list TimeEntry.t) (projects : list Project.t)
    (clients : list Client.t) (licenses servers domains : list CostItem.t) :
  let available := availableProjects selectedClientId projects clients in
  let validIds : gset string := list_to_set (map Project.id available) in
  let activeIds := activeProjectIds available selectedProjectIds in
  activeIds = selectedProjectIds ∩ validIds
  /\ activeIds ⊆ validIds
  /\ Processed.relevantProjectIds
       (reportData selectedClientId selectedProjectIds selectedYear invoiceFilter
          entries projects clients licenses servers domains)
     = selectedProjectIds ∩ validIds
  /\ reportData selectedClientId selectedProjectIds selectedYear invoiceFilter
       (List.filter
          (fun e => bool_decide (TimeEntry.project e ∈ selectedProjectIds ∩ validIds))
          entries)
       projects clients
       (List.filter
          (fun l => bool_decide (CostItem.project l ∈ selectedProjectIds ∩ validIds))
          licenses)
       (List.filter
          (fun l => bool_decide (CostItem.project l ∈ selectedProjectIds ∩ validIds))
          servers)
       (List.filter
          (fun l => bool_decide (CostItem.project l ∈ selectedProjectIds ∩ validIds))
          domains)
     = reportData selectedClientId selectedProjectIds selectedYear invoiceFilter
         entries projects clients licenses servers domains.
Proof.
  intros available validIds activeIds.
  assert (activeIds = selectedProjectIds ∩ validIds) as Hactive
    by apply activeProjectIds_intersection.
  split; [done|]. split; [rewrite Hactive; apply intersection_subseteq_r|]. split.
  - by rewrite reportData_eq.
  - rewrite !reportData_eq, <-Hactive. apply processedData_inside.
Qed.

(** ** Reports: order of the available projects *)

Section ProjectOrder.
Context {R : JSRuntime} {HR : CollationLaws R}.

Lemma localeCompare_refl (a : string) : localeCompare a a = 0.
Proof. pose proof (localeCompare_antisym a a). lia. Qed.

Lemma localeCompare_flip (a b : string) :
  0 < localeCompare a b -> localeCompare b a <= 0.
Proof. pose proof (localeCompare_antisym a b). lia. Qed.

Lemma compareProjects_flip (a b : Project.t) :
  0 < compareProjects a b -> compareProjects b a <= 0.
Proof.
  unfold compareProjects. rewrite (String.eqb_sym (clientKey b)).
  destruct (String.eqb (clientKey a) (clientKey b)); simpl;
    apply localeCompare_flip.
Qed.

Lemma compareProjects_key_le (a b : Project.t) :
  compareProjects a b <= 0 -> localeCompare (clientKey a) (clientKey b) <= 0.
Proof.
  unfold compareProjects.
  destruct (String.eqb_spec (clientKey a) (clientKey b)) as [->|]; simpl; [|done].
  intros _. by rewrite localeCompare_refl.
Qed.

Lemma compareProjects_key_ge (a b : Project.t) :
  0 < compareProjects a b -> localeCompare (clientKey b) (clientKey a) <= 0.
Proof.
  unfold compareProjects.
  destruct (String.eqb_spec (clientKey a) (clientKey b)) as [->|]; simpl.
  - intros _. by rewrite localeCompare_refl.
  - apply localeCompare_flip.
Qed.

Lemma availableProjects_keys_sorted (selectedClientId : string)
    (projects : list Project.t) (clients : list Client.t) :
  StronglySorted (fun a b => localeCompare (clientKey a) (clientKey b) <= 0)
    (availableProjects selectedClientId projects clients).
Proof.
  apply Sorted_StronglySorted.
  - intros a b c. apply localeCompare_trans.
  - apply jsSort_Sorted; [apply compareProjects_key_le|apply compareProjects_key_ge].
Qed.
End ProjectOrder.

(** What the client selector keeps. *)
Lemma elem_of_selectProjects (selectedClientId : string) (projects : list Project.t)
    (clients : list Client.t) (p : Project.t) :
  p ∈ selectProjects selectedClientId projects clients <->
  p ∈ projects
  /\ (selectedClientId = "all"%string
      \/ (selectedClientId = "no-client"%string /\ hasNoClient p = true)
      \/ (selectedClientId <> "all"%string
          /\ selectedClientId <> "no-client"%string
          /\ exists client,
              findClient selectedClientId clients = Some client
              /\ isClientOf client p = true)).
Proof.
  unfold selectProjects.
  destruct (String.eqb_spec selectedClientId "all") as [->|Hall]; [naive_solver|].
  destruct (String.eqb_spec selectedClientId "no-client") as [->|Hno].
  { rewrite list_elem_of_In, filter_In, <-list_elem_of_In. naive_solver. }
  destruct (findClient selectedClientId clients) as [client|].
  - rewrite list_elem_of_In, filter_In, <-list_elem_of_In. naive_solver.
  - rewrite elem_of_nil. naive_solver.
Qed.

Lemma clientKey_no_client (p : Project.t) :
  hasNoClient p = true -> clientKey p = "zz"%string.
Proof. unfold hasNoClient, clientKey. by destruct (truthyS (Project.client p)). Qed.

(** C7, evaluated where it fails: the comparator gives a project of no
    client the client name "zz", so under the client selector "all" the
    project of no client comes before the project of the client "zzz Corp",
    a project that has a client. *)
Theorem C7_no_client_project_sorts_before_client_zzz :
  availableProjects (R := asciiRuntime) "all" [zzzProject; internalProject] []
  = [internalProject; zzzProject]
  /\ hasNoClient internalProject = true
  /\ hasNoClient zzzProject = false
  /\ ~ noClientLast
         (availableProjects (R := asciiRuntime) "all" [zzzProject; internalProject] []).
Proof.
  split; [reflexivity|]. split; [reflexivity|]. split; [reflexivity|].
  intros Hlast.
  specialize (Hlast [] internalProject [zzzProject] zzzProject eq_refl).
  assert (hasNoClient zzzProject = true) as Hno; [|discriminate Hno].
  apply Hlast; [|reflexivity]. by apply list_elem_of_singleton.
Qed.

(** C8, evaluated where it fails: under the client selector "all" the memo
    sorts the [projects] array itself, which afterwards holds its elements in
    another order; under "no-client" the array is left as it was. *)
Theorem C8_availableProjects_sorts_projects_in_place :
  let projects := [betaProject; acmeProject] in
  snd (availableProjectsM (R := asciiRuntime) "all" 0%nat [] [projects])
  = [[acmeProject; betaProject]]
  /\ readArray 0%nat (snd (availableProjectsM (R := asciiRuntime) "all" 0%nat [] [projects]))
     <> projects
  /\ readArray 0%nat
       (snd (availableProjectsM (R := asciiRuntime) "no-client" 0%nat [] [projects]))
     = projects.
Proof.
  split; [reflexivity|]. split; [|reflexivity].
  vm_compute. intros Heq. discriminate Heq.
Qed.

(** ** Reports: totals *)

Lemma lookup_num_eq (l : list num) (i : nat) (x : num) :
  match l !! i with Some y => num_eqb y x | None => false end = true ->
  l !! i = Some x.
Proof. destruct (l !! i) as [y|]; [|done]. by intros ->%num_eqb_eq. Qed.

Lemma getMonth_in_months (d : Date) : getMonth d ∈ months.
Proof.
  pose proof (getMonth_range d). apply list_elem_of_In. unfold months. simpl. lia.
Qed.

Section TotalsFacts.
Context {R : JSRuntime}.

(** A component that is not a number makes the duration [NaN]. *)
Lemma duration_NaN (start end_ : string) :
  hasNaNComponent start || hasNaNComponent end_ = true ->
  calculateDuration start end_ = NaN /\ getDurationInHours start end_ = NaN.
Proof.
  unfold hasNaNComponent, calculateDuration, getDurationInHours.
  destruct (parseHM start) as [[|h1] [|m1]], (parseHM end_) as [[|h2] [|m2]];
    simpl; try done.
Qed.

Lemma fold_left_jsadd_NaN {A : Type} (f : A -> num) (l : list A) (x : A) :
  x ∈ l -> f x = NaN -> fold_left (fun acc y => jsadd acc (f y)) l (ofZ 0) = NaN.
Proof.
  intros Hx Hf. rewrite fold_left_jsadd, sumN_NaN; [done|].
  rewrite <-Hf. by apply (list_elem_of_fmap_2 f).
Qed.

Lemma elem_of_monthEntries (e : TimeEntry.t) (l : list TimeEntry.t) :
  e ∈ l -> e ∈ monthEntries (getMonth (TimeEntry.date e)) l.
Proof.
  intros He. apply list_elem_of_In, filter_In. split; [by apply list_elem_of_In|].
  apply Z.eqb_refl.
Qed.
End TotalsFacts.

(** C1, as the specification states it, fails: with the start time "ab:00"
    the duration is [NaN], not the ten hours that reading "ab" as zero would
    give, and so are the total of the month, the amount of the month and
    both grand totals. *)
Lemma C1_counterexample :
  let data := marchReport (R := asciiRuntime) (marchEntry "ab:00" "10:00" (Some true)) in
  calculateDuration (R := asciiRuntime) "ab:00" "10:00" = NaN
  /\ calculateDuration (R := asciiRuntime) "00:00" "10:00" = ofZ 600
  /\ map Monthly.totalHours (Processed.monthlyData data) !! 2%nat = Some NaN
  /\ map Monthly.hoursAmount (Processed.monthlyData data) !! 2%nat = Some NaN
  /\ Processed.grandTotalHours data = NaN
  /\ Processed.grandTotalAmount data = NaN.
Proof.
  repeat split; try reflexivity.
  apply num_eqb_eq. reflexivity.
Qed.

(** C1, amended. The duration calculation validates nothing: when a
    component of the start or end time of a filtered entry is not a number,
    the entry's duration is [NaN], and so are the total hours of its month
    and the grand total of hours; when the entry is billable, so are the
    hours amount and the total amount of its month and the grand total
    amount. *)
Theorem C1_unparseable_time_gives_NaN_totals {R : JSRuntime}
    (selectedClientId : string) (selectedProjectIds : gset string)
    (selectedYear : Z) (invoiceFilter : InvoiceFilter)
    (entries : list TimeEntry.t) (projects : list Project.t)
    (clients : list Client.t) (licenses servers domains : list CostItem.t)
    (e : TimeEntry.t) :
  let data :=
    reportData selectedClientId selectedProjectIds selectedYear invoiceFilter
      entries projects clients licenses servers domains in
  e ∈ yearEntries selectedYear (Processed.relevantProjectIds data) invoiceFilter entries ->
  hasNaNComponent (TimeEntry.startTime e) || hasNaNComponent (TimeEntry.endTime e) = true ->
  calculateDuration (TimeEntry.startTime e) (TimeEntry.endTime e) = NaN
  /\ getDurationInHours (TimeEntry.startTime e) (TimeEntry.endTime e) = NaN
  /\ (exists m,
        m ∈ Processed.monthlyData data
        /\ Monthly.month m = getMonth (TimeEntry.date e)
        /\ Monthly.totalHours m = NaN
        /\ (truthyB (TimeEntry.billable e) = true ->
            Monthly.hoursAmount m = NaN /\ Monthly.totalAmount m = NaN))
  /\ Processed.grandTotalHours data = NaN
  /\ (truthyB (TimeEntry.billable e) = true -> Processed.grandTotalAmount data = NaN).
Proof.
  intros data. unfold data. rewrite reportData_eq.
  set (projects' := if String.eqb selectedClientId "all" then _ else _).
  unfold processedData. cbn [Processed.relevantProjectIds Processed.monthlyData
    Processed.grandTotalHours Processed.grandTotalAmount].
  set (activeIds := activeProjectIds _ _).
  set (ys := yearEntries _ _ _ _).
  set (F := monthlyRecord _ _ _ _ _ _ _ _).
  intros He Hnan.
  destruct (duration_NaN _ _ Hnan) as [Hdur Hhours].
  assert (F (getMonth (TimeEntry.date e)) ∈ map F months) as Hm.
  { apply (list_elem_of_fmap_2 F), getMonth_in_months. }
  assert (Monthly.totalHours (F (getMonth (TimeEntry.date e))) = NaN) as Htotal.
  { apply (fold_left_jsadd_NaN entryHours _ e); [by apply elem_of_monthEntries|done]. }
  assert (truthyB (TimeEntry.billable e) = true ->
          Monthly.hoursAmount (F (getMonth (TimeEntry.date e))) = NaN) as Hamount.
  { intros Hb. unfold F, monthlyRecord, hoursAmountOf. cbn [Monthly.hoursAmount].
    apply (fold_left_jsadd_NaN
             (fun entry =>
                if truthyB (TimeEntry.billable entry)
                then jsmul (entryHours entry)
                       (rateOf (findProject projects' (TimeEntry.project entry)))
                else ofZ 0) _ e); [by apply elem_of_monthEntries|].
    rewrite Hb. unfold entryHours. by rewrite Hhours. }
  assert (truthyB (TimeEntry.billable e) = true ->
          Monthly.totalAmount (F (getMonth (TimeEntry.date e))) = NaN) as Htotalamount.
  { intros Hb. specialize (Hamount Hb). unfold F, monthlyRecord in *.
    cbn [Monthly.hoursAmount Monthly.totalAmount] in *. by rewrite Hamount. }
  split; [done|]. split; [done|]. split; [|split].
  - exists (F (getMonth (TimeEntry.date e))). repeat split; auto.
  - by apply (fold_left_jsadd_NaN Monthly.totalHours _ _ Hm).
  - intros Hb. apply (fold_left_jsadd_NaN Monthly.totalAmount _ _ Hm). auto.
Qed.

Lemma C1_witness :
  let e := marchEntry "ab:00" "10:00" (Some true) in
  let data := marchReport (R := asciiRuntime) e in
  calculateDuration (R := asciiRuntime) "ab:00" "10:00" = NaN
  /\ getDurationInHours (R := asciiRuntime) "ab:00" "10:00" = NaN
  /\ (exists m,
        m ∈ Processed.monthlyData data
        /\ Monthly.month m = getMonth (TimeEntry.date e)
        /\ Monthly.totalHours m = NaN
        /\ (truthyB (TimeEntry.billable e) = true ->
            Monthly.hoursAmount m = NaN /\ Monthly.totalAmount m = NaN))
  /\ Processed.grandTotalHours data = NaN
  /\ (truthyB (TimeEntry.billable e) = true -> Processed.grandTotalAmount data = NaN).
Proof.
  apply (C1_unparseable_time_gives_NaN_totals (R := asciiRuntime) "all"
           {["p3"%string]} 2024 FilterAll [marchEntry "ab:00" "10:00" (Some true)]
           [acmeProject] [] [] [] [] (marchEntry "ab:00" "10:00" (Some true))).
  - vm_compute. apply list_elem_of_here.
  - reflexivity.
Defined.

(** C2, evaluated where it fails: an entry of two hours on a project at 50
    per hour, with no billable flag, adds nothing to the hours amount of its
    month; with the flag set it adds 100. *)
Theorem C2_absent_billable_flag_adds_nothing :
  let absent := marchReport (R := asciiRuntime) (marchEntry "09:00" "11:00" None) in
  let present := marchReport (R := asciiRuntime) (marchEntry "09:00" "11:00" (Some true)) in
  map Monthly.totalHours (Processed.monthlyData absent) !! 2%nat = Some (ofZ 2)
  /\ map Monthly.hoursAmount (Processed.monthlyData absent) !! 2%nat = Some (ofZ 0)
  /\ map Monthly.hoursAmount (Processed.monthlyData present) !! 2%nat = Some (ofZ 100).
Proof. repeat split; apply lookup_num_eq; reflexivity. Qed.

(** C9, evaluated where it fails: of the projects "Website" and "Website 2"
    of one client, the ledger lists "Website 2" first, although "Website"
    is the smaller name. *)
Theorem C9_project_blocks_not_in_name_order :
  ledgerClients (acmeLedger (R := asciiRuntime)) = ["Acme"%string]
  /\ ledgerProjects (acmeLedger (R := asciiRuntime))
     = ["Website 2"%string; "Website"%string]
  /\ String.compare "Website" "Website 2" = Lt.
Proof. repeat split; reflexivity. Qed.

(** ** More on durations *)

Lemma split_colon_no_colon (s : string) : hasColon s = false -> split_colon s = [s].
Proof.
  induction s as [|c s IH]; simpl; [done|].
  destruct (Ascii.eqb c ":"%char); simpl; [done|].
  intros Hs. by rewrite (IH Hs).
Qed.

Lemma split_colon_app (h rest : string) :
  hasColon h = false ->
  split_colon (h ++ String ":"%char rest) = h :: split_colon rest.
Proof.
  induction h as [|c h IH]; simpl; [done|].
  destruct (Ascii.eqb c ":"%char); simpl; [done|].
  intros Hh. by rewrite (IH Hh).
Qed.

Lemma digit_value_inj (a b : ascii) (x : Z) :
  digit_value a = Some x -> digit_value b = Some x -> a = b.
Proof.
  unfold digit_value. intros Ha Hb.
  destruct (_ && _) in Ha; [|done]. destruct (_ && _) in Hb; [|done].
  simplify_eq.
  rewrite <-(ascii_nat_embedding a), <-(ascii_nat_embedding b). f_equal. lia.
Qed.

Lemma parseHHMM_inj (s e : string) (hm : Z * Z) :
  parseHHMM s = Some hm -> parseHHMM e = Some hm -> s = e.
Proof.
  unfold parseHHMM. intros Hs He.
  destruct s as [|a1 [|a2 [|a3 [|a4 [|a5 [|? ?]]]]]]; try done.
  destruct e as [|b1 [|b2 [|b3 [|b4 [|b5 [|? ?]]]]]]; try done.
  destruct (Ascii.eqb_spec a3 ":"%char) as [->|]; [|done].
  destruct (Ascii.eqb_spec b3 ":"%char) as [->|]; [|done].
  destruct (digit_value a1) as [x1|] eqn:Ha1; [|done].
  destruct (digit_value a2) as [x2|] eqn:Ha2; [|done].
  destruct (digit_value a4) as [x4|] eqn:Ha4; [|done].
  destruct (digit_value a5) as [x5|] eqn:Ha5; [|done].
  destruct (digit_value b1) as [y1|] eqn:Hb1; [|done].
  destruct (digit_value b2) as [y2|] eqn:Hb2; [|done].
  destruct (digit_value b4) as [y4|] eqn:Hb4; [|done].
  destruct (digit_value b5) as [y5|] eqn:Hb5; [|done].
  destruct (_ && _) in Hs; [|done]. destruct (_ && _) in He; [|done].
  simplify_eq.
  pose proof (digit_value_range _ _ Ha1). pose proof (digit_value_range _ _ Ha2).
  pose proof (digit_value_range _ _ Ha4). pose proof (digit_value_range _ _ Ha5).
  pose proof (digit_value_range _ _ Hb1). pose proof (digit_value_range _ _ Hb2).
  pose proof (digit_value_range _ _ Hb4). pose proof (digit_value_range _ _ Hb5).
  assert (x1 = y1) as -> by lia. assert (x2 = y2) as -> by lia.
  assert (x4 = y4) as -> by lia. assert (x5 = y5) as -> by lia.
  by rewrite (digit_value_inj _ _ _ Ha1 Hb1), (digit_value_inj _ _ _ Ha2 Hb2),
    (digit_value_inj _ _ _ Ha4 Hb4), (digit_value_inj _ _ _ Ha5 Hb5).
Qed.

(** X1. A time with no colon has no minute component: whatever [Number]
    makes of the text, the duration to or from it is [NaN], in minutes and
    in hours. *)
Theorem X1_time_without_colon_is_NaN {R : JSRuntime} (start end_ : string) :
  hasColon start = false \/ hasColon end_ = false ->
  calculateDuration start end_ = NaN /\ getDurationInHours start end_ = NaN.
Proof.
  intros Hno. apply duration_NaN. unfold hasNaNComponent, parseHM.
  destruct Hno as [Hs|He].
  - rewrite (split_colon_no_colon _ Hs). simpl. by rewrite orb_true_r.
  - rewrite (split_colon_no_colon _ He). simpl. by rewrite !orb_true_r.
Qed.

Lemma X1_witness :
  calculateDuration (R := asciiRuntime) "0930" "10:00" = NaN
  /\ getDurationInHours (R := asciiRuntime) "0930" "10:00" = NaN.
Proof.
  apply (X1_time_without_colon_is_NaN (R := asciiRuntime) "0930" "10:00").
  left. reflexivity.
Defined.

(** X2. Only the first two components of a time are read: what follows a
    second colon (seconds, say) changes neither duration. *)
Theorem X2_components_after_the_second_are_ignored {R : JSRuntime}
    (h m rest other : string) :
  hasColon h = false -> hasColon m = false ->
  let short := (h ++ ":" ++ m)%string in
  let long := (h ++ ":" ++ m ++ ":" ++ rest)%string in
  calculateDuration long other = calculateDuration short other
  /\ calculateDuration other long = calculateDuration other short
  /\ getDurationInHours long other = getDurationInHours short other
  /\ getDurationInHours other long = getDurationInHours other short.
Proof.
  intros Hh Hm short long.
  assert (parseHM long = parseHM short) as Hparse.
  { unfold parseHM, long, short.
    change (":" +:+ m +:+ ":" +:+ rest)%string with (String ":"%char (m +:+ ":" +:+ rest)).
    change (":" +:+ rest)%string with (String ":"%char rest).
    change (":" +:+ m)%string with (String ":"%char m).
    rewrite !(split_colon_app h) by done.
    rewrite (split_colon_app m) by done.
    by rewrite (split_colon_no_colon m). }
  unfold calculateDuration, getDurationInHours. by rewrite Hparse.
Qed.

Lemma X2_witness :
  let short := ("09" ++ ":" ++ "30")%string in
  let long := ("09" ++ ":" ++ "30" ++ ":" ++ "45")%string in
  calculateDuration (R := asciiRuntime) long "10:00"
  = calculateDuration (R := asciiRuntime) short "10:00"
  /\ calculateDuration (R := asciiRuntime) "10:00" long
     = calculateDuration (R := asciiRuntime) "10:00" short
  /\ getDurationInHours (R := asciiRuntime) long "10:00"
     = getDurationInHours (R := asciiRuntime) short "10:00"
  /\ getDurationInHours (R := asciiRuntime) "10:00" long
     = getDurationInHours (R := asciiRuntime) "10:00" short.
Proof.
  apply (X2_components_after_the_second_are_ignored (R := asciiRuntime)
           "09" "30" "45" "10:00"); reflexivity.
Defined.

(** X3. For well-formed times a duration is a whole number of minutes from
    0 to 1439, and the durations from start to end and from end to start add
    up to a full day, 1440 minutes, unless the two times are equal, when both
    are 0: a span of exactly 24 hours cannot be told from an empty one. *)
Theorem X3_duration_and_its_reverse_make_a_day {R : JSRuntime} {HR : NumberLaws R}
    (start end_ : string) :
  wellFormedTime start = true -> wellFormedTime end_ = true ->
  exists n k : Z,
    calculateDuration start end_ = ofZ n
    /\ calculateDuration end_ start = ofZ k
    /\ 0 <= n < 1440
    /\ n + k = (if String.eqb start end_ then 0 else 1440).
Proof.
  unfold wellFormedTime. intros Hs He.
  destruct (parseHHMM start) as [[h1 m1]|] eqn:Hps; [|done].
  destruct (parseHHMM end_) as [[h2 m2]|] eqn:Hpe; [|done].
  exists (specMinutes h1 m1 h2 m2), (specMinutes h2 m2 h1 m1).
  split; [by apply calculateDuration_well_formed|].
  split; [by apply calculateDuration_well_formed|].
  split; [by eapply specMinutes_range|].
  destruct (parseHM_well_formed _ _ _ Hps) as (_ & ? & ?).
  destruct (parseHM_well_formed _ _ _ Hpe) as (_ & ? & ?).
  destruct (String.eqb_spec start end_) as [->|Hne].
  - simplify_eq. unfold specMinutes. rewrite Z.sub_diag. done.
  - assert (h1 * 60 + m1 <> h2 * 60 + m2) as Hdiff.
    { intros Heq. apply Hne. apply (parseHHMM_inj _ _ (h1, m1)); [done|].
      rewrite Hpe. f_equal. f_equal; lia. }
    unfold specMinutes.
    destruct (Z.ltb_spec (h2 * 60 + m2 - (h1 * 60 + m1)) 0);
      destruct (Z.ltb_spec (h1 * 60 + m1 - (h2 * 60 + m2)) 0); lia.
Qed.

Lemma X3_witness :
  exists n k : Z,
    calculateDuration (R := asciiRuntime) "23:30" "00:15" = ofZ n
    /\ calculateDuration (R := asciiRuntime) "00:15" "23:30" = ofZ k
    /\ 0 <= n < 1440
    /\ n + k = (if String.eqb "23:30" "00:15" then 0 else 1440).
Proof.
  apply (X3_duration_and_its_reverse_make_a_day (R := asciiRuntime) "23:30" "00:15");
    reflexivity.
Defined.

(** ** More on the start of the week *)

(** X4. The start of the week of a date is midnight of a Monday, on or
    before the date and less than seven days before it (for a Sunday, the
    Monday six days earlier); every date of those seven days has the same
    start of week, and so has the start of week itself. *)
Theorem X4_getStartOfWeek_is_the_monday_of_the_week (d : Date) :
  getDay (getStartOfWeek d) = 1
  /\ startOfDay (getStartOfWeek d) = getStartOfWeek d
  /\ getStartOfWeek d <= d < addDays (getStartOfWeek d) 7
  /\ (getDay d = 0 -> getStartOfWeek d = addDays (startOfDay d) (-6))
  /\ getStartOfWeek (getStartOfWeek d) = getStartOfWeek d
  /\ forall d' : Date,
      getStartOfWeek d <= d' < addDays (getStartOfWeek d) 7 ->
      getStartOfWeek d' = getStartOfWeek d.
Proof.
  assert (forall d' : Date,
             getStartOfWeek d <= d' < addDays (getStartOfWeek d) 7 ->
             getStartOfWeek d' = getStartOfWeek d) as Hsame.
  { intros d'. rewrite !getStartOfWeek_mondayOf.
    unfold addDays, mondayOf, dayNumber, msPerDay. intros Hd'. f_equal. lia. }
  pose proof (getStartOfWeek_range d) as Hrange.
  repeat split; try apply Hrange; try done.
  - apply getDay_getStartOfWeek.
  - rewrite getStartOfWeek_mondayOf. unfold startOfDay, dayNumber at 1.
    by rewrite Z.div_mul.
  - rewrite getStartOfWeek_mondayOf.
    unfold getDay, addDays, startOfDay, mondayOf, dayNumber, msPerDay. lia.
  - apply Hsame. unfold addDays, msPerDay in *. lia.
Qed.

(** ** More on the week/day grouping *)

Lemma jsSort_sorted_id {A : Type} (cmp : A -> A -> Z) (l : list A) :
  Sorted (fun a b => cmp a b <= 0) l -> jsSort cmp l = l.
Proof.
  induction 1 as [|x l _ IH Hhd]; simpl; [done|].
  rewrite IH. destruct Hhd as [|y l Hxy]; simpl; [done|].
  by destruct (Z.leb_spec (cmp x y) 0); [|lia].
Qed.

Lemma Sorted_app_inv {A : Type} (Rel : relation A) (l1 l2 : list A) :
  Sorted Rel (l1 ++ l2) -> Sorted Rel l1 /\ Sorted Rel l2.
Proof.
  induction l1 as [|x l1 IH]; simpl; [by split; [constructor|]|].
  intros [Hl Hhd]%Sorted_inv. destruct (IH Hl) as [H1 H2].
  split; [|done]. constructor; [done|].
  destruct l1; [constructor|]. inversion Hhd; by constructor.
Qed.

Lemma Sorted_concat_inv {A : Type} (Rel : relation A) (ls : list (list A)) :
  Sorted Rel (concat ls) -> Forall (Sorted Rel) ls.
Proof.
  induction ls as [|l ls IH]; simpl; [constructor|].
  intros [H1 H2]%Sorted_app_inv. constructor; auto.
Qed.

Lemma allEntries_nil : allEntries [] = [].
Proof. done. Qed.

Section GroupingOrder.
Context {R : JSRuntime}.

(** Under the invariant, the week group found for an entry that is not later
    than the day groups made so far is the last one. *)
Lemma groupStep_found_last (W1 W2 : list WeekGroup.t) (w : WeekGroup.t)
    (e : TimeEntry.t) :
  groupingOk (W1 ++ w :: W2) ->
  lowerBound (dayNumber (TimeEntry.date e)) (W1 ++ w :: W2) ->
  dayNumber (WeekGroup.start w) = mondayOf (dayNumber (TimeEntry.date e)) ->
  W2 = [].
Proof.
  intros [HW Hsorted] Hlow Hw. destruct W2 as [|w2 W2]; [done|]. exfalso.
  apply Forall_app in HW as [_ [Hwk [Hwk2 _]%Forall_cons]%Forall_cons].
  rewrite map_app in Hsorted. cbn [map] in Hsorted.
  apply StronglySorted_app_1_r, StronglySorted_cons in Hsorted as [Hgt _].
  apply Forall_cons in Hgt as [Hgt _].
  unfold lowerBound in Hlow. rewrite allDays_app, !allDays_cons in Hlow.
  apply Forall_app in Hlow as [_ [_ [Hlow2 _]%Forall_app]%Forall_app].
  destruct Hwk as [_ _ Hst Hne _ _], Hwk2 as [_ _ Hst2 Hne2 _ _].
  destruct (WeekGroup.days w) as [|d1 D1]; [done|].
  destruct (WeekGroup.days w2) as [|d2 D2]; [done|].
  apply Forall_cons in Hst as [Hd1 _]. apply Forall_cons in Hst2 as [Hd2 _].
  apply Forall_cons in Hlow2 as [Hlow2 _].
  rewrite <-Hd1 in Hw, Hgt. rewrite <-Hd2 in Hgt.
  rewrite dayNumber_getStartOfWeek in Hw.
  rewrite !getStartOfWeek_mondayOf in Hgt. unfold dayKey in Hlow2.
  revert Hw Hgt Hlow2. unfold mondayOf, msPerDay.
  generalize (dayNumber (DayGroup.date d1)) (dayNumber (DayGroup.date d2))
    (dayNumber (TimeEntry.date e)). lia.
Qed.

(** Likewise the day group found is the last one of its week. *)
Lemma addToWeek_found_last (D1 D2 : list DayGroup.t) (d : DayGroup.t)
    (e : TimeEntry.t) :
  StronglySorted Z.gt (map dayKey (D1 ++ d :: D2)) ->
  Forall (fun d' => dayNumber (TimeEntry.date e) <= dayKey d') (D1 ++ d :: D2) ->
  dayKey d = dayNumber (TimeEntry.date e) ->
  D2 = [].
Proof.
  intros Hsorted Hlow Hd. destruct D2 as [|d2 D2]; [done|]. exfalso.
  rewrite map_app in Hsorted. cbn [map] in Hsorted.
  apply StronglySorted_app_1_r, StronglySorted_cons in Hsorted as [Hgt _].
  apply Forall_cons in Hgt as [Hgt _].
  apply Forall_app in Hlow as [_ [_ [Hlow _]%Forall_cons]%Forall_cons]. lia.
Qed.

(** A step of the loop puts the entry after all the entries grouped so far. *)
Lemma groupStep_appends (W : list WeekGroup.t) (e : TimeEntry.t) :
  groupingOk W -> lowerBound (dayNumber (TimeEntry.date e)) W ->
  allEntries (groupStep W e) = allEntries W ++ [e].
Proof.
  intros Hok Hlow.
  destruct (groupStep_cases W e) as [(W1 & w & W2 & -> & Hw & ->)|[_ ->]].
  - assert (W2 = []) as -> by by eapply groupStep_found_last.
    rewrite !allEntries_app, !allEntries_cons, allEntries_nil.
    rewrite !app_nil_r, <-(assoc_L app). f_equal.
    destruct Hok as [HW _]. apply Forall_app in HW as [_ [Hwk _]%Forall_cons].
    unfold lowerBound in Hlow. rewrite allDays_app, allDays_cons in Hlow.
    apply Forall_app in Hlow as [_ [Hlow _]%Forall_app].
    destruct (addToWeek_days e (entryDuration e) w)
      as [(D1 & d & D2 & Hdays & Hd & ->)|[_ ->]].
    + assert (D2 = []) as ->.
      { destruct Hwk as [_ _ _ _ _ Hs]. rewrite Hdays in Hs, Hlow.
        by eapply addToWeek_found_last. }
      rewrite Hdays, !map_app, !concat_app.
      cbn [map concat addToDay DayGroup.entries].
      by rewrite !app_nil_r, <-(assoc_L app).
    + rewrite map_app, concat_app.
      cbn [map concat addToDay freshDay DayGroup.entries app]. done.
  - rewrite allEntries_app, allEntries_cons, allEntries_nil, addToWeek_freshWeek_days.
    cbn [map concat addToDay freshDay DayGroup.entries app]. done.
Qed.

Lemma fold_groupStep_appends (l : list TimeEntry.t) (W : list WeekGroup.t) :
  StronglySorted (fun a b => TimeEntry.date b <= TimeEntry.date a) l ->
  groupingOk W ->
  Forall (fun e => lowerBound (dayNumber (TimeEntry.date e)) W) l ->
  allEntries (fold_left groupStep l W) = allEntries W ++ l.
Proof.
  revert W. induction l as [|e l IH]; intros W Hl HW Hlow; simpl.
  - by rewrite app_nil_r.
  - apply StronglySorted_cons in Hl as [He Hl].
    apply Forall_cons in Hlow as [Hlow_e Hlow].
    rewrite IH; [|done|by apply groupStep_ok|].
    + rewrite groupStep_appends by done. by rewrite <-(assoc_L app).
    + rewrite Forall_forall in He, Hlow |- *. intros e' He'.
      apply groupStep_lowerBound; [by apply Hlow|].
      apply dayNumber_mono. by apply He.
Qed.

(** Read week by week and day by day, the grouping is the sorted entries. *)
Lemma allEntries_groupEntriesByWeek (entries : list TimeEntry.t) :
  allEntries (groupEntriesByWeek entries) = jsSort compareEntries entries.
Proof.
  unfold groupEntriesByWeek.
  rewrite fold_groupStep_appends; [done|apply compareEntries_sorted|
    apply groupingOk_nil|].
  apply Forall_forall. intros e _. constructor.
Qed.

(** Every day group made by the loop holds an entry. *)
Lemma groupStep_days_nonempty (W : list WeekGroup.t) (e : TimeEntry.t) :
  Forall (fun d => DayGroup.entries d <> []) (allDays W) ->
  Forall (fun d => DayGroup.entries d <> []) (allDays (groupStep W e)).
Proof.
  intros HW.
  assert (forall w,
             Forall (fun d => DayGroup.entries d <> []) (WeekGroup.days w) ->
             Forall (fun d => DayGroup.entries d <> [])
               (WeekGroup.days (addToWeek e (entryDuration e) w))) as Hweek.
  { intros w Hw.
    destruct (addToWeek_days e (entryDuration e) w)
      as [(D1 & d & D2 & Hdays & _ & ->)|[_ ->]].
    - rewrite Hdays in Hw. apply Forall_app in Hw as [H1 [_ H2]%Forall_cons].
      apply Forall_app. split; [done|]. constructor; [|done].
      simpl. by destruct (DayGroup.entries d).
    - apply Forall_app. split; [done|]. by repeat constructor. }
  destruct (groupStep_cases W e) as [(W1 & w & W2 & -> & _ & ->)|[_ ->]].
  - rewrite allDays_app, allDays_cons in *.
    apply Forall_app in HW as [H1 [Hw H2]%Forall_app].
    apply Forall_app. split; [done|]. apply Forall_app. split; [|done].
    by apply Hweek.
  - rewrite allDays_app, allDays_cons. apply Forall_app. split; [done|].
    apply Forall_app. split; [|constructor]. apply Hweek. constructor.
Qed.

Lemma groupEntriesByWeek_days_nonempty (entries : list TimeEntry.t) :
  Forall (fun d => DayGroup.entries d <> []) (allDays (groupEntriesByWeek entries)).
Proof.
  unfold groupEntriesByWeek.
  generalize (jsSort compareEntries entries). intros l.
  assert (Forall (fun d => DayGroup.entries d <> []) (allDays [])) as Hnil
    by constructor.
  revert Hnil. generalize (@nil WeekGroup.t).
  induction l as [|e l IH]; intros W HW; simpl; [done|].
  apply IH. by apply groupStep_days_nonempty.
Qed.

Lemma length_concat_nonempty {A B : Type} (f : A -> list B) (l : list A) :
  Forall (fun x => f x <> []) l ->
  (List.length l <= List.length (concat (map f l)))%nat.
Proof.
  induction 1 as [|x l Hx _ IH]; simpl; [done|].
  rewrite length_app. destruct (f x); [done|]. simpl. lia.
Qed.
End GroupingOrder.

(** X5. Read week by week and, within a week, day by day, the grouping
    lists the entries exactly in the order of the sort: latest date first,
    entries of one date by start time, later first. *)
Theorem X5_grouping_flattens_to_sorted_entries {R : JSRuntime}
    (entries : list TimeEntry.t) :
  allEntries (groupEntriesByWeek entries) = jsSort compareEntries entries.
Proof. apply allEntries_groupEntriesByWeek. Qed.

(** X6. The grouping is sparse: every week group holds a day group and
    every day group an entry, so there are no more week groups than day
    groups and no more day groups than entries; no entries give no week
    group. *)
Theorem X6_grouping_has_no_empty_group {R : JSRuntime} (entries : list TimeEntry.t) :
  let weeks := groupEntriesByWeek entries in
  Forall (fun w => WeekGroup.days w <> []) weeks
  /\ Forall (fun d => DayGroup.entries d <> []) (allDays weeks)
  /\ (List.length weeks <= List.length (allDays weeks) <= List.length entries)%nat
  /\ (weeks = [] <-> entries = []).
Proof.
  intros weeks.
  destruct (groupEntriesByWeek_ok entries) as [[Hweeks _] Hperm].
  pose proof (groupEntriesByWeek_days_nonempty entries) as Hdays.
  fold weeks in Hweeks, Hperm, Hdays.
  assert (Forall (fun w => WeekGroup.days w <> []) weeks) as Hne.
  { eapply Forall_impl; [exact Hweeks|]. by intros w []. }
  assert (List.length weeks <= List.length (allDays weeks) <= List.length entries)%nat
    as Hlen.
  { split; [by apply length_concat_nonempty|].
    rewrite <-(Permutation_length Hperm). by apply length_concat_nonempty. }
  split; [done|]. split; [done|]. split; [done|]. split.
  - intros Hnil. rewrite Hnil in Hperm. by apply Permutation_nil in Hperm.
  - intros ->. done.
Qed.

(** X7. A week group ends six days after its start, at the midnight that
    begins its Sunday; its entries are dated from its start up to, but not
    including, the midnight that ends that Sunday, so an entry of the Sunday
    is later than the end of its week group. *)
Theorem X7_week_group_span {R : JSRuntime} (entries : list TimeEntry.t) :
  Forall (fun w =>
            WeekGroup.end_ w = addDays (WeekGroup.start w) 6
            /\ getDay (WeekGroup.end_ w) = 0
            /\ startOfDay (WeekGroup.end_ w) = WeekGroup.end_ w
            /\ Forall (fun d =>
                         Forall (fun e =>
                                   WeekGroup.start w <= TimeEntry.date e
                                   < addDays (WeekGroup.end_ w) 1
                                   /\ (getDay (TimeEntry.date e) = 0 ->
                                       WeekGroup.end_ w <= TimeEntry.date e))
                           (DayGroup.entries d))
                 (WeekGroup.days w))
    (groupEntriesByWeek entries).
Proof.
  destruct (groupEntriesByWeek_ok entries) as [[Hweeks _] _].
  eapply Forall_impl; [exact Hweeks|]. intros w [_ Hdays Hstart Hne Hend _].
  assert (exists n, WeekGroup.start w = mondayOf n * msPerDay) as [n Hn].
  { destruct (WeekGroup.days w) as [|d0 D]; [done|].
    apply Forall_cons in Hstart as [<- _]. eexists. apply getStartOfWeek_mondayOf. }
  rewrite Hend, Hn. split; [done|]. split; [|split].
  - unfold getDay, addDays, dayNumber, mondayOf, msPerDay. lia.
  - unfold startOfDay, addDays, dayNumber, mondayOf, msPerDay. lia.
  - apply Forall_forall. intros d Hd.
    pose proof (proj1 (Forall_forall _ _) Hdays d Hd) as [_ Hent].
    pose proof (proj1 (Forall_forall _ _) Hstart d Hd) as Hst.
    eapply Forall_impl; [exact Hent|]. intros e He; cbv beta in He.
    assert (mondayOf n * msPerDay = getStartOfWeek (TimeEntry.date e)) as Hwk.
    { by rewrite <-Hn, <-Hst, !getStartOfWeek_mondayOf, He. }
    rewrite Hwk. pose proof (getStartOfWeek_range (TimeEntry.date e)) as Hr.
    split.
    + unfold addDays, msPerDay in *. lia.
    + rewrite getStartOfWeek_mondayOf.
      unfold getDay, addDays, dayNumber, mondayOf, msPerDay. lia.
Qed.

Section GroupingCollation.
Context {R : JSRuntime} {HR : CollationLaws R}.

Lemma compareEntries_flip (a b : TimeEntry.t) :
  0 < compareEntries a b -> compareEntries b a <= 0.
Proof.
  unfold compareEntries, getTime.
  destruct (Z.eqb_spec (TimeEntry.date b - TimeEntry.date a) 0);
    destruct (Z.eqb_spec (TimeEntry.date a - TimeEntry.date b) 0);
    cbn [negb]; try lia.
  apply localeCompare_flip.
Qed.

Lemma jsSort_compareEntries_Sorted (entries : list TimeEntry.t) :
  Sorted (fun a b => compareEntries a b <= 0) (jsSort compareEntries entries).
Proof. apply jsSort_Sorted; [done|apply compareEntries_flip]. Qed.

(** The order of the feed: later date first and, on one date, the later
    start time first. *)
Lemma feed_order_Sorted (entries : list TimeEntry.t) :
  Sorted
    (fun a b =>
       TimeEntry.date b <= TimeEntry.date a
       /\ (TimeEntry.date a = TimeEntry.date b ->
           localeCompare (TimeEntry.startTime b) (TimeEntry.startTime a) <= 0))
    (jsSort compareEntries entries).
Proof.
  apply jsSort_Sorted; intros a b; unfold compareEntries, getTime;
    destruct (Z.eqb_spec (TimeEntry.date b - TimeEntry.date a) 0); cbn [negb];
    intros Hcmp; (split; [lia|]); intros Heq; try lia.
  by apply localeCompare_flip.
Qed.
End GroupingCollation.

(** X8. Inside every day group, and along the whole grouping, each entry is
    dated no earlier than the next one and, when two neighbours have the same
    date, the first has the start time that compares later or equal. *)
Theorem X8_entries_latest_first_within_groups {R : JSRuntime} {HR : CollationLaws R}
    (entries : list TimeEntry.t) :
  let weeks := groupEntriesByWeek entries in
  let precedes := fun a b : TimeEntry.t =>
    TimeEntry.date b <= TimeEntry.date a
    /\ (TimeEntry.date a = TimeEntry.date b ->
        localeCompare (TimeEntry.startTime b) (TimeEntry.startTime a) <= 0) in
  Sorted precedes (allEntries weeks)
  /\ Forall (fun d => Sorted precedes (DayGroup.entries d)) (allDays weeks).
Proof.
  intros weeks precedes.
  assert (Sorted precedes (allEntries weeks)) as Hall.
  { unfold weeks. rewrite allEntries_groupEntriesByWeek. apply feed_order_Sorted. }
  split; [done|].
  unfold allEntries in Hall. apply Sorted_concat_inv in Hall.
  apply Forall_forall. intros d Hd.
  eapply Forall_forall in Hall; [exact Hall|].
  by apply (list_elem_of_fmap_2 DayGroup.entries).
Qed.

Lemma X8_witness :
  let weeks := groupEntriesByWeek (R := asciiRuntime) sampleEntries in
  let precedes := fun a b : TimeEntry.t =>
    TimeEntry.date b <= TimeEntry.date a
    /\ (TimeEntry.date a = TimeEntry.date b ->
        localeCompare (JSRuntime := asciiRuntime)
          (TimeEntry.startTime b) (TimeEntry.startTime a) <= 0) in
  Sorted precedes (allEntries weeks)
  /\ Forall (fun d => Sorted precedes (DayGroup.entries d)) (allDays weeks).
Proof.
  exact (X8_entries_latest_first_within_groups (R := asciiRuntime) sampleEntries).
Defined.

(** X9. Grouping is idempotent on its own output: the entries of a
    grouping, read in order, group again to the same week and day groups. *)
Theorem X9_regrouping_the_grouped_entries {R : JSRuntime} {HR : CollationLaws R}
    (entries : list TimeEntry.t) :
  groupEntriesByWeek (allEntries (groupEntriesByWeek entries))
  = groupEntriesByWeek entries.
Proof.
  rewrite allEntries_groupEntriesByWeek. unfold groupEntriesByWeek.
  by rewrite (jsSort_sorted_id _ _ (jsSort_compareEntries_Sorted entries)).
Qed.

Lemma X9_witness :
  groupEntriesByWeek (R := asciiRuntime)
    (allEntries (groupEntriesByWeek (R := asciiRuntime) sampleEntries))
  = groupEntriesByWeek (R := asciiRuntime) sampleEntries.
Proof.
  exact (X9_regrouping_the_grouped_entries (R := asciiRuntime) sampleEntries).
Defined.

(** ** The project selection *)

Lemma size_list_to_set_le (l : list string) :
  (size (list_to_set (C := gset string) l) <= List.length l)%nat.
Proof.
  induction l as [|x l IH]; cbn [list_to_set List.length]; [by rewrite size_empty|].
  destruct (decide (x ∈ l)) as [Hin|Hnotin].
  - assert ({[x]} ∪ list_to_set (C := gset string) l = list_to_set l) as ->
      by set_solver.
    lia.
  - rewrite size_union, size_singleton by set_solver. lia.
Qed.

Lemma size_list_to_set_NoDup (l : list string) :
  size (list_to_set (C := gset string) l) = List.length l <-> NoDup l.
Proof.
  split.
  - induction l as [|x l IH]; [constructor|].
    cbn [list_to_set List.length]. intros Hsize.
    destruct (decide (x ∈ l)) as [Hin|Hnotin].
    + exfalso.
      assert ({[x]} ∪ list_to_set (C := gset string) l = list_to_set l) as Heq
        by set_solver.
      rewrite Heq in Hsize.
      pose proof (size_list_to_set_le l). lia.
    + constructor; [done|]. apply IH.
      rewrite size_union, size_singleton in Hsize by set_solver. lia.
  - intros Hl. by apply size_list_to_set.
Qed.

(** X10. Toggling a project flips its membership in the selection and
    nothing else; toggling it twice restores the selection, and toggles of
    two projects can be done in either order. *)
Theorem X10_toggleProject_flips_one_id (selectedProjectIds : gset string)
    (id other : string) :
  (id ∈ toggleProject selectedProjectIds id <-> id ∉ selectedProjectIds)
  /\ (other <> id ->
      (other ∈ toggleProject selectedProjectIds id <-> other ∈ selectedProjectIds))
  /\ toggleProject (toggleProject selectedProjectIds id) id = selectedProjectIds
  /\ toggleProject (toggleProject selectedProjectIds id) other
     = toggleProject (toggleProject selectedProjectIds other) id.
Proof.
  assert (forall (s : gset string) (a x : string),
             x ∈ toggleProject s a <-> (if decide (x = a) then x ∉ s else x ∈ s))
    as Hspec.
  { intros s a x. unfold toggleProject.
    destruct (decide (x = a)) as [->|Hne]; case_bool_decide; set_solver. }
  split; [|split; [|split]].
  - rewrite Hspec. by destruct (decide (id = id)).
  - intros Hne. rewrite Hspec. by destruct (decide (other = id)).
  - apply set_eq. intros x. rewrite Hspec.
    destruct (decide (x = id)) as [->|Hne]; rewrite Hspec.
    + destruct (decide (id = id)); [|done]. split; [apply dec_stable|auto].
    + by destruct (decide (x = id)).
  - apply set_eq. intros x.
    pose proof (Hspec (toggleProject selectedProjectIds id) other x) as H1.
    pose proof (Hspec (toggleProject selectedProjectIds other) id x) as H2.
    pose proof (Hspec selectedProjectIds id x) as H3.
    pose proof (Hspec selectedProjectIds other x) as H4.
    destruct (decide (x = other)), (decide (x = id)); tauto.
Qed.

(** X11. The selection that the sync effect sets, all available projects,
    survives the reconciliation whole.  From it, "toggle all" clears the
    selection when the project ids are distinct, and cannot clear it when two
    available projects share an id; from the empty selection it selects all;
    and it clears any selection that has as many ids as there are available
    projects, whichever ids they are. *)
Theorem X11_select_all_and_toggle_all {R : JSRuntime} (available : list Project.t) :
  activeProjectIds available (selectAll available) = selectAll available
  /\ (NoDup (map Project.id available) ->
      toggleAllProjects (selectAll available) available = ∅)
  /\ (~ NoDup (map Project.id available) ->
      toggleAllProjects (selectAll available) available = selectAll available)
  /\ (available <> [] -> toggleAllProjects ∅ available = selectAll available)
  /\ forall stale : gset string,
      size stale = List.length available ->
      toggleAllProjects stale available = ∅.
Proof.
  split; [|split; [|split; [|split]]].
  - rewrite activeProjectIds_intersection. unfold selectAll. set_solver.
  - intros Hnodup. unfold toggleAllProjects, selectAll.
    apply size_list_to_set_NoDup in Hnodup. rewrite length_map in Hnodup.
    by rewrite Hnodup, Nat.eqb_refl.
  - intros Hdup. unfold toggleAllProjects.
    destruct (Nat.eqb_spec (size (selectAll available)) (List.length available))
      as [Heq|]; [|done].
    exfalso. apply Hdup, size_list_to_set_NoDup. by rewrite length_map.
  - intros Hne. unfold toggleAllProjects. rewrite size_empty.
    by destruct available.
  - intros stale Hsize. unfold toggleAllProjects. by rewrite Hsize, Nat.eqb_refl.
Qed.

(** ** Reports with nothing to count *)

Lemma filter_nil_Forall {A : Type} (p : A -> bool) (l : list A) :
  Forall (fun x => p x = false) l -> List.filter p l = [].
Proof. induction 1 as [|x l Hx _ IH]; simpl; [done|]. by rewrite Hx. Qed.

Section EmptyReports.
Context {R : JSRuntime}.

Lemma monthlyRecord_empty (projects : list Project.t) (selectedYear : Z)
    (activeIds : gset string) (invoiceFilter : InvoiceFilter)
    (licenses servers domains : list CostItem.t) (month : Z) :
  (forall items : list CostItem.t,
      items = licenses \/ items = servers \/ items = domains ->
      costAmount selectedYear activeIds invoiceFilter month items = ofZ 0) ->
  monthlyRecord projects selectedYear activeIds invoiceFilter [] licenses servers
    domains month
  = emptyMonth month.
Proof.
  intros Hcost. unfold monthlyRecord, emptyMonth.
  rewrite !Hcost by auto. cbn [monthEntries List.filter totalHoursOf hoursAmountOf
    fold_left List.length].
  by rewrite !jsadd_ofZ.
Qed.

Lemma grand_totals_empty :
  fold_left (fun acc m => jsadd acc (Monthly.totalHours m)) (map emptyMonth months)
    (ofZ 0) = ofZ 0
  /\ fold_left (fun acc m => jsadd acc (Monthly.totalAmount m)) (map emptyMonth months)
       (ofZ 0) = ofZ 0.
Proof.
  unfold months. cbn [map fold_left emptyMonth Monthly.totalHours Monthly.totalAmount].
  by rewrite !jsadd_ofZ.
Qed.

(** With no year entries and no cost amounts, the processed data is twelve
    empty months and totals of zero. *)
Lemma processedData_empty (entries : list TimeEntry.t) (projects : list Project.t)
    (selectedYear : Z) (available : list Project.t) (selectedProjectIds : gset string)
    (invoiceFilter : InvoiceFilter) (licenses servers domains : list CostItem.t) :
  let activeIds := activeProjectIds available selectedProjectIds in
  yearEntries selectedYear activeIds invoiceFilter entries = [] ->
  (forall month (items : list CostItem.t),
      items = licenses \/ items = servers \/ items = domains ->
      costAmount selectedYear activeIds invoiceFilter month items = ofZ 0) ->
  processedData entries projects selectedYear available selectedProjectIds
    invoiceFilter licenses servers domains
  = {| Processed.monthlyData := map emptyMonth months;
       Processed.grandTotalHours := ofZ 0;
       Processed.grandTotalAmount := ofZ 0;
       Processed.relevantProjectIds := activeIds;
       Processed.filteredProjects := available |}.
Proof.
  intros activeIds Hentries Hcost. unfold processedData. fold activeIds.
  rewrite Hentries.
  assert (map (monthlyRecord projects selectedYear activeIds invoiceFilter []
                 licenses servers domains) months
          = map emptyMonth months) as ->.
  { apply map_ext. intros month. apply monthlyRecord_empty. auto. }
  destruct grand_totals_empty as [-> ->]. done.
Qed.

Lemma costAmount_nil (selectedYear : Z) (activeIds : gset string)
    (invoiceFilter : InvoiceFilter) (month : Z) (items : list CostItem.t) :
  Forall (fun l => matchesYear selectedYear (CostItem.date l)
                   && bool_decide (CostItem.project l ∈ activeIds) = false) items ->
  costAmount selectedYear activeIds invoiceFilter month items = ofZ 0.
Proof.
  intros Hitems. unfold costAmount. rewrite filter_nil_Forall; [done|].
  eapply Forall_impl; [exact Hitems|]. intros l Hl; cbv beta in Hl.
  destruct (matchesYear selectedYear (CostItem.date l)),
    (bool_decide (CostItem.project l ∈ activeIds)); try done;
    by rewrite ?andb_false_r.
Qed.

Lemma yearEntries_nil (selectedYear : Z) (activeIds : gset string)
    (invoiceFilter : InvoiceFilter) (entries : list TimeEntry.t) :
  Forall (fun e => matchesYear selectedYear (TimeEntry.date e)
                   && bool_decide (TimeEntry.project e ∈ activeIds) = false) entries ->
  yearEntries selectedYear activeIds invoiceFilter entries = [].
Proof.
  intros Hentries. unfold yearEntries. apply filter_nil_Forall.
  eapply Forall_impl; [exact Hentries|]. intros e He; cbv beta in He.
  by rewrite He.
Qed.

(** The ledger of processed data with no year entry is the header and a
    grand total. *)
Lemma handleExport_empty (selectedClientId : string) (selectedYear : Z)
    (invoiceFilter : InvoiceFilter) (data : Processed.t)
    (entries : list TimeEntry.t) (projects : list Project.t) (clients : list Client.t) :
  yearEntries selectedYear (Processed.relevantProjectIds data) invoiceFilter entries = [] ->
  handleExport selectedClientId selectedYear invoiceFilter data entries projects clients
  = ledgerHeader selectedClientId selectedYear invoiceFilter clients
    ++ [LRule; LGrandTotal (Processed.grandTotalHours data)].
Proof.
  intros Hentries. unfold handleExport, exportEntries.
  unfold yearEntries in Hentries. by rewrite Hentries.
Qed.
End EmptyReports.

(** X12. When the reconciled selection is empty (nothing selected, or only
    stale ids), every aggregate is still produced: twelve months with zero
    hours, zero amounts and no entry, grand totals of zero, and a ledger of
    the header followed by a grand total of zero. *)
Theorem X12_empty_selection_gives_empty_report {R : JSRuntime}
    (selectedClientId : string) (selectedProjectIds : gset string)
    (selectedYear : Z) (invoiceFilter : InvoiceFilter)
    (entries : list TimeEntry.t) (projects : list Project.t)
    (clients : list Client.t) (licenses servers domains : list CostItem.t) :
  activeProjectIds (availableProjects selectedClientId projects clients)
    selectedProjectIds = ∅ ->
  let data :=
    reportData selectedClientId selectedProjectIds selectedYear invoiceFilter
      entries projects clients licenses servers domains in
  Processed.monthlyData data = map emptyMonth months
  /\ Processed.grandTotalHours data = ofZ 0
  /\ Processed.grandTotalAmount data = ofZ 0
  /\ handleExport selectedClientId selectedYear invoiceFilter data entries
       (projectsAfterRender selectedClientId projects clients) clients
     = ledgerHeader selectedClientId selectedYear invoiceFilter clients
       ++ [LRule; LGrandTotal (ofZ 0)].
Proof.
  intros Hactive data.
  assert (forall pid : string,
             bool_decide (pid ∈ activeProjectIds
                            (availableProjects selectedClientId projects clients)
                            selectedProjectIds) = false) as Hout.
  { intros pid. rewrite Hactive. by apply bool_decide_eq_false. }
  assert (data = {| Processed.monthlyData := map emptyMonth months;
                    Processed.grandTotalHours := ofZ 0;
                    Processed.grandTotalAmount := ofZ 0;
                    Processed.relevantProjectIds :=
                      activeProjectIds
                        (availableProjects selectedClientId projects clients)
                        selectedProjectIds;
                    Processed.filteredProjects :=
                      availableProjects selectedClientId projects clients |}) as Hdata.
  { unfold data. rewrite reportData_eq. apply processedData_empty.
    - apply yearEntries_nil, Forall_forall. intros e _.
      by rewrite Hout, andb_false_r.
    - intros month items _. apply costAmount_nil, Forall_forall. intros l _.
      by rewrite Hout, andb_false_r. }
  rewrite Hdata. cbn [Processed.monthlyData Processed.grandTotalHours
    Processed.grandTotalAmount]. repeat split.
  rewrite handleExport_empty; [done|].
  cbn [Processed.relevantProjectIds].
  apply yearEntries_nil, Forall_forall. intros e _. by rewrite Hout, andb_false_r.
Qed.

Lemma X12_witness :
  let data :=
    reportData (R := asciiRuntime) "all" staleSelection 2024 FilterAll
      acmeEntries [acmeProject; acmeProject2] []
      [sampleLicense "p3" (newDate 2024 5 5) 120 true] [] [] in
  Processed.monthlyData data = map emptyMonth months
  /\ Processed.grandTotalHours data = ofZ 0
  /\ Processed.grandTotalAmount data = ofZ 0
  /\ handleExport (R := asciiRuntime) "all" 2024 FilterAll data acmeEntries
       (projectsAfterRender (R := asciiRuntime) "all" [acmeProject; acmeProject2] []) []
     = ledgerHeader "all" 2024 FilterAll [] ++ [LRule; LGrandTotal (ofZ 0)].
Proof.
  apply (X12_empty_selection_gives_empty_report (R := asciiRuntime) "all"
           staleSelection 2024 FilterAll acmeEntries [acmeProject; acmeProject2] []
           [sampleLicense "p3" (newDate 2024 5 5) 120 true] [] []).
  by vm_compute.
Defined.



(** ** Counting the entries of a report *)

Lemma length_filter_split {A : Type} (p q c : A -> bool) (l : list A) :
  List.length (List.filter q (List.filter (fun x => p x && true) l))
  = (List.length (List.filter q (List.filter (fun x => p x && c x) l))
     + List.length (List.filter q (List.filter (fun x => p x && negb (c x)) l)))%nat.
Proof.
  induction l as [|x l IH]; simpl; [done|].
  destruct (p x), (c x); simpl; try done; destruct (q x); simpl; lia.
Qed.

Lemma zip_with_map {A B C D : Type} (f : B -> C -> D) (g : A -> B) (h : A -> C)
    (l : list A) :
  zip_with f (map g l) (map h l) = map (fun x => f (g x) (h x)) l.
Proof. induction l as [|x l IH]; simpl; [done|]. by rewrite IH. Qed.

Lemma length_monthEntries_sum (l : list TimeEntry.t) :
  sum_list (map (fun month => List.length (List.filter
                                (fun e => getMonth (TimeEntry.date e) =? month) l))
              months)
  = List.length l.
Proof.
  induction l as [|x l IH]; [done|].
  pose proof (getMonth_range (TimeEntry.date x)) as Hrange.
  unfold months in *. cbn -[getMonth] in IH. cbn [map sum_list List.filter].
  set (g := getMonth (TimeEntry.date x)) in *.
  assert (g = 0 \/ g = 1 \/ g = 2 \/ g = 3 \/ g = 4 \/ g = 5 \/ g = 6 \/ g = 7
          \/ g = 8 \/ g = 9 \/ g = 10 \/ g = 11) as Hg by lia.
  clearbody g.
  repeat (destruct Hg as [->|Hg]); try subst g; cbn -[getMonth]; lia.
Qed.

Lemma find_is_Some {A : Type} (p : A -> bool) (l : list A) (x : A) :
  x ∈ l -> p x = true -> exists y, List.find p l = Some y /\ y ∈ l /\ p y = true.
Proof.
  induction l as [|z l IH]; [by intros ?%elem_of_nil|].
  intros Hx Hp. simpl. destruct (p z) eqn:Hz.
  - exists z. repeat split; [by left|done].
  - apply elem_of_cons in Hx as [->|Hx]; [congruence|].
    destruct (IH Hx Hp) as (y & Hy & Hin & Hpy). exists y. repeat split; [done| |done].
    by right.
Qed.

Section ReportCounts.
Context {R : JSRuntime}.

Lemma monthlyData_entryCount (selectedClientId : string)
    (selectedProjectIds : gset string) (selectedYear : Z)
    (invoiceFilter : InvoiceFilter) (entries : list TimeEntry.t)
    (projects : list Project.t) (clients : list Client.t)
    (licenses servers domains : list CostItem.t) :
  map Monthly.entryCount
    (Processed.monthlyData
       (reportData selectedClientId selectedProjectIds selectedYear invoiceFilter
          entries projects clients licenses servers domains))
  = map (fun month =>
           List.length
             (monthEntries month
                (yearEntries selectedYear
                   (activeProjectIds
                      (availableProjects selectedClientId projects clients)
                      selectedProjectIds)
                   invoiceFilter entries)))
      months.
Proof.
  rewrite reportData_eq. unfold processedData.
  cbn [Processed.monthlyData]. rewrite map_map. by apply map_ext.
Qed.

(** The projects of the available list are projects of the catalog. *)
Lemma elem_of_availableProjects (selectedClientId : string)
    (projects : list Project.t) (clients : list Client.t) (p : Project.t) :
  p ∈ availableProjects selectedClientId projects clients -> p ∈ projects.
Proof.
  unfold availableProjects. rewrite jsSort_Permutation.
  intros Hp. by apply elem_of_selectProjects in Hp as [? _].
Qed.

Lemma projectsAfterRender_Permutation (selectedClientId : string)
    (projects : list Project.t) (clients : list Client.t) :
  projectsAfterRender selectedClientId projects clients ≡ₚ projects.
Proof.
  unfold projectsAfterRender. rewrite availableProjectsM_run.
  destruct (String.eqb_spec selectedClientId "all") as [->|]; [|done].
  cbn. unfold availableProjects, selectProjects. cbn. apply jsSort_Permutation.
Qed.
End ReportCounts.

(** X14. The invoice status partitions the entries: in every month, the
    number of entries counted under "all" is the number counted under
    "invoiced" plus the number counted under "not invoiced". *)
Theorem X14_invoice_status_partitions_entry_counts {R : JSRuntime}
    (selectedClientId : string) (selectedProjectIds : gset string)
    (selectedYear : Z) (entries : list TimeEntry.t) (projects : list Project.t)
    (clients : list Client.t) (licenses servers domains : list CostItem.t) :
  let counts := fun invoiceFilter =>
    map Monthly.entryCount
      (Processed.monthlyData
         (reportData selectedClientId selectedProjectIds selectedYear invoiceFilter
            entries projects clients licenses servers domains)) in
  counts FilterAll = zip_with Nat.add (counts FilterInvoiced) (counts FilterNotInvoiced).
Proof.
  intros counts. unfold counts. rewrite !monthlyData_entryCount, zip_with_map.
  apply map_ext. intros month. unfold monthEntries, yearEntries.
  set (p := fun e : TimeEntry.t =>
              matchesYear selectedYear (TimeEntry.date e)
              && bool_decide (TimeEntry.project e ∈ activeProjectIds
                                (availableProjects selectedClientId projects clients)
                                selectedProjectIds)).
  apply (length_filter_split p _ (fun e => truthyB (TimeEntry.invoiced e))).
Qed.

(** X15. The months partition the filtered entries of the year: the entry
    counts of the twelve months add up to the number of entries that pass
    the year, project and invoice filters. *)
Theorem X15_month_counts_add_up {R : JSRuntime}
    (selectedClientId : string) (selectedProjectIds : gset string)
    (selectedYear : Z) (invoiceFilter : InvoiceFilter)
    (entries : list TimeEntry.t) (projects : list Project.t)
    (clients : list Client.t) (licenses servers domains : list CostItem.t) :
  let data :=
    reportData selectedClientId selectedProjectIds selectedYear invoiceFilter
      entries projects clients licenses servers domains in
  List.length (Processed.monthlyData data) = 12%nat
  /\ map Monthly.month (Processed.monthlyData data) = months
  /\ sum_list (map Monthly.entryCount (Processed.monthlyData data))
     = List.length
         (yearEntries selectedYear (Processed.relevantProjectIds data)
            invoiceFilter entries).
Proof.
  intros data. unfold data. split; [|split].
  - rewrite reportData_eq. unfold processedData. cbn [Processed.monthlyData].
    by rewrite length_map.
  - rewrite reportData_eq. unfold processedData. cbn [Processed.monthlyData].
    rewrite map_map. cbn. done.
  - rewrite monthlyData_entryCount, reportData_eq. unfold processedData.
    cbn [Processed.relevantProjectIds]. apply length_monthEntries_sum.
Qed.

(** The entries that pass the filters refer to projects of the catalog. *)
Lemma filtered_entries_resolve {R : JSRuntime}
    (selectedClientId : string) (selectedProjectIds : gset string)
    (selectedYear : Z) (invoiceFilter : InvoiceFilter)
    (entries : list TimeEntry.t) (projects : list Project.t)
    (clients : list Client.t) (e : TimeEntry.t) :
  e ∈ yearEntries selectedYear
        (activeProjectIds (availableProjects selectedClientId projects clients)
           selectedProjectIds)
        invoiceFilter entries ->
  (exists p, findProject projects (TimeEntry.project e) = Some p
             /\ p ∈ projects /\ Project.id p = TimeEntry.project e)
  /\ (exists p, findProject (projectsAfterRender selectedClientId projects clients)
                  (TimeEntry.project e) = Some p
                /\ p ∈ projects /\ Project.id p = TimeEntry.project e).
Proof.
  intros He. apply list_elem_of_In, filter_In in He as [_ He].
  apply andb_prop in He as [[_ Hin%bool_decide_eq_true]%andb_prop _].
  rewrite activeProjectIds_intersection in Hin.
  apply elem_of_intersection in Hin as [_ Hin].
  apply elem_of_list_to_set, list_elem_of_fmap in Hin as (p & Hid & Hp).
  apply elem_of_availableProjects in Hp.
  assert (String.eqb (Project.id p) (TimeEntry.project e) = true) as Heqb
    by by apply String.eqb_eq.
  split.
  - destruct (find_is_Some
                (fun q => String.eqb (Project.id q) (TimeEntry.project e)) _ _ Hp Heqb)
      as (y & Hy & Hyin & Hyid).
    exists y. by apply String.eqb_eq in Hyid.
  - assert (p ∈ projectsAfterRender selectedClientId projects clients) as Hp'
      by by rewrite projectsAfterRender_Permutation.
    destruct (find_is_Some
                (fun q => String.eqb (Project.id q) (TimeEntry.project e)) _ _ Hp' Heqb)
      as (y & Hy & Hyin & Hyid).
    exists y. rewrite projectsAfterRender_Permutation in Hyin.
    by apply String.eqb_eq in Hyid.
Qed.

(** X16. A time entry that passes the filters of a report always refers to a
    project of the catalog with the same id, and the lookup of its project
    succeeds, before the render and after it; so an entry with a dangling
    project reference counts toward no total. *)
Theorem X16_filtered_entries_resolve_their_project {R : JSRuntime}
    (selectedClientId : string) (selectedProjectIds : gset string)
    (selectedYear : Z) (invoiceFilter : InvoiceFilter)
    (entries : list TimeEntry.t) (projects : list Project.t)
    (clients : list Client.t) (licenses servers domains : list CostItem.t)
    (e : TimeEntry.t) :
  let data :=
    reportData selectedClientId selectedProjectIds selectedYear invoiceFilter
      entries projects clients licenses servers domains in
  e ∈ yearEntries selectedYear (Processed.relevantProjectIds data) invoiceFilter entries ->
  (exists p, findProject projects (TimeEntry.project e) = Some p
             /\ p ∈ projects /\ Project.id p = TimeEntry.project e)
  /\ (exists p, findProject (projectsAfterRender selectedClientId projects clients)
                  (TimeEntry.project e) = Some p
                /\ p ∈ projects /\ Project.id p = TimeEntry.project e).
Proof.
  intros data. unfold data. rewrite reportData_eq. unfold processedData.
  cbn [Processed.relevantProjectIds]. apply filtered_entries_resolve.
Qed.

Lemma X16_witness :
  let e := marchEntry "09:00" "11:00" None in
  (exists p, findProject [acmeProject] (TimeEntry.project e) = Some p
             /\ p ∈ [acmeProject] /\ Project.id p = TimeEntry.project e)
  /\ (exists p, findProject (projectsAfterRender (R := asciiRuntime) "all" [acmeProject] [])
                  (TimeEntry.project e) = Some p
                /\ p ∈ [acmeProject] /\ Project.id p = TimeEntry.project e).
Proof.
  apply (X16_filtered_entries_resolve_their_project (R := asciiRuntime) "all"
           {["p3"%string]} 2024 FilterAll [marchEntry "09:00" "11:00" None]
           [acmeProject] [] [] [] [] (marchEntry "09:00" "11:00" None)).
  vm_compute. apply list_elem_of_here.
Defined.

(** X17. The hours amount of a month is the sum, over the month's entries
    whose billable flag is present and true, of hours times the rate of the
    entry's project, the rate being 0 when the project or its rate is missing
    or the rate is 0 or [NaN]; entries whose flag is false or absent change
    nothing. *)
Theorem X17_hoursAmount_counts_flagged_entries {R : JSRuntime}
    (projects : list Project.t) (monthEntries : list TimeEntry.t) :
  hoursAmountOf projects monthEntries
  = sumN (map (fun e => jsmul (entryHours e)
                          (rateOf (findProject projects (TimeEntry.project e))))
            (List.filter (fun e => truthyB (TimeEntry.billable e)) monthEntries))
  /\ hoursAmountOf projects
       (List.filter (fun e => truthyB (TimeEntry.billable e)) monthEntries)
     = hoursAmountOf projects monthEntries
  /\ forall p : option Project.t,
      (rateOf p = ofZ 0
       <-> forall q r, p = Some q -> Project.rate q = Some r -> num_truthy r = false)
      /\ (rateOf p <> ofZ 0 -> exists q, p = Some q /\ Project.rate q = Some (rateOf p)).
Proof.
  assert (forall l acc,
             fold_left
               (fun acc entry =>
                  jsadd acc (if truthyB (TimeEntry.billable entry)
                             then jsmul (entryHours entry)
                                    (rateOf (findProject projects
                                               (TimeEntry.project entry)))
                             else ofZ 0)) l acc
             = jsadd acc
                 (sumN (map (fun e => jsmul (entryHours e)
                                        (rateOf (findProject projects
                                                   (TimeEntry.project e))))
                          (List.filter (fun e => truthyB (TimeEntry.billable e)) l))))
    as Hfold.
  { induction l as [|e l IH]; intros acc; cbn [fold_left List.filter map].
    - by rewrite sumN_nil, jsadd_0_r.
    - rewrite IH. destruct (truthyB (TimeEntry.billable e)); cbn [map].
      + by rewrite sumN_cons, jsadd_assoc.
      + by rewrite jsadd_0_r. }
  assert (forall l,
             hoursAmountOf projects l
             = sumN (map (fun e => jsmul (entryHours e)
                                    (rateOf (findProject projects
                                               (TimeEntry.project e))))
                      (List.filter (fun e => truthyB (TimeEntry.billable e)) l)))
    as Hsum.
  { intros l. unfold hoursAmountOf. by rewrite Hfold, jsadd_0_l. }
  split; [apply Hsum|]. split.
  - rewrite !Hsum. f_equal. f_equal. apply filter_filter_implied. auto.
  - intros p. split; [split|].
    + intros Hzero q r -> Hr. unfold rateOf in Hzero. rewrite Hr in Hzero.
      destruct (num_truthy r) eqn:Ht; [|done]. subst r. by vm_compute in Ht.
    + intros Hall. unfold rateOf. destruct p as [q|]; [|done].
      destruct (Project.rate q) as [r|] eqn:Hr; [|done].
      by rewrite (Hall q r eq_refl Hr).
    + intros Hne. unfold rateOf in *. destruct p as [q|]; [|done].
      destruct (Project.rate q) as [r|] eqn:Hr; [|done].
      destruct (num_truthy r); [|done]. by exists q.
Qed.

(** ** The ledger *)

(** Either the key is there and its first value is updated in place, or it
    is not and the update of [fresh] is added last. *)
Lemma objUpdate_cases {V : Type} (k : string) (fresh : V) (f : V -> V) (o : Obj V) :
  (exists o1 v o2,
      o = o1 ++ (k, v) :: o2 /\ (k ∉ map fst o1)
      /\ objUpdate k fresh f o = o1 ++ (k, f v) :: o2)
  \/ ((k ∉ map fst o) /\ objUpdate k fresh f o = o ++ [(k, f fresh)]).
Proof.
  induction o as [|[k' v] o IH]; simpl.
  - right. split; [apply not_elem_of_nil|done].
  - destruct (String.eqb_spec k' k) as [->|Hne].
    + left. exists [], v, o. repeat split. apply not_elem_of_nil.
    + destruct IH as [(o1 & v' & o2 & -> & Hk & ->)|[Hk ->]].
      * left. exists ((k', v) :: o1), v', o2. repeat split.
        simpl. rewrite not_elem_of_cons. split; [congruence|done].
      * right. split; [|done]. rewrite not_elem_of_cons. split; [congruence|done].
Qed.

Lemma objUpdate_keys {V : Type} (k : string) (fresh : V) (f : V -> V) (o : Obj V) :
  NoDup (map fst o) -> NoDup (map fst (objUpdate k fresh f o)).
Proof.
  intros Hnodup.
  destruct (objUpdate_cases k fresh f o) as [(o1 & v & o2 & -> & _ & ->)|[Hk ->]].
  - by rewrite map_app in *.
  - rewrite map_app. simpl. apply NoDup_app. repeat split; [done| |apply NoDup_singleton].
    intros x Hx ->%list_elem_of_singleton. done.
Qed.

Lemma scanBlocks_app_plain (client : string) (pre rest : list Line) :
  Forall (fun l => match l with
                   | LClient _ | LProject _ => False
                   | _ => True
                   end) pre ->
  scanBlocks client (pre ++ rest) = scanBlocks client rest.
Proof.
  induction 1 as [|l pre Hl _ IH]; simpl; [done|]. by destruct l.
Qed.

Lemma entryRows_app (es : list TimeEntry.t) (f : TimeEntry.t -> num)
    (t : num) (rest : list Line) :
  entryRows (map (fun e => LEntry e (f e)) es ++ LProjectTotal t :: rest)
  = map (fun e => (e, f e)) es
  /\ totalAfterRows (map (fun e => LEntry e (f e)) es ++ LProjectTotal t :: rest)
     = Some t.
Proof. induction es as [|e es [IH1 IH2]]; simpl; [done|]. by rewrite IH1. Qed.

Lemma scanBlocks_entries (client : string) (es : list TimeEntry.t)
    (f : TimeEntry.t -> num) (rest : list Line) :
  scanBlocks client (map (fun e => LEntry e (f e)) es ++ rest)
  = scanBlocks client rest.
Proof.
  apply scanBlocks_app_plain. apply Forall_forall. intros l Hl.
  by apply list_elem_of_fmap in Hl as (e & -> & _).
Qed.

Section LedgerFacts.
Context {R : JSRuntime}.

Lemma scanBlocks_projectBlock (client : string) (pe : string * list TimeEntry.t)
    (rest : list Line) :
  scanBlocks client (projectBlock pe ++ rest)
  = {| Block.client := client; Block.project := fst pe;
       Block.rows := map (fun e => (e, entryHours e)) (snd pe);
       Block.total :=
         Some (fold_left (fun acc e => jsadd acc (entryHours e)) (snd pe) (ofZ 0)) |}
    :: scanBlocks client rest.
Proof.
  destruct pe as [p es]. unfold projectBlock. cbn [app scanBlocks fst snd].
  rewrite <-!(assoc_L app).
  destruct (entryRows_app es entryHours
              (fold_left (fun acc e => jsadd acc (entryHours e)) es (ofZ 0))
              ([LBlank] ++ rest)) as [Hrows Htotal].
  cbn [app] in *. rewrite Hrows, Htotal. f_equal.
  by rewrite scanBlocks_entries.
Qed.

Lemma scanBlocks_projectBlocks (client : string) (ps : Obj (list TimeEntry.t))
    (rest : list Line) :
  scanBlocks client (concat (map projectBlock ps) ++ rest)
  = map (fun pe : string * list TimeEntry.t =>
           {| Block.client := client; Block.project := fst pe;
              Block.rows := map (fun e => (e, entryHours e)) (snd pe);
              Block.total :=
                Some (fold_left (fun acc e => jsadd acc (entryHours e)) (snd pe)
                        (ofZ 0)) |}) ps
    ++ scanBlocks client rest.
Proof.
  induction ps as [|pe ps IH]; [done|].
  cbn [map concat]. rewrite <-(assoc_L app), scanBlocks_projectBlock.
  by rewrite IH.
Qed.

Lemma scanBlocks_clientBlocks (client : string)
    (grouped : Obj (Obj (list TimeEntry.t))) (rest : list Line) :
  (forall c, scanBlocks c rest = []) ->
  scanBlocks client (concat (map clientBlock grouped) ++ rest) = blocksOf grouped.
Proof.
  intros Hrest. revert client.
  induction grouped as [|[c ps] grouped IH]; intros client; [apply Hrest|].
  cbn [map concat]. unfold clientBlock at 1. unfold blocksOf. cbn [flat_map fst snd].
  rewrite <-!(assoc_L app). cbn [app scanBlocks].
  rewrite scanBlocks_projectBlocks. f_equal. cbn [app scanBlocks]. apply IH.
Qed.

(** Read back by its markers, the ledger has the blocks of the grouped
    object, clients in sorted order. *)
Lemma ledgerBlocks_handleExport (selectedClientId : string) (selectedYear : Z)
    (invoiceFilter : InvoiceFilter) (data : Processed.t)
    (entries : list TimeEntry.t) (projects : list Project.t) (clients : list Client.t) :
  ledgerBlocks
    (handleExport selectedClientId selectedYear invoiceFilter data entries projects
       clients)
  = blocksOf
      (jsSort (defaultCompare clientEntryToString)
         (groupForExport projects
            (exportEntries selectedYear (Processed.relevantProjectIds data)
               invoiceFilter entries))).
Proof.
  unfold ledgerBlocks, handleExport. cbn [app scanBlocks].
  by apply scanBlocks_clientBlocks.
Qed.
End LedgerFacts.

(** ** Grouping for the ledger *)

Lemma objUpdate_Forall {V : Type} (P Q : string * V -> Prop) (k : string)
    (fresh : V) (f : V -> V) (o : Obj V) :
  Forall P o ->
  (forall kv, P kv -> Q kv) ->
  (forall v, P (k, v) -> Q (k, f v)) ->
  Q (k, f fresh) ->
  Forall Q (objUpdate k fresh f o).
Proof.
  intros Ho Hweak Hupd Hfresh.
  assert (Forall Q o) as HQ by (eapply Forall_impl; eauto).
  destruct (objUpdate_cases k fresh f o) as [(o1 & v & o2 & Heq & _ & ->)|[_ ->]].
  - rewrite Heq in Ho, HQ.
    apply Forall_app in Ho as [_ [Hv _]%Forall_cons].
    apply Forall_app in HQ as [H1 [_ H2]%Forall_cons].
    apply Forall_app. split; [done|]. constructor; auto.
  - apply Forall_app. split; [done|]. by repeat constructor.
Qed.

Lemma objUpdate_flat_map {V B : Type} (g : string * V -> list B) (k : string)
    (fresh : V) (f : V -> V) (o : Obj V) (x : list B) :
  (forall v, g (k, f v) ≡ₚ g (k, v) ++ x) ->
  g (k, f fresh) ≡ₚ x ->
  flat_map g (objUpdate k fresh f o) ≡ₚ flat_map g o ++ x.
Proof.
  intros Hupd Hfresh.
  destruct (objUpdate_cases k fresh f o) as [(o1 & v & o2 & -> & _ & ->)|[_ ->]].
  - rewrite !flat_map_app. cbn [flat_map]. rewrite Hupd. solve_Permutation.
  - rewrite flat_map_app. cbn [flat_map]. rewrite Hfresh. solve_Permutation.
Qed.

Lemma objUpdate_nonempty {V : Type} (k : string) (fresh : V) (f : V -> V) (o : Obj V) :
  objUpdate k fresh f o <> [].
Proof. destruct o as [|[k' v] o]; simpl; [done|]. by destruct (String.eqb k' k). Qed.

Lemma List_filter_Permutation {A : Type} (f : A -> bool) (l l' : list A) :
  l ≡ₚ l' -> List.filter f l ≡ₚ List.filter f l'.
Proof.
  induction 1 as [|x l l' _ IH|x y l|l l' l'' _ IH1 _ IH2]; simpl.
  - done.
  - destruct (f x); [by apply perm_skip|done].
  - destruct (f x), (f y); try done. apply perm_swap.
  - by rewrite IH1.
Qed.

Section LedgerGroups.
Context {R : JSRuntime}.

(** One step of the grouping loop, for an entry whose project is found. *)
Lemma groupForExport_step (projects : list Project.t)
    (grouped : Obj (Obj (list TimeEntry.t))) (e : TimeEntry.t) (p : Project.t) :
  findProject projects (TimeEntry.project e) = Some p ->
  groupedOk projects grouped ->
  Forall (fun x => TimeEntry.date x <= TimeEntry.date e) (groupedEntries grouped) ->
  let grouped' :=
    objUpdate (exportClientName p) []
      (fun clientProjects =>
         objUpdate (Project.name p) [] (fun l => l ++ [e]) clientProjects)
      grouped in
  groupedOk projects grouped' /\ groupedEntries grouped' ≡ₚ groupedEntries grouped ++ [e].
Proof.
  intros Hp [Hkeys Hclients] Hbound grouped'. split; [split|].
  - by apply objUpdate_keys.
  - apply (objUpdate_Forall
             (fun kv => clientOk projects kv
                        /\ Forall (fun x => TimeEntry.date x <= TimeEntry.date e)
                             (flat_map snd (snd kv)))).
    + apply Forall_forall. intros kv Hkv. split.
      * by eapply Forall_forall in Hclients.
      * unfold groupedEntries in Hbound. rewrite Forall_flat_map in Hbound.
        by eapply Forall_forall in Hbound.
    + by intros kv [? _].
    + intros ps [(Hps & _ & Hgroups) Hlow]. cbn [fst snd] in *.
      split; [by apply objUpdate_keys|]. split; [apply objUpdate_nonempty|].
      apply (objUpdate_Forall
               (fun pe => groupOk projects (exportClientName p) pe
                          /\ Forall (fun x => TimeEntry.date x <= TimeEntry.date e)
                               (snd pe))).
      * apply Forall_forall. intros pe Hpe. split.
        -- by eapply Forall_forall in Hgroups.
        -- rewrite Forall_flat_map in Hlow. by eapply Forall_forall in Hlow.
      * by intros pe [? _].
      * intros es [(Hne & Hsorted & Hres) Hes]. cbn [fst snd] in *.
        split; [by destruct es|]. split; [by apply StronglySorted_snoc|].
        apply Forall_app. split; [done|]. constructor; [|constructor]. by exists p.
      * cbn [app]. split; [done|]. cbn [fst snd].
        split; [by repeat constructor|]. constructor; [|constructor]. by exists p.
    + cbn [fst snd objUpdate]. split; [apply NoDup_singleton|]. split; [done|].
      constructor; [|constructor]. split; [done|]. cbn [fst snd app].
      split; [by repeat constructor|]. constructor; [|constructor]. by exists p.
  - unfold groupedEntries, grouped'.
    apply (objUpdate_flat_map
             (fun kv : string * Obj (list TimeEntry.t) => flat_map snd (snd kv))).
    + intros ps. cbn [snd]. apply (objUpdate_flat_map snd).
      * intros es. done.
      * done.
    + cbn [snd objUpdate flat_map app]. done.
Qed.

(** The grouping loop over entries in ascending date order. *)
Lemma groupForExport_fold (projects : list Project.t) (l : list TimeEntry.t)
    (grouped : Obj (Obj (list TimeEntry.t))) :
  StronglySorted (fun a b => TimeEntry.date a <= TimeEntry.date b) l ->
  groupedOk projects grouped ->
  Forall (fun x => Forall (fun e => TimeEntry.date x <= TimeEntry.date e) l)
    (groupedEntries grouped) ->
  let result :=
    fold_left
      (fun groupedData entry =>
         match findProject projects (TimeEntry.project entry) with
         | None => groupedData
         | Some project =>
             objUpdate (exportClientName project) []
               (fun clientProjects =>
                  objUpdate (Project.name project) [] (fun l => l ++ [entry])
                    clientProjects)
               groupedData
         end) l grouped in
  groupedOk projects result
  /\ groupedEntries result
     ≡ₚ groupedEntries grouped
        ++ List.filter
             (fun e => match findProject projects (TimeEntry.project e) with
                       | Some _ => true
                       | None => false
                       end) l.
Proof.
  revert grouped. induction l as [|e l IH]; intros grouped Hl Hok Hbound; simpl.
  - by rewrite app_nil_r.
  - apply StronglySorted_cons in Hl as [He Hl].
    assert (Forall (fun x => Forall (fun e' => TimeEntry.date x <= TimeEntry.date e') l)
              (groupedEntries grouped)) as Hbound_l.
    { eapply Forall_impl; [exact Hbound|]. by intros x [_ ?]%Forall_cons. }
    destruct (findProject projects (TimeEntry.project e)) as [p|] eqn:Hp.
    + destruct (groupForExport_step projects grouped e p Hp Hok) as [Hok' Hperm'].
      { eapply Forall_impl; [exact Hbound|]. by intros x [? _]%Forall_cons. }
      destruct (IH _ Hl Hok') as [Hres Hperm].
      { rewrite Hperm'. apply Forall_app. split; [done|]. by repeat constructor. }
      split; [done|]. rewrite Hperm, Hperm'. by rewrite <-(assoc_L app).
    + by apply IH.
Qed.

Lemma groupedOk_nil (projects : list Project.t) : groupedOk projects [].
Proof. split; constructor. Qed.

Lemma exportEntries_sorted (selectedYear : Z) (ids : gset string)
    (invoiceFilter : InvoiceFilter) (entries : list TimeEntry.t) :
  StronglySorted (fun a b => TimeEntry.date a <= TimeEntry.date b)
    (exportEntries selectedYear ids invoiceFilter entries)
  /\ exportEntries selectedYear ids invoiceFilter entries
     ≡ₚ yearEntries selectedYear ids invoiceFilter entries.
Proof.
  unfold exportEntries, yearEntries. split; [|apply jsSort_Permutation].
  apply Sorted_StronglySorted; [intros a b c; lia|].
  apply jsSort_Sorted; intros a b; unfold getTime; lia.
Qed.

(** The grouped object of an export: well formed, and holding the exported
    entries whose project is found. *)
Lemma groupForExport_ok (projects : list Project.t) (selectedYear : Z)
    (ids : gset string) (invoiceFilter : InvoiceFilter) (entries : list TimeEntry.t) :
  let grouped :=
    groupForExport projects (exportEntries selectedYear ids invoiceFilter entries) in
  groupedOk projects grouped
  /\ groupedEntries grouped
     ≡ₚ List.filter
          (fun e => match findProject projects (TimeEntry.project e) with
                    | Some _ => true
                    | None => false
                    end)
          (yearEntries selectedYear ids invoiceFilter entries).
Proof.
  intros grouped. unfold grouped, groupForExport.
  destruct (exportEntries_sorted selectedYear ids invoiceFilter entries)
    as [Hsorted Hperm].
  destruct (groupForExport_fold projects _ [] Hsorted (groupedOk_nil projects))
    as [Hok Hents]; [constructor|].
  split; [done|]. rewrite Hents. cbn [groupedEntries flat_map app].
  by apply List_filter_Permutation.
Qed.
End LedgerGroups.

(** ** Grand totals *)

Lemma sumN_flat_map {A : Type} (f : A -> list num) (l : list A) :
  sumN (flat_map f l) = sumN (map (fun x => sumN (f x)) l).
Proof.
  induction l as [|x l IH]; [done|].
  cbn [flat_map map]. by rewrite sumN_app, sumN_cons, IH.
Qed.

(** Filtering by each key of a duplicate-free list, in turn, splits the
    elements whose key is in the list. *)
Lemma flat_map_filter_eqb {A K : Type} `{EqDecision K} (eqb : K -> K -> bool)
    (key : A -> K) (ms : list K) (l : list A) :
  (forall a b, eqb a b = true <-> a = b) ->
  NoDup ms ->
  flat_map (fun m => List.filter (fun x => eqb (key x) m) l) ms
  ≡ₚ List.filter (fun x => bool_decide (key x ∈ ms)) l.
Proof.
  intros Heqb. induction 1 as [|m ms Hm _ IH]; cbn [flat_map].
  - induction l as [|x l IHl]; [done|]. cbn [List.filter].
    rewrite bool_decide_eq_false_2; [done|]. apply not_elem_of_nil.
  - rewrite IH. clear IH. induction l as [|x l IHl]; [done|]. cbn [List.filter].
    destruct (eqb (key x) m) eqn:Hxm.
    + apply Heqb in Hxm.
      rewrite (bool_decide_eq_true_2 (key x ∈ m :: ms)) by (rewrite Hxm; left).
      rewrite (bool_decide_eq_false_2 (key x ∈ ms)) by by rewrite Hxm.
      cbn [app]. by rewrite IHl.
    + assert (key x <> m) as Hne by (intros Heq%Heqb; congruence).
      destruct (decide (key x ∈ ms)) as [Hin|Hout].
      * rewrite (bool_decide_eq_true_2 (key x ∈ ms)) by done.
        rewrite (bool_decide_eq_true_2 (key x ∈ m :: ms)) by by right.
        rewrite <-Permutation_middle. by rewrite IHl.
      * rewrite (bool_decide_eq_false_2 (key x ∈ ms)) by done.
        rewrite (bool_decide_eq_false_2 (key x ∈ m :: ms))
          by (by intros [?|?]%elem_of_cons).
        exact IHl.
Qed.

Lemma flat_map_filter_key {A : Type} (key : A -> Z) (ms : list Z) (l : list A) :
  NoDup ms ->
  flat_map (fun m => List.filter (fun x => key x =? m) l) ms
  ≡ₚ List.filter (fun x => bool_decide (key x ∈ ms)) l.
Proof. apply (flat_map_filter_eqb Z.eqb). apply Z.eqb_eq. Qed.

Lemma NoDup_months : NoDup months.
Proof. apply NoDup_ListNoDup. repeat constructor; simpl; lia. Qed.

(** The filters of the twelve months split a list of dated records. *)
Lemma months_split {A : Type} (date : A -> Date) (l : list A) :
  flat_map (fun m => List.filter (fun x => getMonth (date x) =? m) l) months ≡ₚ l.
Proof.
  rewrite (flat_map_filter_key (fun x => getMonth (date x))) by apply NoDup_months.
  induction l as [|x l IH]; [done|]. cbn [List.filter].
  rewrite bool_decide_eq_true_2 by apply getMonth_in_months. by rewrite IH.
Qed.

Lemma sumN_months {A : Type} (date : A -> Date) (f : A -> num) (l : list A) :
  sumN (map (fun m => sumN (map f (List.filter (fun x => getMonth (date x) =? m) l)))
          months)
  = sumN (map f l).
Proof.
  rewrite <-(sumN_flat_map
               (fun m => map f (List.filter (fun x => getMonth (date x) =? m) l))).
  apply sumN_Permutation.
  etrans; [|apply (Permutation_map f), (months_split date l)].
  induction months as [|m ms IH]; [done|].
  cbn [flat_map]. by rewrite map_app, IH.
Qed.

Section GrandTotals.
Context {R : JSRuntime}.

Lemma grandTotalHours_sum (entries : list TimeEntry.t) (projects : list Project.t)
    (selectedYear : Z) (available : list Project.t) (selectedProjectIds : gset string)
    (invoiceFilter : InvoiceFilter) (licenses servers domains : list CostItem.t) :
  Processed.grandTotalHours
    (processedData entries projects selectedYear available selectedProjectIds
       invoiceFilter licenses servers domains)
  = sumN (map entryHours
            (yearEntries selectedYear (activeProjectIds available selectedProjectIds)
               invoiceFilter entries)).
Proof.
  unfold processedData. cbn [Processed.grandTotalHours].
  rewrite (fold_left_jsadd Monthly.totalHours), jsadd_0_l, map_map.
  cbn [monthlyRecord Monthly.totalHours]. unfold totalHoursOf, monthEntries.
  rewrite <-(sumN_months TimeEntry.date entryHours). f_equal.
  apply map_ext. intros m. by rewrite (fold_left_jsadd entryHours), jsadd_0_l.
Qed.
End GrandTotals.

(** ** The ledger of an export *)

Lemma string_length_app (a s : string) :
  String.length (a ++ s)%string = (String.length a + String.length s)%nat.
Proof. induction a as [|c a IH]; simpl; [done|]. by rewrite IH. Qed.

Lemma string_app_inv_tail (a b s : string) :
  (a ++ s)%string = (b ++ s)%string -> a = b.
Proof.
  revert b. induction a as [|c a IH]; intros [|d b] Heq.
  - done.
  - apply (f_equal String.length) in Heq.
    rewrite (string_length_app (String d b)), (string_length_app "") in Heq.
    simpl in Heq. lia.
  - apply (f_equal String.length) in Heq.
    rewrite (string_length_app (String c a)), (string_length_app "") in Heq.
    simpl in Heq. lia.
  - simpl in Heq. injection Heq as -> Heq. f_equal. by apply IH.
Qed.

Lemma List_filter_all {A : Type} (f : A -> bool) (l : list A) :
  Forall (fun x => f x = true) l -> List.filter f l = l.
Proof. induction 1 as [|x l Hx _ IH]; simpl; [done|]. by rewrite Hx, IH. Qed.

Lemma omap_none {A B : Type} (f : A -> option B) (l : list A) :
  Forall (fun x => f x = None) l -> omap f l = [].
Proof. induction 1 as [|x l Hx _ IH]; simpl; [done|]. by rewrite Hx. Qed.

(** The sort without a comparator puts entries with distinct keys in
    strictly ascending order of their strings. *)
Lemma jsSort_default_strict {A : Type} (toString : A -> string) (l : list A) :
  NoDup (map toString l) ->
  StronglySorted (fun a b => String.compare (toString a) (toString b) = Lt)
    (jsSort (defaultCompare toString) l).
Proof.
  intros Hnodup.
  assert (StronglySorted
            (fun a b => String.compare (toString a) (toString b) <> Gt)
            (jsSort (defaultCompare toString) l)) as Hsorted.
  { apply Sorted_StronglySorted.
    - intros a b c. apply string_compare_le_trans.
    - apply jsSort_Sorted; intros a b; unfold defaultCompare.
      + destruct (String.compare (toString a) (toString b)); simpl; (done || lia).
      + rewrite (String.compare_antisym (toString b) (toString a)).
        destruct (String.compare (toString a) (toString b)); simpl; (done || lia). }
  assert (NoDup (map toString (jsSort (defaultCompare toString) l))) as Hnodup'.
  { by rewrite (jsSort_Permutation (defaultCompare toString) l). }
  clear Hnodup. induction Hsorted as [|x xs _ IH Hx]; [constructor|].
  cbn [map] in Hnodup'. apply NoDup_cons in Hnodup' as [Hnotin Hnodup'].
  constructor; [by apply IH|].
  apply Forall_forall. intros y Hy.
  pose proof (proj1 (Forall_forall _ _) Hx y Hy) as Hle.
  destruct (String.compare (toString x) (toString y)) eqn:Hcmp; [|done..].
  apply String.compare_eq_iff in Hcmp. exfalso. apply Hnotin. rewrite Hcmp.
  by apply (list_elem_of_fmap_2 toString).
Qed.

Section LedgerBlocks.
Context {R : JSRuntime}.

Lemma elem_of_blocksOf (b : Block.t) (grouped : Obj (Obj (list TimeEntry.t))) :
  b ∈ blocksOf grouped ->
  exists kv pe,
    kv ∈ grouped /\ pe ∈ snd kv
    /\ b = {| Block.client := fst kv; Block.project := fst pe;
              Block.rows := map (fun e => (e, entryHours e)) (snd pe);
              Block.total :=
                Some (fold_left (fun acc e => jsadd acc (entryHours e)) (snd pe)
                        (ofZ 0)) |}.
Proof.
  unfold blocksOf. intros Hb.
  apply list_elem_of_In, in_flat_map in Hb as (kv & Hkv & Hb).
  apply in_map_iff in Hb as (pe & <- & Hpe).
  exists kv, pe. split; [by apply list_elem_of_In|]. split; [|done].
  rewrite <-(jsSort_Permutation (defaultCompare projectEntryToString) (snd kv)).
  by apply list_elem_of_In.
Qed.

Lemma blocksOf_entries (grouped : Obj (Obj (list TimeEntry.t))) :
  flat_map (fun b => map fst (Block.rows b)) (blocksOf grouped)
  ≡ₚ groupedEntries grouped.
Proof.
  assert (forall (c : string) (ps : Obj (list TimeEntry.t)),
             flat_map (fun b => map fst (Block.rows b))
               (map (fun pe : string * list TimeEntry.t =>
                       {| Block.client := c; Block.project := fst pe;
                          Block.rows := map (fun e => (e, entryHours e)) (snd pe);
                          Block.total :=
                            Some (fold_left (fun acc e => jsadd acc (entryHours e))
                                    (snd pe) (ofZ 0)) |}) ps)
             = flat_map snd ps) as Hrows.
  { intros c ps. induction ps as [|pe ps IH]; [done|].
    cbn [map flat_map Block.rows]. rewrite IH, map_map. cbn [fst]. by rewrite map_id. }
  unfold blocksOf, groupedEntries.
  induction grouped as [|kv grouped IH]; [done|].
  cbn [flat_map]. rewrite flat_map_app, IH, Hrows.
  by rewrite (jsSort_Permutation (defaultCompare projectEntryToString) (snd kv)).
Qed.

(** What the blocks of a well-formed grouped object are like. *)
Lemma blocksOf_ok (projects : list Project.t)
    (grouped sorted : Obj (Obj (list TimeEntry.t))) :
  groupedOk projects grouped -> sorted ≡ₚ grouped ->
  Forall
    (fun b =>
       Block.rows b <> []
       /\ StronglySorted (fun a b => TimeEntry.date a <= TimeEntry.date b)
            (map fst (Block.rows b))
       /\ Forall (fun r => snd r = entryHours (fst r)
                           /\ resolvesTo projects (Block.client b) (Block.project b)
                                (fst r))
            (Block.rows b)
       /\ Block.total b = Some (sumN (map snd (Block.rows b))))
    (blocksOf sorted).
Proof.
  intros [_ Hclients] Hperm. apply Forall_forall. intros b Hb.
  apply elem_of_blocksOf in Hb as (kv & pe & Hkv & Hpe & ->).
  rewrite Hperm in Hkv.
  pose proof (proj1 (Forall_forall _ _) Hclients kv Hkv) as (_ & _ & Hgroups).
  pose proof (proj1 (Forall_forall _ _) Hgroups pe Hpe) as (Hne & Hsorted & Hres).
  cbn [Block.rows Block.client Block.project Block.total].
  rewrite !map_map. cbn [fst snd]. rewrite map_id.
  split; [by destruct (snd pe)|]. split; [done|]. split.
  - apply Forall_forall. intros r Hr.
    apply list_elem_of_fmap in Hr as (e & -> & He). cbn [fst snd]. split; [done|].
    by eapply Forall_forall in Hres.
  - by rewrite (fold_left_jsadd entryHours), jsadd_0_l.
Qed.

Lemma blocksOf_keys (projects : list Project.t)
    (grouped : Obj (Obj (list TimeEntry.t))) :
  groupedOk projects grouped ->
  NoDup (map (fun b => (Block.client b, Block.project b)) (blocksOf grouped)).
Proof.
  intros [Hkeys Hclients]. unfold blocksOf.
  induction grouped as [|kv grouped IH]; [constructor|].
  cbn [map] in Hkeys. apply NoDup_cons in Hkeys as [Hnotin Hkeys].
  apply Forall_cons in Hclients as [(Hps & _ & _) Hclients].
  cbn [flat_map]. rewrite map_app, map_map. cbn [Block.client Block.project].
  apply NoDup_app. split; [|split; [|by apply IH]].
  - rewrite <-(map_map fst (pair (fst kv))). apply (NoDup_fmap_2 (pair (fst kv))).
    by rewrite (jsSort_Permutation (defaultCompare projectEntryToString) (snd kv)).
  - intros [c p] Hin Hin'.
    apply list_elem_of_fmap in Hin as (pe & [= -> ->] & _).
    apply list_elem_of_fmap in Hin' as (b & [= Hc _] & Hb).
    apply list_elem_of_In, in_flat_map in Hb as (kv' & Hkv' & Hb).
    apply in_map_iff in Hb as (pe' & <- & _). cbn [Block.client] in Hc.
    apply Hnotin. rewrite Hc. apply (list_elem_of_fmap_2 fst). by apply list_elem_of_In.
Qed.

Lemma projectBlocks_lines (ps : Obj (list TimeEntry.t)) :
  Forall projectLine (concat (map projectBlock ps)).
Proof.
  induction ps as [|[p es] ps IH]; [constructor|].
  cbn [map concat]. apply Forall_app. split; [|done].
  unfold projectBlock. constructor; [done|]. apply Forall_app. split.
  - apply Forall_forall. by intros l (e & -> & _)%list_elem_of_fmap.
  - by repeat constructor.
Qed.

Lemma ledgerClients_clientBlocks (grouped : Obj (Obj (list TimeEntry.t))) :
  ledgerClients (concat (map clientBlock grouped)) = map fst grouped.
Proof.
  unfold ledgerClients. induction grouped as [|[c ps] grouped IH]; [done|].
  cbn [map concat fst]. rewrite omap_app, IH. unfold clientBlock.
  rewrite !omap_app, (omap_none _ (concat _)); [done|].
  eapply Forall_impl; [apply projectBlocks_lines|]. by intros [].
Qed.

Lemma ledgerGrandTotal_clientBlocks (grouped : Obj (Obj (list TimeEntry.t))) :
  ledgerGrandTotal (concat (map clientBlock grouped)) = [].
Proof.
  unfold ledgerGrandTotal. apply omap_none.
  induction grouped as [|[c ps] grouped IH]; [constructor|].
  cbn [map concat]. apply Forall_app. split; [|done].
  unfold clientBlock. cbn [app]. do 2 (constructor; [done|]).
  apply Forall_app. split; [|by repeat constructor].
  eapply Forall_impl; [apply projectBlocks_lines|]. by intros [].
Qed.

Lemma omap_entry_lines (es : list TimeEntry.t) :
  omap (fun l => match l with LEntry e d => Some (e, d) | _ => None end)
    (map (fun entry => LEntry entry (entryHours entry)) es)
  = map (fun e => (e, entryHours e)) es.
Proof. induction es as [|e es IH]; [done|]. simpl. f_equal. exact IH. Qed.

Lemma ledgerRows_projectBlocks (c : string) (ps : Obj (list TimeEntry.t)) :
  ledgerRows (concat (map projectBlock ps))
  = flat_map Block.rows
      (map (fun pe : string * list TimeEntry.t =>
              {| Block.client := c; Block.project := fst pe;
                 Block.rows := map (fun e => (e, entryHours e)) (snd pe);
                 Block.total :=
                   Some (fold_left (fun acc e => jsadd acc (entryHours e)) (snd pe)
                           (ofZ 0)) |}) ps).
Proof.
  unfold ledgerRows. induction ps as [|[p es] ps IH]; [done|].
  cbn [map concat flat_map Block.rows snd]. rewrite omap_app, IH. f_equal.
  unfold projectBlock. rewrite !omap_app, omap_entry_lines. simpl.
  by rewrite app_nil_r.
Qed.

Lemma ledgerRows_clientBlocks (grouped : Obj (Obj (list TimeEntry.t))) :
  ledgerRows (concat (map clientBlock grouped)) = flat_map Block.rows (blocksOf grouped).
Proof.
  unfold blocksOf. induction grouped as [|[c ps] grouped IH]; [done|].
  cbn [map concat flat_map fst snd]. rewrite flat_map_app, <-IH.
  unfold ledgerRows at 1. rewrite omap_app. f_equal.
  unfold clientBlock. rewrite !omap_app. simpl. rewrite app_nil_r.
  apply (ledgerRows_projectBlocks c).
Qed.

Lemma ledgerRows_handleExport (selectedClientId : string) (selectedYear : Z)
    (invoiceFilter : InvoiceFilter) (data : Processed.t)
    (entries : list TimeEntry.t) (projects : list Project.t) (clients : list Client.t) :
  ledgerRows
    (handleExport selectedClientId selectedYear invoiceFilter data entries projects
       clients)
  = flat_map Block.rows
      (ledgerBlocks
         (handleExport selectedClientId selectedYear invoiceFilter data entries
            projects clients)).
Proof.
  rewrite ledgerBlocks_handleExport, <-ledgerRows_clientBlocks.
  unfold handleExport, ledgerRows. rewrite !omap_app. simpl. by rewrite app_nil_r.
Qed.

Lemma map_flat_map_rows {B : Type} (f : TimeEntry.t * num -> B) (blocks : list Block.t) :
  map f (flat_map Block.rows blocks) = flat_map (fun b => map f (Block.rows b)) blocks.
Proof.
  induction blocks as [|b bs IH]; [done|]. cbn [flat_map]. by rewrite map_app, IH.
Qed.

Lemma ledgerClients_handleExport (selectedClientId : string) (selectedYear : Z)
    (invoiceFilter : InvoiceFilter) (data : Processed.t)
    (entries : list TimeEntry.t) (projects : list Project.t) (clients : list Client.t) :
  ledgerClients
    (handleExport selectedClientId selectedYear invoiceFilter data entries projects
       clients)
  = map fst
      (jsSort (defaultCompare clientEntryToString)
         (groupForExport projects
            (exportEntries selectedYear (Processed.relevantProjectIds data)
               invoiceFilter entries))).
Proof.
  unfold handleExport.
  unfold ledgerClients.
  rewrite !omap_app.
  change (omap _ (concat (map clientBlock ?g)))
    with (ledgerClients (concat (map clientBlock g))).
  rewrite ledgerClients_clientBlocks. simpl. by rewrite app_nil_r.
Qed.

Lemma ledgerGrandTotal_handleExport (selectedClientId : string) (selectedYear : Z)
    (invoiceFilter : InvoiceFilter) (data : Processed.t)
    (entries : list TimeEntry.t) (projects : list Project.t) (clients : list Client.t) :
  ledgerGrandTotal
    (handleExport selectedClientId selectedYear invoiceFilter data entries projects
       clients)
  = [Processed.grandTotalHours data].
Proof.
  unfold handleExport.
  unfold ledgerGrandTotal.
  rewrite !omap_app.
  change (omap _ (concat (map clientBlock ?g)))
    with (ledgerGrandTotal (concat (map clientBlock g))).
  by rewrite ledgerGrandTotal_clientBlocks.
Qed.
End LedgerBlocks.

Section ExportReport.
Context {R : JSRuntime}.
Variables (selectedClientId : string) (selectedProjectIds : gset string)
  (selectedYear : Z) (invoiceFilter : InvoiceFilter)
  (entries : list TimeEntry.t) (projects : list Project.t)
  (clients : list Client.t) (licenses servers domains : list CostItem.t).

(** The grouped object behind the ledger of a rendered report, and the
    ledger. *)
Local Notation "'grouped'" :=
  (groupForExport (projectsAfterRender selectedClientId projects clients)
     (exportEntries selectedYear
        (activeProjectIds (availableProjects selectedClientId projects clients)
           selectedProjectIds)
        invoiceFilter entries)) (only parsing).

Local Notation "'doc'" :=
  (exportReport selectedClientId selectedProjectIds selectedYear invoiceFilter
     entries projects clients licenses servers domains) (only parsing).

Lemma relevantProjectIds_reportData :
  Processed.relevantProjectIds
    (reportData selectedClientId selectedProjectIds selectedYear invoiceFilter
       entries projects clients licenses servers domains)
  = activeProjectIds (availableProjects selectedClientId projects clients)
      selectedProjectIds.
Proof. by rewrite reportData_eq. Qed.

Lemma exportReport_blocks :
  ledgerBlocks doc = blocksOf (jsSort (defaultCompare clientEntryToString) grouped).
Proof.
  unfold exportReport.
  by rewrite ledgerBlocks_handleExport, relevantProjectIds_reportData.
Qed.

Lemma exportReport_clients :
  ledgerClients doc = map fst (jsSort (defaultCompare clientEntryToString) grouped).
Proof.
  unfold exportReport.
  by rewrite ledgerClients_handleExport, relevantProjectIds_reportData.
Qed.

Lemma exportReport_grouped :
  groupedOk (projectsAfterRender selectedClientId projects clients) grouped
  /\ groupedEntries grouped
     ≡ₚ yearEntries selectedYear
          (activeProjectIds (availableProjects selectedClientId projects clients)
             selectedProjectIds)
          invoiceFilter entries.
Proof.
  destruct (groupForExport_ok (projectsAfterRender selectedClientId projects clients)
              selectedYear
              (activeProjectIds (availableProjects selectedClientId projects clients)
                 selectedProjectIds)
              invoiceFilter entries) as [Hok Hperm].
  split; [done|]. rewrite Hperm, List_filter_all; [done|].
  apply Forall_forall. intros e He.
  destruct (filtered_entries_resolve selectedClientId selectedProjectIds selectedYear
              invoiceFilter entries projects clients e He)
    as [_ (p & -> & _)].
  done.
Qed.

Lemma exportReport_rows :
  flat_map (fun b => map fst (Block.rows b)) (ledgerBlocks doc)
  ≡ₚ yearEntries selectedYear
       (activeProjectIds (availableProjects selectedClientId projects clients)
          selectedProjectIds)
       invoiceFilter entries.
Proof.
  destruct exportReport_grouped as [_ Hperm].
  rewrite exportReport_blocks, blocksOf_entries, <-Hperm.
  unfold groupedEntries. apply Permutation_flat_map, jsSort_Permutation.
Qed.

Lemma exportReport_blocks_ok :
  Forall
    (fun b =>
       Block.rows b <> []
       /\ StronglySorted (fun a b => TimeEntry.date a <= TimeEntry.date b)
            (map fst (Block.rows b))
       /\ Forall (fun r => snd r = entryHours (fst r)
                           /\ resolvesTo
                                (projectsAfterRender selectedClientId projects clients)
                                (Block.client b) (Block.project b) (fst r))
            (Block.rows b)
       /\ Block.total b = Some (sumN (map snd (Block.rows b))))
    (ledgerBlocks doc).
Proof.
  destruct exportReport_grouped as [Hok _]. rewrite exportReport_blocks.
  eapply blocksOf_ok; [exact Hok|]. apply jsSort_Permutation.
Qed.

Lemma groupedOk_Permutation (ps : list Project.t)
    (g g' : Obj (Obj (list TimeEntry.t))) :
  g ≡ₚ g' -> groupedOk ps g -> groupedOk ps g'.
Proof. intros Hperm [Hkeys Hall]. split; by rewrite <-Hperm. Qed.

Lemma exportReport_keys :
  NoDup (map (fun b => (Block.client b, Block.project b)) (ledgerBlocks doc)).
Proof.
  destruct exportReport_grouped as [Hok _]. rewrite exportReport_blocks.
  eapply blocksOf_keys, groupedOk_Permutation; [|exact Hok].
  symmetry. apply jsSort_Permutation.
Qed.

Lemma exportReport_clients_sorted :
  StronglySorted
    (fun a b => String.compare (a ++ "," ++ objectObject) (b ++ "," ++ objectObject)
                = Lt)
    (ledgerClients doc).
Proof.
  destruct exportReport_grouped as [[Hkeys _] _]. rewrite exportReport_clients.
  assert (NoDup (map clientEntryToString grouped)) as Hnodup.
  { unfold clientEntryToString.
    rewrite <-(map_map fst (fun c => (c ++ "," ++ objectObject)%string)).
    apply (NoDup_fmap_2_strong (fun c => (c ++ "," ++ objectObject)%string));
      [|done].
    intros a b _ _. apply string_app_inv_tail. }
  pose proof (jsSort_default_strict clientEntryToString grouped Hnodup) as Hsorted.
  induction Hsorted as [|kv l _ IH Hkv]; [constructor|].
  cbn [map]. constructor; [done|].
  apply Forall_forall. intros c (kv' & -> & Hin)%list_elem_of_fmap.
  by eapply Forall_forall in Hkv.
Qed.

Lemma exportReport_ledgerRows :
  map fst (ledgerRows doc)
  ≡ₚ yearEntries selectedYear
       (activeProjectIds (availableProjects selectedClientId projects clients)
          selectedProjectIds)
       invoiceFilter entries
  /\ Forall (fun r => snd r = entryHours (fst r)) (ledgerRows doc).
Proof.
  unfold exportReport. rewrite ledgerRows_handleExport. split.
  - rewrite map_flat_map_rows. apply exportReport_rows.
  - apply Forall_flat_map.
    eapply Forall_impl; [apply exportReport_blocks_ok|].
    intros b (_ & _ & Hrows & _). eapply Forall_impl; [exact Hrows|]. by intros r [? _].
Qed.
End ExportReport.

(** X19. When no client name and no project name of the project list is
    the name of a property that objects inherit, the ledger of a rendered
    report lists every time entry that the report counts exactly once, and
    no other entry: the entries of its entry lines are a rearrangement of
    the entries of the year that pass the project and invoice filters.  The
    duration on each line is the duration in hours of its entry. *)
Theorem X19_ledger_lists_each_counted_entry_once {R : JSRuntime}
    (selectedClientId : string) (selectedProjectIds : gset string)
    (selectedYear : Z) (invoiceFilter : InvoiceFilter)
    (entries : list TimeEntry.t) (projects : list Project.t)
    (clients : list Client.t) (licenses servers domains : list CostItem.t) :
  plainNames projects = true ->
  let doc :=
    exportReport selectedClientId selectedProjectIds selectedYear invoiceFilter
      entries projects clients licenses servers domains in
  map fst (ledgerRows doc)
  ≡ₚ yearEntries selectedYear
       (activeProjectIds (availableProjects selectedClientId projects clients)
          selectedProjectIds)
       invoiceFilter entries
  /\ Forall (fun r => snd r = entryHours (fst r)) (ledgerRows doc).
Proof.
  intros _ doc. apply exportReport_ledgerRows.
Qed.

Lemma X19_witness :
  let doc :=
    exportReport (R := asciiRuntime) "all" {["p3"%string; "p4"%string]} 2024
      FilterAll acmeEntries [acmeProject; acmeProject2] [] [] [] [] in
  map fst (ledgerRows doc)
  ≡ₚ yearEntries 2024
       (activeProjectIds
          (availableProjects (R := asciiRuntime) "all" [acmeProject; acmeProject2] [])
          {["p3"%string; "p4"%string]})
       FilterAll acmeEntries
  /\ Forall (fun r => snd r = entryHours (R := asciiRuntime) (fst r)) (ledgerRows doc).
Proof.
  apply (X19_ledger_lists_each_counted_entry_once (R := asciiRuntime) "all"
           {["p3"%string; "p4"%string]} 2024 FilterAll acmeEntries
           [acmeProject; acmeProject2] [] [] [] []).
  reflexivity.
Defined.

(** X20. Every project block of the ledger of a rendered report has at least
    one entry line; its entries come in ascending order of their dates; the
    project of each entry is found in the project list, and it has the client
    name and the project name of the block's headings (the client name being
    "No Client / Internal" for a project without client); and the total of
    the block is the sum of the durations of its lines, added in order from
    0. *)
Theorem X20_ledger_blocks_are_well_formed {R : JSRuntime}
    (selectedClientId : string) (selectedProjectIds : gset string)
    (selectedYear : Z) (invoiceFilter : InvoiceFilter)
    (entries : list TimeEntry.t) (projects : list Project.t)
    (clients : list Client.t) (licenses servers domains : list CostItem.t) :
  let doc :=
    exportReport selectedClientId selectedProjectIds selectedYear invoiceFilter
      entries projects clients licenses servers domains in
  Forall
    (fun b =>
       Block.rows b <> []
       /\ StronglySorted (fun a b => TimeEntry.date a <= TimeEntry.date b)
            (map fst (Block.rows b))
       /\ Forall
            (fun r =>
               exists p,
                 findProject (projectsAfterRender selectedClientId projects clients)
                   (TimeEntry.project (fst r)) = Some p
                 /\ exportClientName p = Block.client b
                 /\ Project.name p = Block.project b)
            (Block.rows b)
       /\ Block.total b = Some (fold_left jsadd (map snd (Block.rows b)) (ofZ 0)))
    (ledgerBlocks doc).
Proof.
  intros doc. eapply Forall_impl; [apply exportReport_blocks_ok|].
  intros b (Hne & Hsorted & Hrows & Htotal). repeat split; try done.
  eapply Forall_impl; [exact Hrows|]. by intros r [_ ?].
Qed.

(** X21. In the ledger of a rendered report no two project blocks have the
    same client name and project name, so entries of projects that share
    both names share a block; and the client headings appear without
    repetition, in strictly ascending order of the strings that the sort
    compares, the client name followed by ",[object Object]". *)
Theorem X21_ledger_headings_are_unique {R : JSRuntime}
    (selectedClientId : string) (selectedProjectIds : gset string)
    (selectedYear : Z) (invoiceFilter : InvoiceFilter)
    (entries : list TimeEntry.t) (projects : list Project.t)
    (clients : list Client.t) (licenses servers domains : list CostItem.t) :
  let doc :=
    exportReport selectedClientId selectedProjectIds selectedYear invoiceFilter
      entries projects clients licenses servers domains in
  NoDup (map (fun b => (Block.client b, Block.project b)) (ledgerBlocks doc))
  /\ NoDup (ledgerClients doc)
  /\ StronglySorted
       (fun a b => String.compare (a ++ "," ++ objectObject) (b ++ "," ++ objectObject)
                   = Lt)
       (ledgerClients doc).
Proof.
  intros doc. split; [apply exportReport_keys|].
  pose proof (exportReport_clients_sorted selectedClientId selectedProjectIds
                selectedYear invoiceFilter entries projects clients licenses servers
                domains) as Hsorted.
  split; [|exact Hsorted]. fold doc in Hsorted.
  induction Hsorted as [|c l _ IH Hc]; [constructor|].
  apply NoDup_cons. split; [|done]. intros Hin.
  eapply Forall_forall in Hc; [|exact Hin].
  assert (String.compare (c ++ "," ++ objectObject) (c ++ "," ++ objectObject) = Eq)
    as Hrefl.
  { destruct (String.compare (c ++ "," ++ objectObject) (c ++ "," ++ objectObject))
      eqn:Hcmp; [done| |];
      pose proof (String.compare_antisym (c ++ "," ++ objectObject)
                    (c ++ "," ++ objectObject)) as Hanti;
      rewrite Hcmp in Hanti; discriminate. }
  congruence.
Qed.

(** ** Formatting durations *)

(** *** Integers as numbers *)

Lemma Qred_inject_Z (n : Z) : Qred (inject_Z n) = inject_Z n.
Proof.
  unfold Qred, inject_Z.
  pose proof (Z.ggcd_gcd n 1) as Hg.
  pose proof (Z.ggcd_correct_divisors n 1) as Hd.
  destruct (Z.ggcd n 1) as [g [aa bb]]. cbn [fst snd] in *.
  rewrite Z.gcd_1_r in Hg. subst g. destruct Hd as [Ha Hb].
  assert (aa = n) as -> by lia. assert (bb = 1) as -> by lia. done.
Qed.

Lemma this_Qc_of_Z (n : Z) : this (Qc_of_Z n) = inject_Z n.
Proof. reflexivity. Qed.

Lemma Qc_div_Z (n m : Z) :
  (this (Qc_of_Z n / Qc_of_Z m)%Qc == inject_Z n / inject_Z m)%Q.
Proof.
  unfold Qcdiv, Qcmult, Qcinv, Q2Qc. cbn [this].
  rewrite !Qred_correct, !this_Qc_of_Z. reflexivity.
Qed.

Lemma jsfloor_ofZ (n : Z) : jsfloor (ofZ n) = ofZ n.
Proof. unfold jsfloor, ofZ. by rewrite this_Qc_of_Z, Qfloor_Z. Qed.

Lemma jsfloor_div60 (n : Z) : jsfloor (div60 (ofZ n)) = ofZ (n / 60).
Proof.
  unfold jsfloor, div60, ofZ. f_equal.
  rewrite (Qfloor_comp _ _ (Qc_div_Z n 60)). by rewrite <-Zdiv_Qdiv.
Qed.

Lemma jsfloor_jsdivc (n c : Z) : jsfloor (jsdivc (ofZ n) c) = ofZ (n / c).
Proof.
  unfold jsfloor, jsdivc, ofZ. f_equal.
  rewrite (Qfloor_comp _ _ (Qc_div_Z n c)). by rewrite <-Zdiv_Qdiv.
Qed.

(** The remainder of non-negative integers. *)
Lemma jsrem_ofZ (n m : Z) :
  0 <= n -> 0 < m -> jsrem (ofZ n) (ofZ m) = ofZ (n mod m).
Proof.
  intros Hn Hm. unfold jsrem, ofZ.
  assert (Qeq_bool (Qc_of_Z m) 0 = false) as ->.
  { apply not_true_iff_false. intros Heq%Qeq_bool_iff.
    rewrite this_Qc_of_Z in Heq. unfold Qeq, inject_Z in Heq. simpl in Heq. lia. }
  f_equal.
  assert (Qtrunc (Qc_of_Z n / Qc_of_Z m)%Qc = n / m) as ->.
  { unfold Qtrunc.
    assert (Qfloor (Qc_of_Z n / Qc_of_Z m)%Qc = n / m) as Hfloor.
    { rewrite (Qfloor_comp _ _ (Qc_div_Z n m)). symmetry. apply Zdiv_Qdiv. }
    assert (Qle_bool 0 (Qc_of_Z n / Qc_of_Z m)%Qc = true) as ->; [|done].
    apply Qle_bool_iff. rewrite (Qc_div_Z n m).
    apply Qle_shift_div_l.
    - unfold Qlt, inject_Z. simpl. lia.
    - unfold Qle, inject_Z. simpl. lia. }
  rewrite <-Z2Qc_inj_mul, <-Z2Qc_inj_sub. f_equal. rewrite Z.mod_eq; lia.
Qed.

Lemma numToString_ofZ (n : Z) :
  Z.abs n < 10 ^ 21 -> numToString (ofZ n) = Some (pretty n).
Proof.
  intros Hn. unfold numToString, ofZ. rewrite this_Qc_of_Z. cbn [inject_Z Qden Qnum].
  rewrite Z.eqb_refl. cbn [andb].
  by rewrite (proj2 (Z.ltb_lt _ _) Hn).
Qed.

Lemma jsround_ofZ (n : Z) : jsround (ofZ n) = ofZ n.
Proof.
  unfold jsround, ofZ. do 2 f_equal.
  assert (this (Qc_of_Z n + Q2Qc (1 # 2))%Qc == inject_Z n + (1 # 2))%Q as Heq.
  { unfold Qcplus, Q2Qc. cbn [this]. by rewrite !Qred_correct. }
  rewrite (Qfloor_comp _ _ Heq). unfold Qfloor, Qplus, inject_Z. simpl. lia.
Qed.

(** The minutes that [formatDuration] of [Reports.tsx] recovers from a
    whole number of minutes given in hours. *)
Lemma minutes_of_hours (n : Z) :
  jsmul (jssub (div60 (ofZ n)) (jsfloor (div60 (ofZ n)))) (ofZ 60) = ofZ (n mod 60).
Proof.
  rewrite jsfloor_div60. unfold jsmul, jssub, div60, ofZ. f_equal.
  rewrite Z.mod_eq by lia. rewrite Z2Qc_inj_sub, Z2Qc_inj_mul.
  field. intros Heq. rewrite <-Z2Qc_inj_0 in Heq. by apply (Z2Qc_inj 60 0) in Heq.
Qed.

(** *** Decimal numerals *)

Lemma decimal_value_acc_app (acc : Z) (a b : string) :
  decimal_value_acc acc (a ++ b)
  = match decimal_value_acc acc a with
    | Some v => decimal_value_acc v b
    | None => None
    end.
Proof.
  revert acc. induction a as [|c a IH]; intros acc; simpl; [done|].
  destruct (digit_value c); [apply IH|done].
Qed.

Lemma decimal_value_no_colon (acc : Z) (s : string) (v : Z) :
  decimal_value_acc acc s = Some v -> hasColon s = false.
Proof.
  revert acc. induction s as [|c s IH]; intros acc; simpl; [done|].
  destruct (digit_value c) as [d|] eqn:Hc; [|done].
  rewrite (digit_value_not_colon _ _ Hc). apply IH.
Qed.

Lemma digit_value_pretty_N_char (d : N) :
  (d < 10)%N -> digit_value (pretty_N_char d) = Some (Z.of_N d).
Proof.
  intros Hd.
  assert (d = 0 \/ d = 1 \/ d = 2 \/ d = 3 \/ d = 4 \/ d = 5 \/ d = 6 \/ d = 7
          \/ d = 8 \/ d = 9)%N as Hcases by lia.
  repeat (destruct Hcases as [->|Hcases]; [reflexivity|]). by subst.
Qed.

Lemma string_app_assoc (a b c : string) :
  ((a ++ b) ++ c)%string = (a ++ (b ++ c))%string.
Proof.
  induction a as [|x a IH]; [done|].
  change (String x ((a ++ b) ++ c) = String x (a ++ (b ++ c)))%string.
  by rewrite IH.
Qed.

Lemma pretty_N_go_app (x : N) (s : string) :
  pretty_N_go x s = (pretty_N_go x "" ++ s)%string.
Proof.
  revert s. induction (N.lt_wf_0 x) as [x _ IH]. intros s.
  destruct (decide (x = 0)%N) as [->|Hx]; [by rewrite !pretty_N_go_0|].
  assert (x `div` 10 < x)%N as Hlt by (apply N.div_lt; lia).
  rewrite !(pretty_N_go_step x) by lia.
  rewrite (IH _ Hlt (String _ s)), (IH _ Hlt (String _ "")).
  by rewrite string_app_assoc.
Qed.

Lemma decimal_value_pretty_N_go (x : N) :
  decimal_value (pretty_N_go x "") = Some (Z.of_N x).
Proof.
  induction (N.lt_wf_0 x) as [x _ IH].
  destruct (decide (x = 0)%N) as [->|Hx]; [done|].
  assert (x `div` 10 < x)%N as Hlt by (apply N.div_lt; lia).
  rewrite pretty_N_go_step, pretty_N_go_app by lia.
  unfold decimal_value in *. rewrite decimal_value_acc_app, (IH _ Hlt).
  simpl. rewrite digit_value_pretty_N_char by (apply N.mod_lt; lia).
  f_equal. rewrite N2Z.inj_div, N2Z.inj_mod. simpl. lia.
Qed.

Lemma length_pretty_N_go (k : nat) (x : N) :
  (x < 10 ^ N.of_nat k)%N -> (String.length (pretty_N_go x "") <= k)%nat.
Proof.
  revert x. induction k as [|k IH]; intros x Hx.
  - assert (x = 0)%N as -> by (simpl in Hx; lia). by rewrite pretty_N_go_0.
  - destruct (decide (x = 0)%N) as [->|Hx0]; [rewrite pretty_N_go_0; simpl; lia|].
    rewrite pretty_N_go_step, pretty_N_go_app, string_length_app by lia.
    simpl. pose proof (IH (x `div` 10)%N) as Hlen.
    assert (x `div` 10 < 10 ^ N.of_nat k)%N as Hdiv.
    { apply N.Div0.div_lt_upper_bound.
      rewrite Nat2N.inj_succ, N.pow_succ_r' in Hx. lia. }
    specialize (Hlen Hdiv). lia.
Qed.

(** The numeral of a non-negative integer: decimal digits that read as
    the integer, at least one, at most [k] below [10 ^ k]. *)
Lemma pretty_Z_decimal (n : Z) (k : nat) :
  0 <= n < 10 ^ Z.of_nat k ->
  decimal_value (pretty n) = Some n
  /\ pretty n <> EmptyString
  /\ (String.length (pretty n) <= Nat.max 1 k)%nat.
Proof.
  intros [Hn Hk]. destruct n as [|p|p]; [|clear Hn|lia].
  - repeat split; [done|]. simpl. lia.
  - change (pretty (Z.pos p)) with (pretty (N.pos p)).
    unfold pretty, pretty_N. rewrite decide_False by done.
    split; [apply (decimal_value_pretty_N_go (N.pos p))|]. split.
    + intros Hnil. pose proof (decimal_value_pretty_N_go (N.pos p)) as Hv.
      rewrite Hnil in Hv. done.
    + etrans; [apply (length_pretty_N_go k)|lia].
      apply N2Z.inj_lt. rewrite N2Z.inj_pow, nat_N_Z. simpl. lia.
Qed.

(** *** Padding *)

Lemma length_repeatChar (n : nat) (c : ascii) : String.length (repeatChar n c) = n.
Proof. induction n as [|n IH]; simpl; [done|]. by rewrite IH. Qed.

Lemma length_padStart (n : nat) (c : ascii) (s : string) :
  String.length (padStart n c s) = Nat.max n (String.length s).
Proof. unfold padStart. rewrite string_length_app, length_repeatChar. lia. Qed.

Lemma decimal_value_padStart (n : nat) (s : string) :
  decimal_value (padStart n "0" s) = decimal_value s.
Proof.
  unfold padStart, decimal_value. rewrite decimal_value_acc_app.
  induction (n - String.length s)%nat as [|k IH]; [done|]. simpl. exact IH.
Qed.

(** A number below 100, padded: two digits that read as the number. *)
Lemma pad2_decimal (n : Z) :
  0 <= n < 100 ->
  exists a b x y,
    padStart 2 "0" (pretty n) = String a (String b EmptyString)
    /\ digit_value a = Some x /\ digit_value b = Some y /\ n = 10 * x + y.
Proof.
  intros Hn.
  destruct (pretty_Z_decimal n 2) as (Hv & _ & _); [simpl; lia|].
  destruct (pretty_Z_decimal n 2) as (_ & _ & Hle); [simpl; lia|].
  assert (String.length (padStart 2 "0" (pretty n)) = 2%nat) as Hlen
    by (rewrite length_padStart; lia).
  rewrite <-(decimal_value_padStart 2) in Hv.
  destruct (padStart 2 "0" (pretty n)) as [|a [|b [|? ?]]]; simpl in Hlen; try lia.
  unfold decimal_value in Hv. cbn [decimal_value_acc] in Hv.
  destruct (digit_value a) as [x|] eqn:Ha; [|done].
  destruct (digit_value b) as [y|] eqn:Hb; [|done].
  exists a, b, x, y. repeat split; try done. injection Hv as Hv. lia.
Qed.

(** *** The clock text of a duration *)

Lemma formatDuration_clock (d : Z) :
  0 <= d < 1440 ->
  exists clock,
    App.formatDuration (ofZ d) = Some (clock ++ ":00")%string
    /\ Reports.formatDuration (div60 (ofZ d)) = Some (clock ++ ":00")%string
    /\ parseHHMM clock = Some (d / 60, d mod 60).
Proof.
  intros Hd.
  destruct (pad2_decimal (d / 60)) as (a & b & x1 & x2 & Hh & Ha & Hb & Hhv); [lia|].
  destruct (pad2_decimal (d mod 60)) as (c & e & y1 & y2 & Hm & Hc & He & Hmv); [lia|].
  exists (String a (String b (String ":"%char (String c (String e EmptyString))))).
  assert (forall h m : num,
             h = ofZ (d / 60) -> m = ofZ (d mod 60) ->
             match numToString h, numToString m with
             | Some hs, Some ms =>
                 Some (padStart 2 "0" hs ++ ":" ++ padStart 2 "0" ms ++ ":00")%string
             | _, _ => None
             end
             = Some (String a (String b (String ":"%char (String c (String e EmptyString))))
                     ++ ":00")%string) as Htext.
  { intros h m -> ->. rewrite !numToString_ofZ by lia. by rewrite Hh, Hm. }
  split; [|split].
  - unfold App.formatDuration. apply Htext; [apply jsfloor_div60|by apply jsrem_ofZ; lia].
  - unfold Reports.formatDuration. apply Htext; [apply jsfloor_div60|].
    by rewrite minutes_of_hours, jsround_ofZ.
  - unfold parseHHMM. rewrite Ha, Hb, Hc, He. cbn [Ascii.eqb Bool.eqb].
    rewrite <-Hhv, <-Hmv.
    assert ((d / 60 <? 24) && (d mod 60 <? 60) = true) as ->; [|done].
    apply andb_true_intro. split; apply Z.ltb_lt; lia.
Qed.

Section FormatFacts.
Context {R : JSRuntime}.

Lemma getDurationInHours_div60 (start end_ : string) :
  getDurationInHours start end_ = div60 (calculateDuration start end_).
Proof.
  unfold getDurationInHours, calculateDuration.
  by destruct (parseHM start), (parseHM end_).
Qed.
End FormatFacts.

(** X23. For well-formed "HH:MM" start and end times the duration shows as
    a clock text: [formatDuration] of [App.tsx] gives the five characters of
    the well-formed time whose hour and minute are the quotient and the
    remainder of the minutes by 60, followed by ":00"; read back as an end
    time against "00:00", that text gives the duration again. *)
Theorem X23_a_duration_shows_as_its_clock_text {R : JSRuntime} {HR : NumberLaws R}
    (start end_ : string) :
  wellFormedTime start = true -> wellFormedTime end_ = true ->
  exists (d : Z) (clock : string),
    calculateDuration start end_ = ofZ d
    /\ App.formatDuration (calculateDuration start end_) = Some (clock ++ ":00")%string
    /\ parseHHMM clock = Some (d / 60, d mod 60)
    /\ calculateDuration "00:00" (clock ++ ":00") = calculateDuration start end_.
Proof.
  unfold wellFormedTime. intros Hs He.
  destruct (parseHHMM start) as [[h1 m1]|] eqn:Hstart; [|done].
  destruct (parseHHMM end_) as [[h2 m2]|] eqn:Hend; [|done].
  pose proof (calculateDuration_well_formed _ _ _ _ _ _ Hstart Hend) as Hd.
  pose proof (specMinutes_range _ _ _ _ _ _ Hstart Hend) as Hrange.
  destruct (formatDuration_clock _ Hrange) as (clock & Happ & _ & Hclock).
  exists (specMinutes h1 m1 h2 m2), clock. rewrite Hd.
  split; [done|]. split; [done|]. split; [done|].
  assert (parseHM (clock ++ ":00") = parseHM clock) as Hparse.
  { unfold parseHHMM in Hclock.
    destruct clock as [|a [|b [|c [|x [|y [|? ?]]]]]]; try done.
    destruct (Ascii.eqb_spec c ":"%char) as [->|]; [|done].
    destruct (digit_value a) eqn:Ha; [|done].
    destruct (digit_value b) eqn:Hb; [|done].
    destruct (digit_value x) eqn:Hx; [|done].
    destruct (digit_value y) eqn:Hy; [|done].
    change ((String a (String b (String ":" (String x (String y EmptyString))))
             ++ ":00")%string)
      with (String a (String b (String ":"%char (String x (String y ":00"%string))))).
    unfold parseHM. cbn [split_colon].
    rewrite (digit_value_not_colon _ _ Ha), (digit_value_not_colon _ _ Hb),
      (digit_value_not_colon _ _ Hx), (digit_value_not_colon _ _ Hy).
    done. }
  assert (calculateDuration "00:00" (clock ++ ":00") = calculateDuration "00:00" clock)
    as -> by (unfold calculateDuration; by rewrite Hparse).
  rewrite (calculateDuration_well_formed "00:00" clock 0 0 _ _ eq_refl Hclock).
  f_equal. clear Hd Happ. revert Hrange Hclock.
  generalize (specMinutes h1 m1 h2 m2). intros d Hrange Hclock.
  unfold specMinutes. destruct (_ <? 0) eqn:Hneg; [apply Z.ltb_lt in Hneg|]; lia.
Qed.

Lemma X23_witness :
  exists (d : Z) (clock : string),
    calculateDuration (R := asciiRuntime) "23:30" "00:15" = ofZ d
    /\ App.formatDuration (calculateDuration (R := asciiRuntime) "23:30" "00:15")
       = Some (clock ++ ":00")%string
    /\ parseHHMM clock = Some (d / 60, d mod 60)
    /\ calculateDuration (R := asciiRuntime) "00:00" (clock ++ ":00")
       = calculateDuration (R := asciiRuntime) "23:30" "00:15".
Proof.
  apply (X23_a_duration_shows_as_its_clock_text (R := asciiRuntime) "23:30" "00:15");
    reflexivity.
Defined.

(** X24. For well-formed "HH:MM" start and end times the report and the
    timer view show the same text for a duration: [formatDuration] of
    [Reports.tsx] on the hours of [getDurationInHours] gives what
    [formatDuration] of [App.tsx] gives on the minutes of
    [calculateDuration], a well-formed time followed by ":00", so the minute
    field of the report's text is below 60. *)
Theorem X24_hours_and_minutes_show_the_same_text {R : JSRuntime} {HR : NumberLaws R}
    (start end_ : string) :
  wellFormedTime start = true -> wellFormedTime end_ = true ->
  exists clock,
    Reports.formatDuration (getDurationInHours start end_)
    = Some (clock ++ ":00")%string
    /\ App.formatDuration (calculateDuration start end_) = Some (clock ++ ":00")%string
    /\ wellFormedTime clock = true.
Proof.
  unfold wellFormedTime. intros Hs He.
  destruct (parseHHMM start) as [[h1 m1]|] eqn:Hstart; [|done].
  destruct (parseHHMM end_) as [[h2 m2]|] eqn:Hend; [|done].
  pose proof (calculateDuration_well_formed _ _ _ _ _ _ Hstart Hend) as Hd.
  pose proof (specMinutes_range _ _ _ _ _ _ Hstart Hend) as Hrange.
  destruct (formatDuration_clock _ Hrange) as (clock & Happ & Hrep & Hclock).
  exists clock. by rewrite getDurationInHours_div60, Hd, Hclock.
Qed.

Lemma X24_witness :
  exists clock,
    Reports.formatDuration (getDurationInHours (R := asciiRuntime) "09:00" "10:30")
    = Some (clock ++ ":00")%string
    /\ App.formatDuration (calculateDuration (R := asciiRuntime) "09:00" "10:30")
       = Some (clock ++ ":00")%string
    /\ wellFormedTime clock = true.
Proof.
  apply (X24_hours_and_minutes_show_the_same_text (R := asciiRuntime) "09:00" "10:30");
    reflexivity.
Defined.

(** X25. A duration that is not a number shows as "NaN:NaN:00": when a
    component of the start or of the end time is not a number, both
    [formatDuration] functions give that text for the duration. *)
Theorem X25_unparseable_time_shows_as_NaN_text {R : JSRuntime} (start end_ : string) :
  hasNaNComponent start || hasNaNComponent end_ = true ->
  App.formatDuration (calculateDuration start end_) = Some "NaN:NaN:00"%string
  /\ Reports.formatDuration (getDurationInHours start end_) = Some "NaN:NaN:00"%string.
Proof.
  intros [-> ->]%duration_NaN. split; reflexivity.
Qed.

Lemma X25_witness :
  App.formatDuration (calculateDuration (R := asciiRuntime) "ab:00" "10:00")
  = Some "NaN:NaN:00"%string
  /\ Reports.formatDuration (getDurationInHours (R := asciiRuntime) "ab:00" "10:00")
     = Some "NaN:NaN:00"%string.
Proof.
  apply (X25_unparseable_time_shows_as_NaN_text (R := asciiRuntime) "ab:00" "10:00").
  reflexivity.
Defined.

(** X26. The seconds counter can be read back.  For a whole number of
    seconds from 0 and below 2^53, [formatSeconds] gives three fields of decimal digits
    between colons that read as the hours, the minutes below 60 and the
    seconds below 60 of the count; the minute and second fields have two
    characters, and so has the hour field below a hundred hours. *)
Theorem X26_formatSeconds_reads_back (n : Z) :
  0 <= n < 2 ^ 53 ->
  exists hs ms ss : string,
    App.formatSeconds (ofZ n) = Some (hs ++ ":" ++ ms ++ ":" ++ ss)%string
    /\ split_colon (hs ++ ":" ++ ms ++ ":" ++ ss) = [hs; ms; ss]
    /\ decimal_value hs = Some (n / 3600)
    /\ decimal_value ms = Some (n mod 3600 / 60)
    /\ decimal_value ss = Some (n mod 60)
    /\ String.length ms = 2%nat /\ String.length ss = 2%nat
    /\ (n < 360000 -> String.length hs = 2%nat).
Proof.
  intros Hn.
  exists (padStart 2 "0" (pretty (n / 3600))),
    (padStart 2 "0" (pretty (n mod 3600 / 60))),
    (padStart 2 "0" (pretty (n mod 60))).
  assert (0 <= n / 3600 < 10 ^ Z.of_nat 21) as Hh by (simpl; lia).
  destruct (pretty_Z_decimal _ _ Hh) as (Hhv & _ & _).
  destruct (pretty_Z_decimal (n mod 3600 / 60) 2) as (Hmv & _ & Hml); [simpl; lia|].
  destruct (pretty_Z_decimal (n mod 60) 2) as (Hsv & _ & Hsl); [simpl; lia|].
  rewrite <-(decimal_value_padStart 2) in Hhv, Hmv, Hsv.
  split; [|split; [|split; [|split; [|split; [|split; [|split]]]]]]; try done.
  - unfold App.formatSeconds.
    rewrite jsfloor_jsdivc, (jsrem_ofZ n 3600), jsfloor_div60, (jsrem_ofZ n 60) by lia.
    by rewrite !numToString_ofZ by lia.
  - change (":" ++ ?x)%string with (String ":"%char x).
    rewrite split_colon_app by (by eapply decimal_value_no_colon).
    change (":" ++ ?x)%string with (String ":"%char x).
    rewrite split_colon_app by (by eapply decimal_value_no_colon).
    by rewrite split_colon_no_colon by (by eapply decimal_value_no_colon).
  - rewrite length_padStart. lia.
  - rewrite length_padStart. lia.
  - intros Hlt. rewrite length_padStart.
    destruct (pretty_Z_decimal (n / 3600) 2) as (_ & _ & Hhl); [simpl; lia|]. lia.
Qed.

Lemma X26_witness :
  exists hs ms ss : string,
    App.formatSeconds (ofZ 3725) = Some (hs ++ ":" ++ ms ++ ":" ++ ss)%string
    /\ split_colon (hs ++ ":" ++ ms ++ ":" ++ ss) = [hs; ms; ss]
    /\ decimal_value hs = Some (3725 / 3600)
    /\ decimal_value ms = Some (3725 mod 3600 / 60)
    /\ decimal_value ss = Some (3725 mod 60)
    /\ String.length ms = 2%nat /\ String.length ss = 2%nat
    /\ (3725 < 360000 -> String.length hs = 2%nat).
Proof. apply (X26_formatSeconds_reads_back 3725). lia. Defined.

(** ** The stacked chart *)




Section Breakdown.
Context {R : JSRuntime}.



End Breakdown.


Section SortOn.
Context {A : Type} (cmp : A -> A -> Z) (P : A -> Prop) (Rel : relation A).
Hypothesis Hle : forall a b, P a -> P b -> cmp a b <= 0 -> Rel a b.
Hypothesis Hgt : forall a b, P a -> P b -> 0 < cmp a b -> Rel b a.


End SortOn.

Section BreakdownFacts.
Context {R : JSRuntime}.




End BreakdownFacts.

Section BreakdownTheorems.
Context {R : JSRuntime}.


End BreakdownTheorems.

(** *** Heights *)

Lemma nonnegative_jsadd (a b : num) :
  nonnegative a -> nonnegative b -> nonnegative (jsadd a b).
Proof.
  intros (x & -> & Hx) (y & -> & Hy). exists (x + y)%Qc. split; [done|].
  rewrite Z2Qc_inj_0 in *. by apply Qcplus_nonneg_nonneg.
Qed.

Lemma sumN_nonnegative (l : list num) :
  Forall nonnegative l -> nonnegative (sumN l).
Proof.
  induction 1 as [|x l Hx _ IH].
  - exists (Qc_of_Z 0). split; [done|]. apply Qcle_refl.
  - rewrite sumN_cons. by apply nonnegative_jsadd.
Qed.

(** A summand of a sum of non-negative numbers is at most the sum. *)
Lemma sumN_summand (l : list num) (x : Qc) :
  Forall nonnegative l -> Fin x ∈ l ->
  exists s, sumN l = Fin s /\ (x <= s)%Qc.
Proof.
  induction 1 as [|y l Hy Hl IH]; [by intros ?%elem_of_nil|].
  destruct (sumN_nonnegative l Hl) as (t & Ht & Htpos).
  destruct Hy as (q & -> & Hq). rewrite sumN_cons, Ht. cbn [jsadd].
  rewrite Z2Qc_inj_0 in *.
  intros [[= ->]|Hin]%elem_of_cons.
  - exists (q + t)%Qc. split; [done|].
    rewrite <-(Qcplus_0_r q) at 1. by apply Qcplus_le_compat; [apply Qcle_refl|].
  - destruct (IH Hin) as (s & Hs & Hxs). rewrite Ht in Hs. injection Hs as <-.
    exists (q + t)%Qc. split; [done|].
    rewrite <-(Qcplus_0_l x). by apply Qcplus_le_compat.
Qed.


Section Heights.
Context {R : JSRuntime}.


End Heights.

Lemma monthEntries_Forall (P : TimeEntry.t -> Prop) (month : Z) (l : list TimeEntry.t) :
  Forall P l -> Forall P (monthEntries month l).
Proof.
  intros Hl. apply Forall_forall. intros e He.
  apply list_elem_of_In, filter_In in He as [He _].
  by eapply Forall_forall in Hl; [|apply list_elem_of_In].
Qed.

Section ChartFacts.
Context {R : JSRuntime}.

Lemma entryHours_wellTimed {HR : NumberLaws R} (e : TimeEntry.t) :
  wellTimed e = true -> nonnegative (entryHours e).
Proof.
  unfold wellTimed. intros He.
  destruct (parseHHMM (TimeEntry.startTime e)) as [[h1 m1]|] eqn:Hs; [|done].
  destruct (parseHHMM (TimeEntry.endTime e)) as [[h2 m2]|] eqn:Hend; [|done].
  unfold entryHours.
  rewrite getDurationInHours_div60, (calculateDuration_well_formed _ _ _ _ _ _ Hs Hend).
  pose proof (specMinutes_range _ _ _ _ _ _ Hs Hend) as [Hpos _].
  exists (Qc_of_Z (specMinutes h1 m1 h2 m2) / Qc_of_Z 60)%Qc. split; [done|].
  rewrite Z2Qc_inj_0. apply Qcmult_nonneg_nonneg.
  - rewrite <-Z2Qc_inj_0. exact (proj1 (Z2Qc_inj_le _ _) Hpos).
  - apply Qclt_le_weak, Qcinv_pos. rewrite <-Z2Qc_inj_0.
    apply (proj1 (Z2Qc_inj_lt 0 60)). lia.
Qed.



End ChartFacts.



Section MonthSegments.
Context {R : JSRuntime} {HR : NumberLaws R}.

End MonthSegments.





(** *** Durations that are not numbers *)





(** ** Totals of zero *)

Lemma Fin_inj (a b : Qc) : Fin a = Fin b -> a = b.
Proof.
  intros Heq.
  exact (f_equal (fun x => match x with Fin q => q | NaN => a end) Heq).
Qed.

(** A sum of non-negative numbers is 0 only when each of them is. *)
Lemma sumN_zero_iff (l : list num) :
  Forall nonnegative l ->
  sumN l = ofZ 0 <-> Forall (fun x => x = ofZ 0) l.
Proof.
  induction 1 as [|x l Hx Hl IH]; [done|].
  rewrite sumN_cons. destruct (sumN_nonnegative l Hl) as (s & Hs & Hspos).
  destruct Hx as (q & -> & Hq). rewrite Hs in *. cbn [jsadd]. split.
  - intros Hzero%Fin_inj.
    assert (q = Qc_of_Z 0) as ->.
    { apply Qcle_antisym; [|done]. rewrite <-Hzero.
      rewrite <-(Qcplus_0_r q) at 1. apply Qcplus_le_compat; [apply Qcle_refl|].
      by rewrite <-Z2Qc_inj_0. }
    constructor; [done|]. apply IH. unfold ofZ. f_equal.
    rewrite Z2Qc_inj_0, Qcplus_0_l in Hzero. by rewrite Hzero, Z2Qc_inj_0.
  - intros [Hq0%Fin_inj Hl0]%Forall_cons. apply IH in Hl0. apply Fin_inj in Hl0.
    rewrite Hq0, Hl0. unfold ofZ. f_equal.
    rewrite Z2Qc_inj_0. apply Qcplus_0_l.
Qed.

Section ZeroTotals.
Context {R : JSRuntime} {HR : NumberLaws R}.

(** The hours of an entry with well-formed times are 0 only when the entry
    ends at the time at which it starts. *)
Lemma entryHours_zero_iff (e : TimeEntry.t) :
  wellTimed e = true ->
  entryHours e = ofZ 0 <-> TimeEntry.endTime e = TimeEntry.startTime e.
Proof.
  unfold wellTimed. intros He.
  destruct (parseHHMM (TimeEntry.startTime e)) as [[h1 m1]|] eqn:Hs; [|done].
  destruct (parseHHMM (TimeEntry.endTime e)) as [[h2 m2]|] eqn:Hend; [|done].
  unfold entryHours.
  rewrite getDurationInHours_div60, (calculateDuration_well_formed _ _ _ _ _ _ Hs Hend).
  pose proof (parseHM_well_formed _ _ _ Hs) as (_ & Hh1 & Hm1).
  pose proof (parseHM_well_formed _ _ _ Hend) as (_ & Hh2 & Hm2).
  assert (Qc_of_Z 60 <> Q2Qc 0) as Hsixty.
  { rewrite <-Z2Qc_inj_0. intros Heq. by apply Z2Qc_inj in Heq. }
  split.
  - unfold div60, ofZ. intros Hzero%Fin_inj.
    assert (Qc_of_Z (specMinutes h1 m1 h2 m2) = Qc_of_Z 0) as Hmin.
    { rewrite <-(Qcmult_div_r (Qc_of_Z (specMinutes h1 m1 h2 m2)) (Qc_of_Z 60))
        by done.
      rewrite Hzero, Z2Qc_inj_0. ring. }
    apply Z2Qc_inj in Hmin. unfold specMinutes in Hmin.
    destruct (_ <? 0) eqn:Hneg in Hmin; [apply Z.ltb_lt in Hneg|apply Z.ltb_ge in Hneg].
    + lia.
    + assert (h2 = h1 /\ m2 = m1) as [-> ->] by lia.
      by apply (parseHHMM_inj _ _ (h1, m1)).
  - intros Heq. rewrite Heq, Hs in Hend. injection Hend as <- <-.
    unfold specMinutes. rewrite Z.sub_diag. cbn [Z.ltb Z.compare].
    unfold div60, ofZ. f_equal. rewrite Z2Qc_inj_0. unfold Qcdiv. ring.
Qed.

Lemma counted_hours_nonnegative (l : list TimeEntry.t) :
  Forall (fun e => wellTimed e = true) l ->
  Forall nonnegative (map entryHours l).
Proof.
  intros Hwell. apply Forall_forall. intros x (e & -> & He)%list_elem_of_fmap.
  apply entryHours_wellTimed. by eapply Forall_forall in Hwell.
Qed.

Lemma counted_hours_zero_iff (l : list TimeEntry.t) :
  Forall (fun e => wellTimed e = true) l ->
  sumN (map entryHours l) = ofZ 0
  <-> Forall (fun e => TimeEntry.endTime e = TimeEntry.startTime e) l.
Proof.
  intros Hwell. rewrite sumN_zero_iff by by apply counted_hours_nonnegative.
  rewrite Forall_fmap. unfold compose. rewrite !Forall_forall.
  split; intros Hall e He; apply entryHours_zero_iff; auto;
    by eapply Forall_forall in Hwell.
Qed.
End ZeroTotals.

(** X18. In a report whose counted entries have well-formed times, the
    total hours of every month and the grand total of hours are numbers that
    are not negative, no month has more hours than the grand total, and the
    grand total is 0, which is when the report shows its "No data found"
    row, exactly when every counted entry ends at the time at which it
    starts; so it is 0 when no entry is counted.  (Sums of numbers that are
    not negative have these properties whatever the rounding of the
    additions.) *)
Theorem X18_grand_total_of_hours_is_zero_only_for_empty_spans
    {R : JSRuntime} {HR : NumberLaws R}
    (entries : list TimeEntry.t) (projects : list Project.t)
    (selectedYear : Z) (available : list Project.t) (selectedProjectIds : gset string)
    (invoiceFilter : InvoiceFilter) (licenses servers domains : list CostItem.t) :
  let data :=
    processedData entries projects selectedYear available selectedProjectIds
      invoiceFilter licenses servers domains in
  let counted :=
    yearEntries selectedYear (activeProjectIds available selectedProjectIds)
      invoiceFilter entries in
  Forall (fun e => wellTimed e = true) counted ->
  (exists g,
      Processed.grandTotalHours data = Fin g /\ (Qc_of_Z 0 <= g)%Qc
      /\ Forall
           (fun d => exists t,
                Monthly.totalHours d = Fin t /\ (Qc_of_Z 0 <= t)%Qc /\ (t <= g)%Qc)
           (Processed.monthlyData data))
  /\ (Processed.grandTotalHours data = ofZ 0
      <-> Forall (fun e => TimeEntry.endTime e = TimeEntry.startTime e) counted)
  /\ (counted = [] -> Processed.grandTotalHours data = ofZ 0).
Proof.
  intros data counted Hwell.
  assert (Processed.grandTotalHours data = sumN (map entryHours counted)) as Hgrand
    by apply grandTotalHours_sum.
  assert (Processed.grandTotalHours data
          = sumN (map Monthly.totalHours (Processed.monthlyData data))) as Hfold.
  { unfold data, processedData. cbn [Processed.grandTotalHours Processed.monthlyData].
    by rewrite (fold_left_jsadd Monthly.totalHours), jsadd_0_l. }
  assert (Forall nonnegative (map Monthly.totalHours (Processed.monthlyData data)))
    as Hmonths.
  { unfold data, processedData. cbn [Processed.monthlyData]. rewrite map_map.
    apply Forall_forall. intros x (month & -> & _)%list_elem_of_fmap.
    cbn [monthlyRecord Monthly.totalHours]. unfold totalHoursOf.
    rewrite (fold_left_jsadd entryHours), jsadd_0_l.
    apply sumN_nonnegative, counted_hours_nonnegative.
    by apply monthEntries_Forall. }
  split; [|split].
  - destruct (sumN_nonnegative _ Hmonths) as (g & Hg & Hgpos).
    exists g. rewrite Hfold. split; [done|]. split; [done|].
    apply Forall_forall. intros d Hd.
    assert (Monthly.totalHours d
            ∈ map Monthly.totalHours (Processed.monthlyData data)) as Hin
      by by apply (list_elem_of_fmap_2 Monthly.totalHours).
    pose proof (proj1 (Forall_forall _ _) Hmonths _ Hin) as (t & Ht & Htpos).
    rewrite Ht in Hin.
    destruct (sumN_summand _ t Hmonths Hin) as (g' & Hg' & Hle).
    rewrite Hg in Hg'. injection Hg' as <-. by exists t.
  - rewrite Hgrand. by apply counted_hours_zero_iff.
  - intros Hnil. rewrite Hgrand. fold counted. by rewrite Hnil.
Qed.

Lemma X18_witness :
  let data :=
    processedData (R := asciiRuntime) acmeEntries [acmeProject; acmeProject2] 2024
      [acmeProject; acmeProject2] {["p3"%string; "p4"%string]} FilterAll [] [] [] in
  let counted :=
    yearEntries 2024
      (activeProjectIds [acmeProject; acmeProject2] {["p3"%string; "p4"%string]})
      FilterAll acmeEntries in
  (exists g,
      Processed.grandTotalHours data = Fin g /\ (Qc_of_Z 0 <= g)%Qc
      /\ Forall
           (fun d => exists t,
                Monthly.totalHours d = Fin t /\ (Qc_of_Z 0 <= t)%Qc /\ (t <= g)%Qc)
           (Processed.monthlyData data))
  /\ (Processed.grandTotalHours data = ofZ 0
      <-> Forall (fun e => TimeEntry.endTime e = TimeEntry.startTime e) counted)
  /\ (counted = [] -> Processed.grandTotalHours data = ofZ 0).
Proof.
  apply (X18_grand_total_of_hours_is_zero_only_for_empty_spans (R := asciiRuntime)
           acmeEntries [acmeProject; acmeProject2] 2024 [acmeProject; acmeProject2]
           {["p3"%string; "p4"%string]} FilterAll [] [] []).
  apply Forall_forall. intros e He.
  apply list_elem_of_In, filter_In in He as [He _].
  destruct He as [<-|[<-|[]]]; reflexivity.
Defined.

(** X22. When no client name and no project name of the project list is an
    inherited property name and the counted entries have well-formed times,
    the ledger of a rendered report has one grand total line, which is its
    last line and holds the grand total of hours of the report; and that
    total is 0 exactly when every entry line of the ledger has the duration
    0. *)
Theorem X22_ledger_ends_with_the_grand_total {R : JSRuntime} {HR : NumberLaws R}
    (selectedClientId : string) (selectedProjectIds : gset string)
    (selectedYear : Z) (invoiceFilter : InvoiceFilter)
    (entries : list TimeEntry.t) (projects : list Project.t)
    (clients : list Client.t) (licenses servers domains : list CostItem.t) :
  let data :=
    reportData selectedClientId selectedProjectIds selectedYear invoiceFilter
      entries projects clients licenses servers domains in
  let doc :=
    exportReport selectedClientId selectedProjectIds selectedYear invoiceFilter
      entries projects clients licenses servers domains in
  plainNames projects = true ->
  Forall (fun e => wellTimed e = true)
    (yearEntries selectedYear (Processed.relevantProjectIds data) invoiceFilter
       entries) ->
  ledgerGrandTotal doc = [Processed.grandTotalHours data]
  /\ last doc = Some (LGrandTotal (Processed.grandTotalHours data))
  /\ (Processed.grandTotalHours data = ofZ 0
      <-> Forall (fun r => snd r = ofZ 0) (ledgerRows doc)).
Proof.
  intros data doc _ Hwell.
  unfold data in Hwell. rewrite relevantProjectIds_reportData in Hwell.
  split; [apply ledgerGrandTotal_handleExport|]. split.
  - unfold doc, exportReport, handleExport.
    by rewrite !last_app.
  - destruct (exportReport_ledgerRows selectedClientId selectedProjectIds selectedYear
                invoiceFilter entries projects clients licenses servers domains)
      as [Hperm Hrows].
    fold doc in Hperm, Hrows.
    assert (Processed.grandTotalHours data
            = sumN (map entryHours
                      (yearEntries selectedYear
                         (activeProjectIds
                            (availableProjects selectedClientId projects clients)
                            selectedProjectIds)
                         invoiceFilter entries))) as ->.
    { unfold data. rewrite reportData_eq. apply grandTotalHours_sum. }
    rewrite (counted_hours_zero_iff _ Hwell), <-Hperm.
    rewrite <-(counted_hours_zero_iff (map fst (ledgerRows doc)))
      by by rewrite Hperm.
    rewrite sumN_zero_iff
      by (apply counted_hours_nonnegative; by rewrite Hperm).
    rewrite map_map, Forall_fmap. unfold compose.
    rewrite !Forall_forall. split; intros Hall r Hr.
    + pose proof (proj1 (Forall_forall _ _) Hrows r Hr) as ->. by apply Hall.
    + pose proof (proj1 (Forall_forall _ _) Hrows r Hr) as <-. by apply Hall.
Qed.

Lemma X22_witness :
  let data :=
    reportData (R := asciiRuntime) "all" {["p3"%string; "p4"%string]} 2024 FilterAll
      acmeEntries [acmeProject; acmeProject2] [] [] [] [] in
  let doc :=
    exportReport (R := asciiRuntime) "all" {["p3"%string; "p4"%string]} 2024
      FilterAll acmeEntries [acmeProject; acmeProject2] [] [] [] [] in
  ledgerGrandTotal doc = [Processed.grandTotalHours data]
  /\ last doc = Some (LGrandTotal (Processed.grandTotalHours data))
  /\ (Processed.grandTotalHours data = ofZ 0
      <-> Forall (fun r => snd r = ofZ 0) (ledgerRows doc)).
Proof.
  apply (X22_ledger_ends_with_the_grand_total (R := asciiRuntime) "all"
           {["p3"%string; "p4"%string]} 2024 FilterAll acmeEntries
           [acmeProject; acmeProject2] [] [] [] []).
  - reflexivity.
  - apply Forall_forall. intros e He.
    apply list_elem_of_In, filter_In in He as [He _].
    destruct He as [<-|[<-|[]]]; reflexivity.
Defined.
